(* ===== verification/_CoqProject ===== *)
-Q . S2P
Prelude.v
Python.v
Tensor.v
TDTarget.v
FloatTarget.v
Policy.v
Scheduler.v
Learner.v
DDQN.v
PerDQN.v
DRQN.v
Training.v
Launcher.v
ClipGrad.v
