(* ===== verification/Prelude.v ===== *)
(** * A verification development for the Q-learning learners of xuance

    ** The program

    The sources under src/ are three PyTorch learners of the xuance
    library (src/xuance/torch/learners/qlearning_family/) and a benchmark
    launcher (src/benchmark_marl.py).  A learner owns a policy with an
    online and a target Q-network, an Adam optimizer and a [LinearLR]
    scheduler; the runner calls [update] with a batch of
    transitions drawn from a replay buffer.  Each [update] increments the
    iteration counter, reads the batch, evaluates both networks, builds
    the TD target [r + gamma * (1 - done) * Q_target(s')] and the
    prediction [Q(s, a)], takes one optimizer step on their MSE, steps
    the scheduler, copies the online network into the target network
    every [sync_frequency] iterations, and returns statistics:
    - [DDQN_Learner.update] (ddqn_learner.py 26-70) bootstraps from the
      target network's values at its own arg-max actions;
    - [PerDQN_Learner.update] (perdqn_learner.py 51-94) bootstraps from
      the maximum, reads its batch through [build_training_data] (29-49),
      which shards it across workers by the [RANK] environment variable,
      and also returns [|td_error|] as the new replay priorities;
    - [DRQN_Learner.update] (drqn_learner.py 26-73) works on B x (T+1)
      sequences through a recurrent network with fresh hidden states.
    The launcher parses six command-line options with [argparse] and
    hands them to the runner factory [get_runner].

    ** The files

    - [Prelude] (this file): the [result] type of computations that
      raise, the state-and-exception monad [PyM] that models a method
      mutating [self] (the state is kept when an exception escapes, as in
      Python), the equivalence [=v=] of rational vectors, [zip_with],
      [mapR] (a map that stops at the first exception), tactics and the
      hint databases [xuance] and [xuance_rw].
    - [Python]: the Python and NumPy operations the code uses, with their
      exceptions: [range], [//] and [%] (raising [ZeroDivisionError]),
      NumPy indexing by an index list, slices, dicts as association
      lists ([KeyError]), [str] of an integer and [int] of a string with
      every spelling CPython accepts (blanks, sign, underscores).
    - [Tensor]: rank-one and rank-two tensors as lists of rationals,
      broadcasting of the element-wise operators (a size-1 side is
      stretched; other mismatches raise), [one_hot] (raising on a class
      out of range), [sum(dim=-1)], [max(dim=-1)], arg-max, mean and the
      MSE loss.
    - [TDTarget]: lines 37-40 of ddqn_learner.py and 62-64 of
      perdqn_learner.py ([mask_select], [td_target], [ddqn_target],
      [perdqn_target], [predict_q]) against the Bellman backup [td_ref].
    - [FloatTarget]: the same target lines and the MSE loss on IEEE-754
      floats ([SpecFloat], any binary format), where [0 * inf] is NaN.
    - [Policy]: the policy and optimizer collaborators, which are not
      under src/, as type classes ([QNet], [RQNet], [Optimizer]) stated
      from the specification; [copy_target] is the hard sync.  The
      module [Toy] gives small instances for running the models.
    - [Scheduler]: torch's [LinearLR] with its factor checks and its
      chainable step; its closed form for the learners' factors.
    - [Learner]: the learner state as a record ([iterations], [policy],
      [grads], [opt_state], [lr], [scheduler]), the constructor, each
      statement of the shared update tail as a [PyM] action
      ([incr_iterations], [zero_grad], [backward], [clip_grads],
      [optimizer_step], [scheduler_step], [hard_update]), the
      statistics keys, the typed reads of the batch, and [update_shell],
      the shape every [update] shares, with its invariant [learner_wf].
    - [DDQN], [PerDQN], [DRQN]: one section per learner with its
      [compute] (the lines between the counter and the optimizer) and
      its [update]; [PerDQN] also models [build_training_data].
    - [Training]: a run of updates as an inductive step relation [run],
      [within], a bounded "eventually" over the outcomes of updates, and
      [train_loop], the runner's loop calling [update] on each sampled
      batch in order (an exception leaves the loop).
    - [Launcher]: benchmark_marl.py: the parser of [parse_args] (its
      options, types and defaults) run by a model of [argparse]'s two
      passes ([classify]: [_parse_optional] on every string; [consume]:
      [consume_optional] from left to right), and the main block's
      [get_runner] call.
    - [ClipGrad]: torch's [clip_grad_norm_] (called at lines 45-46 of
      each learner) over real-valued gradients (Stdlib [Reals]), the
      class [ClipSound] that states its contract for an [Optimizer]
      instance, and the DDQN update proved against that class.

    ** The theorems

    - Targets (TDTarget): the terminal target is the reward; the PER-DQN
      target is the Bellman backup with the maximum; the DDQN target,
      bootstrapping at the target network's own arg-max, equals it (so it
      is the DQN target, not Double DQN); out-of-range actions raise.
    - Floats (FloatTarget): a terminal transition with an infinite or NaN
      bootstrap gets a NaN target, and the loss of its whole batch is
      NaN; with finite values the target compares equal
      to the reward; a non-finite value in an unselected column makes the
      masked selection NaN; a NaN or +inf in the target row of a
      terminal transition gives PerDQN a NaN priority.
    - Updates (DDQN, PerDQN, DRQN, Learner): the counter, the optimizer
      step and the hard sync of an update that returns; the frame of an
      update that raises (only the counter moved, except with
      [sync_frequency = 0], where the modulo raises after the optimizer
      step); the PER weights are ignored; the priorities are, row by
      row, the absolute TD errors of the local transitions; the shards
      of [build_training_data] partition [range(batch_size)], with their
      sizes, while a worker told [RANK = -1] computes without raising on
      the last rows of the batch, rows of the last shard, and an unset
      or malformed [RANK] raises at every update
      after the counter moved; the DRQN windows are aligned and a
      hidden state of the wrong size raises; the constructor; distinct
      statistics keys per rank.
    - Runs (Training): by rule induction on [run], after [k] updates the
      target network holds the online parameters after [N * (k / N)]
      updates, and the learning rate is
      [learning_rate * (1 - min(k, T) / T)]; every sequence of updates
      reaches a synced target network within [N - c mod N] updates;
      the runner's loop of PerDQN updates on batches every parameter
      set can train on terminates normally, with one result per batch,
      and a loop that returns is a [run], so the theorems on runs apply
      to it.
    - Batches (PerDQN): the keys, kinds and row counts of the batch
      [build_training_data] builds; sharding composes with the update
      rule: on a well-formed batch every rank's computation returns and
      the ranks' TD errors, concatenated in rank order, are those of a
      single worker on the whole batch.
    - Clipping (ClipGrad): for a DDQN update that returns with clipping
      on and the optimizer clipping as torch does, a threshold
      [tau >= 0] scales the fresh gradient by one coefficient in [0, 1]
      to a norm at most [tau]; a negative threshold reverses it.  For
      any optimizer whose clipping meets the class [ClipSound], every
      learner's update steps the optimizer once, from the parameters
      before the update, with a gradient of norm at most
      [grad_clip_norm].
    - Launcher: every namespace is recovered from its [--opt=value]
      command line; an ambiguous abbreviation exits with status 2 before anything else,
      [--help] with status 0 when reached, a bad [int] with status 2.
    Each theorem with hypotheses has a witness that applies it to a
    concrete batch and learner built from the [Toy] collaborators.

    ** Bounds and fuel

    Every recursion of the development is structural (on lists, on the
    steps of a run, on the scheduler's step count), so no fuel is needed
    and every definition evaluates by [vm_compute].  Integers of the
    code (counters, ranks, batch sizes, indices) are unbounded Python
    integers and are modelled as [Z]; tensor entries are exact rationals
    [Q] except in [FloatTarget] (IEEE-754) and [ClipGrad] (reals, as
    the norm needs a square root).  Since no loop needs fuel, Rocq's
    guard checker already proves that every definition terminates; the
    termination theorem of the development is the stronger statement
    that the runner's loop ends without an exception on batches the
    learner accepts.

    ** What is not modelled

    - The bodies of the networks, autograd and Adam: the [Optimizer]
      class abstracts a gradient oracle, accumulation, clipping and the
      step, and the theorems hold for every instance.  Clipping is
      modelled over reals: its rounding and [error_if_nonfinite] (off by
      default, so non-finite gradients propagate) are not.
    - Float rounding outside the target lines: the rest of the update
      computes over [Q]; torch's summation order is not modelled (the
      float theorems do not depend on it).
    - Devices, [torch.as_tensor] copies and dtypes (a value of the batch
      is typed by a constructor of [value]; a wrong kind raises
      [TypeError]); non-ASCII digits and blanks, which [int] also accepts.
    - The base class [Learner], the policy classes and the runner, which
      are not under src/: modelled from the specification.
    - In src/benchmark_marl.py, [runner.benchmark()]: the runner is not
      under src/; the model stops at the arguments of [get_runner].  The
      [argparse] model follows CPython 3.8 to 3.11 (3.12 changed the
      handling of [--]); help and usage texts are not modelled, only the
      exit status. *)

From Stdlib Require Import String List ZArith QArith Lia Morphisms Setoid.
Import ListNotations.

Declare Scope xu_scope.
Delimit Scope xu_scope with xu.

(** ** Results of a Python computation *)

(** A computation of the modelled code either returns a value or raises
    an exception of type [E]. *)
Inductive result (E A : Type) : Type :=
| Ok (a : A)
| Err (e : E).
Arguments Ok {E A} a.
Arguments Err {E A} e.

Definition result_of_option {E A} (e : E) (o : option A) : result E A :=
  match o with Some a => Ok a | None => Err e end.

(** Sequencing of computations that may raise. *)
Definition rbind {E A B} (r : result E A) (k : A -> result E B) : result E B :=
  match r with Ok a => k a | Err e => Err e end.

Notation "x <-? c ;; k" := (rbind c (fun x => k))
  (at level 61, c at next level, right associativity) : xu_scope.
Notation "' p <-? c ;; k" := (rbind c (fun x => match x with p => k end))
  (at level 61, p pattern, c at next level, right associativity) : xu_scope.

Lemma rbind_Ok {E A B} (a : A) (k : A -> result E B) : rbind (Ok a) k = k a.
Proof. reflexivity. Qed.

Lemma rbind_Ok_inv {E A B} (r : result E A) (k : A -> result E B) b :
  rbind r k = Ok b -> exists a, r = Ok a /\ k a = Ok b.
Proof. destruct r as [a|e]; simpl; [eauto | discriminate]. Qed.

(** ** The state and exception monad of a Python method

    A Python method mutates [self] in place; when it raises, the
    mutations made before the [raise] persist.  [PyM E S A] is therefore
    a state monad whose final state is returned on both outcomes, unlike
    a state transformer over [sum] that forgets the state on failure. *)
Definition PyM (E S A : Type) : Type := S -> S * result E A.

Definition pret {E S A} (a : A) : PyM E S A := fun s => (s, Ok a).

Definition pbind {E S A B} (c : PyM E S A) (k : A -> PyM E S B) : PyM E S B :=
  fun s =>
    match c s with
    | (s', Ok a) => k a s'
    | (s', Err e) => (s', Err e)
    end.

Definition praise {E S A} (e : E) : PyM E S A := fun s => (s, Err e).
Definition pget {E S} : PyM E S S := fun s => (s, Ok s).
Definition pput {E S} (s : S) : PyM E S unit := fun _ => (s, Ok tt).
Definition pmodify {E S} (f : S -> S) : PyM E S unit := fun s => (f s, Ok tt).
Definition plift {E S A} (r : result E A) : PyM E S A :=
  fun s => (s, r).

Notation "x <- c ;; k" := (pbind c (fun x => k))
  (at level 61, c at next level, right associativity) : xu_scope.
Notation "' p <- c ;; k" := (pbind c (fun x => match x with p => k end))
  (at level 61, p pattern, c at next level, right associativity) : xu_scope.
Notation "c ;; k" := (pbind c (fun _ : unit => k))
  (at level 61, right associativity) : xu_scope.

Open Scope xu_scope.

Lemma pbind_ret {E S A B} (a : A) (k : A -> PyM E S B) s :
  pbind (pret a) k s = k a s.
Proof. reflexivity. Qed.

Lemma pbind_raise {E S A B} (e : E) (k : A -> PyM E S B) s :
  pbind (praise e) k s = (s, Err e).
Proof. reflexivity. Qed.

Lemma pbind_assoc {E S A B C} (c : PyM E S A) (f : A -> PyM E S B)
      (g : B -> PyM E S C) s :
  pbind (pbind c f) g s = pbind c (fun a => pbind (f a) g) s.
Proof. unfold pbind. destruct (c s) as [s' [a|e]]; reflexivity. Qed.

Lemma pbind_Ok {E S A B} (c : PyM E S A) (k : A -> PyM E S B) s s' a :
  c s = (s', Ok a) -> pbind c k s = k a s'.
Proof. unfold pbind. intros ->. reflexivity. Qed.

Lemma pbind_Err {E S A B} (c : PyM E S A) (k : A -> PyM E S B) s s' e :
  c s = (s', Err e) -> pbind c k s = (s', Err e).
Proof. unfold pbind. intros ->. reflexivity. Qed.

(** ** Vectors of rationals up to [Qeq] *)

(** Two vectors are equivalent when they have the same length and are
    pointwise equal as rationals. *)
Definition veq : list Q -> list Q -> Prop := Forall2 Qeq.
Infix "=v=" := veq (at level 70) : xu_scope.

#[export] Instance veq_Equivalence : Equivalence veq.
Proof.
  split.
  - intros xs. induction xs; constructor; [reflexivity | assumption].
  - intros xs ys H. induction H; constructor; [symmetry; assumption | assumption].
  - intros xs ys zs H. revert zs.
    induction H as [|x y xs ys Hxy _ IH]; intros zs H2; inversion H2; subst;
      constructor; [rewrite Hxy; assumption | apply IH; assumption].
Qed.

Lemma veq_length xs ys : xs =v= ys -> length xs = length ys.
Proof. apply Forall2_length. Qed.

(** ** Generic list helpers *)

(** [zip_with f xs ys] combines two lists elementwise, up to the shorter. *)
Fixpoint zip_with {A B C} (f : A -> B -> C) (xs : list A) (ys : list B) : list C :=
  match xs, ys with
  | x :: xs', y :: ys' => f x y :: zip_with f xs' ys'
  | _, _ => []
  end.

Lemma length_zip_with {A B C} (f : A -> B -> C) xs ys :
  length (zip_with f xs ys) = Nat.min (length xs) (length ys).
Proof. revert ys; induction xs; destruct ys; simpl; auto. Qed.

Lemma nth_error_zip_with {A B C} (f : A -> B -> C) xs ys i x y :
  nth_error xs i = Some x -> nth_error ys i = Some y ->
  nth_error (zip_with f xs ys) i = Some (f x y).
Proof.
  revert ys i; induction xs as [|x' xs IH]; intros [|y' ys] [|i]; simpl;
    try discriminate; auto.
  intros [= ->] [= ->]. reflexivity.
Qed.

(** Traversal of a list by a partial function, stopping at the first
    failure. *)
Fixpoint mapR {E A B} (f : A -> result E B) (xs : list A) : result E (list B) :=
  match xs with
  | [] => Ok []
  | x :: xs' =>
      match f x with
      | Err e => Err e
      | Ok y => match mapR f xs' with
                | Err e => Err e
                | Ok ys => Ok (y :: ys)
                end
      end
  end.

Lemma mapR_Ok_iff {E A B} (f : A -> result E B) xs ys :
  mapR f xs = Ok ys <-> Forall2 (fun x y => f x = Ok y) xs ys.
Proof.
  revert ys; induction xs as [|x xs IH]; intros ys; simpl.
  - split; [intros [= <-]; constructor | intros H; inversion H; reflexivity].
  - destruct (f x) as [y|e] eqn:Hf.
    + destruct (mapR f xs) as [ys'|e] eqn:Hr.
      * split.
        -- intros [= <-]. constructor; [assumption | apply IH; reflexivity].
        -- intros H; inversion H as [|? y'' ? ys'' Hy Hys]; subst.
           rewrite Hf in Hy; injection Hy as ->.
           apply IH in Hys; injection Hys as ->. reflexivity.
      * split; [discriminate|].
        intros H; inversion H as [|? ? ? ? _ Hys]; subst.
        apply IH in Hys; discriminate.
    + split; [discriminate|].
      intros H; inversion H as [|? ? ? ? Hy _]; subst; congruence.
Qed.

Lemma mapR_length {E A B} (f : A -> result E B) xs ys :
  mapR f xs = Ok ys -> length ys = length xs.
Proof. intros H%mapR_Ok_iff. symmetry. eapply Forall2_length; eauto. Qed.

Lemma Forall2_nth_error_l {A B} (R : A -> B -> Prop) xs ys i x :
  Forall2 R xs ys -> nth_error xs i = Some x -> exists y, nth_error ys i = Some y /\ R x y.
Proof.
  intros H; revert i; induction H as [|x' y' xs ys Hr _ IH]; intros [|i]; simpl;
    try discriminate; [intros [= <-]; eauto | apply IH].
Qed.

Lemma mapR_app {E A B} (f : A -> result E B) l1 l2 :
  mapR f (l1 ++ l2) = (y1 <-? mapR f l1 ;; y2 <-? mapR f l2 ;; Ok (y1 ++ y2)).
Proof.
  induction l1 as [|x l1 IH]; simpl.
  - destruct (mapR f l2); reflexivity.
  - destruct (f x) as [y|e]; [|reflexivity]. rewrite IH.
    destruct (mapR f l1); simpl; [|reflexivity].
    destruct (mapR f l2); reflexivity.
Qed.

Lemma mapR_concat {E A B} (f : A -> result E B) ls :
  mapR f (concat ls) = (ys <-? mapR (mapR f) ls ;; Ok (concat ys)).
Proof.
  induction ls as [|l ls IH]; simpl; [reflexivity|].
  rewrite mapR_app, IH. destruct (mapR f l); simpl; [|reflexivity].
  destruct (mapR (mapR f) ls); reflexivity.
Qed.

Lemma mapR_map {E A B C} (f : B -> result E C) (g : A -> B) l :
  mapR f (map g l) = mapR (fun x => f (g x)) l.
Proof. induction l as [|x l IH]; simpl; [|rewrite IH]; reflexivity. Qed.

(** Succeeding on every element of a list gives a result related
    element-wise. *)
Lemma mapR_exists {E A B} (f : A -> result E B) (R : A -> B -> Prop) xs :
  Forall (fun x => exists y, f x = Ok y /\ R x y) xs ->
  exists ys, mapR f xs = Ok ys /\ Forall2 R xs ys.
Proof.
  induction 1 as [|x xs [y [Hy Hr]] _ [ys [Hys Hf]]]; [exists []; split; constructor|].
  exists (y :: ys). simpl. rewrite Hy, Hys. split; [reflexivity | constructor; assumption].
Qed.

(** ** Element-wise relations *)

Section Forall2Facts.
Context {A B C : Type}.

Lemma Forall2_concat (R : A -> B -> Prop) xss yss :
  Forall2 (Forall2 R) xss yss -> Forall2 R (concat xss) (concat yss).
Proof. induction 1; simpl; [constructor | apply Forall2_app; assumption]. Qed.

(** Two relations from the same list: their images are related. *)
Lemma Forall2_common (R1 : A -> B -> Prop) (R2 : A -> C -> Prop) (R3 : B -> C -> Prop) xs ys zs :
  (forall x y z, R1 x y -> R2 x z -> R3 y z) ->
  Forall2 R1 xs ys -> Forall2 R2 xs zs -> Forall2 R3 ys zs.
Proof.
  intros HR H1. revert zs. induction H1; intros zs H2; inversion H2; subst; constructor; eauto.
Qed.

(** Mapping the right-hand list: each image comes from a related value. *)
Lemma Forall2_map_ex (R : A -> B -> Prop) (f : B -> C) xs ys :
  Forall2 R xs ys -> Forall2 (fun x z => exists y, R x y /\ z = f y) xs (map f ys).
Proof. induction 1; simpl; constructor; eauto. Qed.

Lemma Forall2_of_nth (R : A -> B -> Prop) xs ys :
  length xs = length ys ->
  (forall i x y, nth_error xs i = Some x -> nth_error ys i = Some y -> R x y) ->
  Forall2 R xs ys.
Proof.
  revert ys; induction xs as [|x xs IH]; intros [|y ys] Hl Hn; try discriminate; constructor.
  - apply (Hn 0%nat); reflexivity.
  - apply IH; [injection Hl; auto | intros i; apply (Hn (S i))].
Qed.

Lemma nth_error_combine_inv (xs : list A) (ys : list B) i x y :
  nth_error (combine xs ys) i = Some (x, y) -> nth_error xs i = Some x /\ nth_error ys i = Some y.
Proof.
  revert ys i; induction xs as [|x' xs IH]; intros [|y' ys] [|i]; simpl; try discriminate;
    [intros [= -> ->]; auto | apply IH].
Qed.
Lemma nth_error_combine (xs : list A) (ys : list B) i x y :
  nth_error xs i = Some x -> nth_error ys i = Some y -> nth_error (combine xs ys) i = Some (x, y).
Proof.
  revert ys i; induction xs as [|x' xs IH]; intros [|y' ys] [|i]; simpl; try discriminate;
    [intros [= ->] [= ->]; reflexivity | apply IH].
Qed.
End Forall2Facts.

(** ** Tactics and hints shared by the development *)

Ltac inv H := inversion H; clear H; subst.

(** Split a hypothesis [match e with ... end = v] on [e]. *)
Ltac destruct_match_in H :=
  match type of H with
  | context [match ?e with _ => _ end] => destruct e eqn:?
  end.

(** [NoDup] of a closed list of distinct constants. *)
Ltac solve_nodup :=
  vm_compute;
  repeat (apply NoDup_cons; [intros ?H; repeat destruct H as [H|H]; first [discriminate H | exact H]|]);
  apply NoDup_nil.

(** Two successful runs of one computation agree. *)
Ltac ok_unique :=
  repeat match goal with
  | H1 : ?e = Ok ?x, H2 : ?e = Ok ?y |- _ =>
      assert_fails (constr_eq x y); rewrite H1 in H2; injection H2 as H2; subst y
  end.

Create HintDb xuance.
Create Rewrite HintDb xuance_rw.
#[export] Hint Resolve veq_length mapR_length : xuance.
#[export] Hint Rewrite @length_zip_with : xuance_rw.
