(* ===== verification/Python.v ===== *)
(** * Python and NumPy semantics used by the learners

    The built-ins the three learner files call, with the exceptions they
    raise: [range], integer [//] and [%] (floor semantics, as [Z.div] and
    [Z.modulo]), NumPy indexing of an array by a [range] ([v[indices]] in
    [PerDQN_Learner.build_training_data]), list slicing ([obs[:, 0:-1]]
    and [obs[:, 1:]] in [DRQN_Learner.update]), dictionaries as insertion
    ordered association lists ([samples], [info]), [str] of an integer
    (the f-strings of the statistics keys) and [int] of a string
    ([int(os.environ['RANK'])] and the [type=int] options of the
    launcher), with the spellings CPython accepts. *)

From Stdlib Require Import Ascii String List ZArith Lia DecimalString DecimalZ DecimalPos.
From S2P Require Import Prelude.
Import ListNotations.
Open Scope bool_scope.
Open Scope Z_scope.

(** ** Exceptions *)

Inductive exn : Type :=
| KeyError (k : string)
| IndexError
| ValueError
| TypeError
| ZeroDivisionError
| RuntimeError (msg : string).

(** ** [range(a, b)] *)

Definition py_range (a b : Z) : list Z :=
  map (fun k => a + Z.of_nat k) (seq 0 (Z.to_nat (b - a))).

Lemma map_seq_shift {A} (f : nat -> A) n m :
  map f (seq n m) = map (fun k => f (n + k)%nat) (seq 0 m).
Proof.
  revert f n; induction m as [|m IH]; intros f n; [reflexivity|].
  simpl. rewrite Nat.add_0_r. f_equal.
  rewrite IH, (IH (fun k => f (n + k)%nat) 1%nat).
  apply map_ext. intros k. f_equal. lia.
Qed.

Lemma py_range_length a b : length (py_range a b) = Z.to_nat (b - a).
Proof. unfold py_range. rewrite length_map, length_seq. reflexivity. Qed.

Lemma py_range_empty a b : b <= a -> py_range a b = [].
Proof. intros H. unfold py_range. replace (Z.to_nat (b - a)) with 0%nat by lia. reflexivity. Qed.

(** Consecutive ranges concatenate. *)
Lemma py_range_app a b c :
  a <= b <= c -> py_range a b ++ py_range b c = py_range a c.
Proof.
  intros H. unfold py_range.
  replace (Z.to_nat (c - a)) with (Z.to_nat (b - a) + Z.to_nat (c - b))%nat by lia.
  rewrite seq_app, map_app, (map_seq_shift _ (0 + _)). f_equal.
  apply map_ext. intros k. lia.
Qed.

Lemma in_py_range a b i : In i (py_range a b) <-> a <= i < b.
Proof.
  unfold py_range. rewrite in_map_iff. split.
  - intros [k [<- Hk]]. apply in_seq in Hk. lia.
  - intros H. exists (Z.to_nat (i - a)). split; [lia|]. apply in_seq. lia.
Qed.

(** ** Integer [//] and [%] *)

Definition py_floordiv (a b : Z) : result exn Z :=
  if b =? 0 then Err ZeroDivisionError else Ok (a / b).

Definition py_mod (a b : Z) : result exn Z :=
  if b =? 0 then Err ZeroDivisionError else Ok (a mod b).

(** ** NumPy indexing of a one-dimensional array by integer indices *)

(** [v[i]]: a negative index counts from the end; out of range raises. *)
Definition np_index {A} (xs : list A) (i : Z) : result exn A :=
  let n := Z.of_nat (length xs) in
  if (0 <=? i) && (i <? n) then result_of_option IndexError (nth_error xs (Z.to_nat i))
  else if (- n <=? i) && (i <? 0) then
    result_of_option IndexError (nth_error xs (Z.to_nat (n + i)))
  else Err IndexError.

(** [v[indices]] for a sequence of indices (fancy indexing). *)
Definition np_take {A} (xs : list A) (idx : list Z) : result exn (list A) :=
  mapR (np_index xs) idx.

(** Fancy indexing takes elements of the array, one per index. *)
Lemma np_index_In {A} (xs : list A) i x : np_index xs i = Ok x -> In x xs.
Proof.
  unfold np_index, result_of_option. intros H.
  destruct (_ && _)%Z; [|destruct (_ && _)%Z; [|discriminate]];
    (destruct (nth_error _ _) eqn:E; [injection H as <-; eapply nth_error_In; exact E | discriminate]).
Qed.

Lemma np_take_incl {A} (xs : list A) idx ys : np_take xs idx = Ok ys -> incl ys xs.
Proof.
  intros H%mapR_Ok_iff y Hy. induction H as [|i y' idx ys' Hi _ IH]; [destruct Hy|].
  destruct Hy as [<-|Hy]; [exact (np_index_In _ _ _ Hi) | exact (IH Hy)].
Qed.

(** Indexing two arrays of one length and pairing the rows commute. *)
Lemma np_index_combine {A B} (xs : list A) (ys : list B) i x y :
  length xs = length ys -> np_index xs i = Ok x -> np_index ys i = Ok y ->
  np_index (combine xs ys) i = Ok (x, y).
Proof.
  intros Hl Hx Hy. unfold np_index, result_of_option in *.
  rewrite length_combine, Hl, Nat.min_id. rewrite Hl in Hx.
  destruct (_ && _)%Z; [|destruct (_ && _)%Z; [|discriminate]];
    (destruct (nth_error xs _) eqn:E1; [|discriminate]);
    (destruct (nth_error ys _) eqn:E2; [|discriminate]);
    injection Hx as <-; injection Hy as <-; rewrite (nth_error_combine _ _ _ _ _ E1 E2); reflexivity.
Qed.

Lemma np_take_combine {A B} (xs : list A) (ys : list B) idx xs' ys' :
  length xs = length ys -> np_take xs idx = Ok xs' -> np_take ys idx = Ok ys' ->
  np_take (combine xs ys) idx = Ok (combine xs' ys').
Proof.
  intros Hl Hx%mapR_Ok_iff Hy%mapR_Ok_iff. apply mapR_Ok_iff. revert ys' Hy.
  induction Hx as [|i x idx xs' Hi _ IH]; intros ys' Hy; inversion Hy; subst; simpl; constructor;
    [apply np_index_combine; assumption | apply IH; assumption].
Qed.

Lemma py_range_cons a b : a < b -> py_range a b = a :: py_range (a + 1) b.
Proof.
  intros H. unfold py_range.
  replace (Z.to_nat (b - a)) with (S (Z.to_nat (b - (a + 1)))) by lia.
  simpl. f_equal; [lia|]. rewrite (map_seq_shift _ 1). apply map_ext. intros k. lia.
Qed.

Lemma skipn_nth_error {A} (xs : list A) k x :
  nth_error xs k = Some x -> skipn k xs = x :: skipn (S k) xs.
Proof.
  revert k; induction xs as [|y xs IH]; intros [|k]; simpl; try discriminate.
  - intros [= ->]. reflexivity.
  - apply IH.
Qed.

Lemma np_index_in {A} (xs : list A) i :
  0 <= i < Z.of_nat (length xs) ->
  exists x, nth_error xs (Z.to_nat i) = Some x /\ np_index xs i = Ok x.
Proof.
  intros H. destruct (nth_error xs (Z.to_nat i)) as [x|] eqn:E.
  - exists x. split; [reflexivity|]. unfold np_index.
    replace ((0 <=? i) && (i <? Z.of_nat (length xs))) with true by lia.
    rewrite E. reflexivity.
  - apply nth_error_None in E. lia.
Qed.



(** Indexing an array by [range(a, b)] inside its bounds takes the
    slice [a:b]. *)
Lemma np_take_range {A} (xs : list A) a b :
  0 <= a -> a <= b -> b <= Z.of_nat (length xs) ->
  np_take xs (py_range a b) = Ok (firstn (Z.to_nat (b - a)) (skipn (Z.to_nat a) xs)).
Proof.
  remember (Z.to_nat (b - a)) as n eqn:En. revert a En.
  induction n as [|n IH]; intros a En Ha Hab Hb.
  - rewrite py_range_empty by lia. reflexivity.
  - rewrite py_range_cons by lia.
    destruct (np_index_in xs a) as [x [Hn Hi]]; [lia|].
    unfold np_take; simpl. fold (np_take xs (py_range (a + 1) b)).
    rewrite Hi, (IH (a + 1)) by lia.
    rewrite (skipn_nth_error _ _ _ Hn).
    replace (S (Z.to_nat a)) with (Z.to_nat (a + 1)) by lia. reflexivity.
Qed.

(** A negative index [i] reads [xs[len(xs) + i]]. *)
Lemma np_index_neg {A} (xs : list A) i :
  - Z.of_nat (length xs) <= i < 0 -> np_index xs i = np_index xs (Z.of_nat (length xs) + i).
Proof.
  intros H. unfold np_index.
  replace ((0 <=? i) && (i <? Z.of_nat (length xs))) with false by lia.
  replace ((- Z.of_nat (length xs) <=? i) && (i <? 0)) with true by lia.
  replace ((0 <=? Z.of_nat (length xs) + i) && (Z.of_nat (length xs) + i <? Z.of_nat (length xs)))
    with true by lia.
  reflexivity.
Qed.

(** Indexing by a range of negative indices takes the slice counted
    from the end: [xs[range(a, b)] = xs[n+a : n+b]] for [-n <= a <= b <= 0]. *)
(** Indices inside the bounds, counted from either end, never raise. *)
Lemma np_take_ok {A} (xs : list A) idx :
  Forall (fun i => - Z.of_nat (length xs) <= i < Z.of_nat (length xs)) idx ->
  exists ys, np_take xs idx = Ok ys.
Proof.
  intros H. destruct (mapR_exists (np_index xs) (fun _ _ => True) idx) as [ys [Hys _]];
    [|exists ys; exact Hys].
  eapply Forall_impl; [|exact H]. intros i Hi; cbv beta in Hi.
  destruct (Z.ltb_spec i 0) as [Hn|Hn].
  - rewrite np_index_neg by lia.
    destruct (np_index_in xs (Z.of_nat (length xs) + i)) as [x [_ Hx]]; [lia | eauto].
  - destruct (np_index_in xs i) as [x [_ Hx]]; [lia | eauto].
Qed.

Lemma np_take_range_neg {A} (xs : list A) a b :
  - Z.of_nat (length xs) <= a -> a <= b -> b <= 0 ->
  np_take xs (py_range a b)
  = Ok (firstn (Z.to_nat (b - a)) (skipn (Z.to_nat (Z.of_nat (length xs) + a)) xs)).
Proof.
  remember (Z.to_nat (b - a)) as n eqn:En. revert a En.
  induction n as [|n IH]; intros a En Ha Hab Hb.
  - rewrite py_range_empty by lia. reflexivity.
  - rewrite py_range_cons by lia.
    destruct (np_index_in xs (Z.of_nat (length xs) + a)) as [x [Hn Hi]]; [lia|].
    unfold np_take; simpl. fold (np_take xs (py_range (a + 1) b)).
    rewrite np_index_neg, Hi by lia. rewrite (IH (a + 1)) by lia.
    rewrite (skipn_nth_error _ _ _ Hn).
    replace (S (Z.to_nat (Z.of_nat (length xs) + a)))
      with (Z.to_nat (Z.of_nat (length xs) + (a + 1))) by lia. reflexivity.
Qed.

(** ** List slicing [xs[start:stop]] *)

(** A slice bound: negative counts from the end, then clamped to
    [0, n]. *)
Definition py_slice_bound (n i : Z) : Z :=
  if i <? 0 then Z.max 0 (i + n) else Z.min i n.

Definition py_slice {A} (start stop : option Z) (xs : list A) : list A :=
  let n := Z.of_nat (length xs) in
  let s := match start with None => 0 | Some i => py_slice_bound n i end in
  let e := match stop with None => n | Some i => py_slice_bound n i end in
  firstn (Z.to_nat (e - s)) (skipn (Z.to_nat s) xs).

Lemma py_slice_bound_nonneg n i : 0 <= n -> 0 <= i -> py_slice_bound n i = Z.min i n.
Proof. intros Hn Hi. unfold py_slice_bound. destruct (Z.ltb_spec i 0); lia. Qed.

Lemma py_slice_bound_neg n i : i < 0 -> py_slice_bound n i = Z.max 0 (i + n).
Proof. intros Hi. unfold py_slice_bound. destruct (Z.ltb_spec i 0); lia. Qed.

(** [xs[0:-1]] drops the last element, [xs[1:]] the first. *)
Lemma py_slice_init {A} (xs : list A) : py_slice (Some 0) (Some (-1)) xs = removelast xs.
Proof.
  unfold py_slice. cbv zeta.
  rewrite (py_slice_bound_nonneg _ 0), (py_slice_bound_neg _ (-1)) by lia.
  rewrite removelast_firstn_len.
  replace (Z.to_nat (Z.min 0 (Z.of_nat (length xs)))) with 0%nat by lia.
  f_equal. lia.
Qed.

Lemma py_slice_tail {A} (xs : list A) : py_slice (Some 1) None xs = tl xs.
Proof.
  unfold py_slice. cbv zeta. rewrite py_slice_bound_nonneg by lia.
  destruct xs as [|x xs]; [reflexivity|].
  rewrite length_cons.
  replace (Z.to_nat (Z.min 1 (Z.of_nat (S (length xs))))) with 1%nat by lia.
  rewrite firstn_all2; [reflexivity|]. simpl skipn. lia.
Qed.

(** ** Dictionaries *)

(** A [dict] with string keys, in insertion order. *)
Definition dict (V : Type) : Type := list (string * V).

Fixpoint dict_lookup {V} (d : dict V) (k : string) : option V :=
  match d with
  | [] => None
  | (k', v) :: d' => if String.eqb k k' then Some v else dict_lookup d' k
  end.

(** [d[k]], raising [KeyError] on a missing key. *)
Definition dict_get {V} (d : dict V) (k : string) : result exn V :=
  result_of_option (KeyError k) (dict_lookup d k).

(** [d[k] = v]: replaces in place, or appends a new key. *)
Fixpoint dict_set {V} (d : dict V) (k : string) (v : V) : dict V :=
  match d with
  | [] => [(k, v)]
  | (k', v') :: d' =>
      if String.eqb k k' then (k, v) :: d' else (k', v') :: dict_set d' k v
  end.

Lemma dict_lookup_set {V} (d : dict V) k k' v :
  dict_lookup (dict_set d k v) k' = if String.eqb k' k then Some v else dict_lookup d k'.
Proof.
  induction d as [|[k0 v0] d IH]; simpl.
  - reflexivity.
  - destruct (String.eqb_spec k k0) as [->|Hne]; simpl.
    + destruct (String.eqb k' k0); reflexivity.
    + rewrite IH. destruct (String.eqb_spec k' k) as [->|]; [|reflexivity].
      apply String.eqb_neq in Hne. rewrite Hne. reflexivity.
Qed.

(** A key not yet in the dict is appended at the end. *)
Lemma dict_set_fresh {V} (d : dict V) k v : ~ In k (map fst d) -> dict_set d k v = d ++ [(k, v)].
Proof.
  induction d as [|[k0 v0] d IH]; simpl; intros Hn; [reflexivity|].
  destruct (String.eqb_spec k k0) as [->|_]; [exfalso; apply Hn; left; reflexivity|].
  rewrite IH by (intros H; apply Hn; right; exact H). reflexivity.
Qed.

Lemma dict_get_In {V} (d : dict V) k v : dict_get d k = Ok v -> In (k, v) d.
Proof.
  unfold dict_get, result_of_option. induction d as [|[k' v'] d IH]; simpl; [discriminate|].
  destruct (String.eqb_spec k k') as [->|_]; [intros [= ->]; left; reflexivity | intros H; right; auto].
Qed.

(** Two dicts with the same keys in order and related values: a key
    found in the first is found in the second, with a related value. *)
Lemma dict_lookup_Forall2 {V W} (Rv : V -> W -> Prop) (l : dict V) (out : dict W) k v :
  Forall2 (fun kv kw => fst kv = fst kw /\ Rv (snd kv) (snd kw)) l out ->
  dict_lookup l k = Some v -> exists w, dict_lookup out k = Some w /\ Rv v w.
Proof.
  induction 1 as [|[k1 v1] [k2 w2] l out [Hk Hr] _ IH]; simpl in *; [discriminate|].
  subst k2. destruct (String.eqb k k1); [intros [= <-]; eauto | exact IH].
Qed.

(** ** [str(n)] and [int(s)] on decimal integers *)

Definition py_str_int (z : Z) : string := NilZero.string_of_int (Z.to_int z).

(** [int(s)] in base 10, as CPython reads a [str]: surrounding
    whitespace is ignored (tab, line feed, vertical tab, form feed,
    carriage return, the separators [\x1c]-[\x1f] and space), then an
    optional sign, then decimal digits where a single underscore may
    separate two digits; anything else raises [ValueError]. *)
Definition is_py_space (c : Ascii.ascii) : bool :=
  let n := Ascii.nat_of_ascii c in
  ((9 <=? n) && (n <=? 13))%nat || ((28 <=? n) && (n <=? 32))%nat.

Fixpoint py_lstrip (s : string) : string :=
  match s with
  | String c r => if is_py_space c then py_lstrip r else s
  | EmptyString => EmptyString
  end.

Fixpoint py_rstrip (s : string) : string :=
  match s with
  | String c r =>
      let r' := py_rstrip r in
      match r' with
      | EmptyString => if is_py_space c then EmptyString else String c EmptyString
      | _ => String c r'
      end
  | EmptyString => EmptyString
  end.

(** One decimal digit, as the constructor of [Decimal.uint] it adds. *)
Definition digit_of (c : Ascii.ascii) : option (Decimal.uint -> Decimal.uint) :=
  match NilEmpty.uint_of_string (String c EmptyString) with
  | Some (Decimal.D0 _) => Some Decimal.D0 | Some (Decimal.D1 _) => Some Decimal.D1
  | Some (Decimal.D2 _) => Some Decimal.D2 | Some (Decimal.D3 _) => Some Decimal.D3
  | Some (Decimal.D4 _) => Some Decimal.D4 | Some (Decimal.D5 _) => Some Decimal.D5
  | Some (Decimal.D6 _) => Some Decimal.D6 | Some (Decimal.D7 _) => Some Decimal.D7
  | Some (Decimal.D8 _) => Some Decimal.D8 | Some (Decimal.D9 _) => Some Decimal.D9
  | _ => None
  end.

(** The digits that follow a digit: more digits, each possibly preceded
    by one underscore. *)
Fixpoint digits_after (s : string) : option Decimal.uint :=
  match s with
  | EmptyString => Some Decimal.Nil
  | String c r =>
      if Ascii.eqb c "_"%char then
        match r with
        | String c2 r2 =>
            match digit_of c2 with Some f => option_map f (digits_after r2) | None => None end
        | EmptyString => None
        end
      else match digit_of c with Some f => option_map f (digits_after r) | None => None end
  end.

Definition py_digits (s : string) : option Decimal.uint :=
  match s with
  | String c r => match digit_of c with Some f => option_map f (digits_after r) | None => None end
  | EmptyString => None
  end.

(** The stripped text: a sign, then the digits. *)
Definition py_int_chars (t : string) : option Decimal.int :=
  match t with
  | String c r =>
      if Ascii.eqb c "-"%char then option_map Decimal.Neg (py_digits r)
      else if Ascii.eqb c "+"%char then option_map Decimal.Pos (py_digits r)
      else option_map Decimal.Pos (py_digits t)
  | EmptyString => None
  end.

Definition py_int_of_str (s : string) : result exn Z :=
  match py_int_chars (py_rstrip (py_lstrip s)) with
  | Some d => Ok (Z.of_int d)
  | None => Err ValueError
  end.

(** The digits of [str(n)] are read back by [py_digits]. *)
Lemma digits_after_uint u : digits_after (NilEmpty.string_of_uint u) = Some u.
Proof. induction u; simpl; rewrite ?IHu; reflexivity. Qed.

Lemma py_int_chars_uint (d : Decimal.int) :
  match d with Decimal.Pos u | Decimal.Neg u => u <> Decimal.Nil end ->
  py_int_chars (NilZero.string_of_int d) = Some d.
Proof.
  destruct d as [u|u]; destruct u; intros Hu; try congruence;
    simpl; rewrite ?digits_after_uint; reflexivity.
Qed.

Fixpoint no_py_space (s : string) : bool :=
  match s with
  | EmptyString => true
  | String c r => negb (is_py_space c) && no_py_space r
  end.

Lemma py_strip_id s : no_py_space s = true -> py_rstrip (py_lstrip s) = s.
Proof.
  assert (Hr : forall s, no_py_space s = true -> py_rstrip s = s).
  { induction s0 as [|c r IH]; simpl; [reflexivity|].
    intros H. apply andb_prop in H as [Hc Hr]. rewrite IH by exact Hr.
    destruct r; [|reflexivity]. destruct (is_py_space c); [discriminate|reflexivity]. }
  destruct s as [|c r]; simpl; [reflexivity|].
  intros H. assert (Hc : is_py_space c = false).
  { pose proof H as H0. simpl in H0. destruct (is_py_space c); [discriminate|reflexivity]. }
  rewrite Hc. apply Hr, H.
Qed.

Lemma no_py_space_uint u : no_py_space (NilEmpty.string_of_uint u) = true.
Proof. induction u; simpl; rewrite ?IHu; reflexivity. Qed.

Lemma py_int_of_str_str z : py_int_of_str (py_str_int z) = Ok z.
Proof.
  assert (Hnil : match Z.to_int z with Decimal.Pos u | Decimal.Neg u => u <> Decimal.Nil end)
    by (destruct z; simpl; [discriminate | apply Unsigned.to_uint_nonnil ..]).
  unfold py_int_of_str, py_str_int. rewrite py_strip_id.
  - rewrite py_int_chars_uint by exact Hnil. f_equal. apply DecimalZ.of_to.
  - destruct (Z.to_int z) as [u|u]; simpl; destruct u; try reflexivity; apply no_py_space_uint.
Qed.

(** The spellings CPython accepts and refuses. *)
Example py_int_of_str_spellings :
  py_int_of_str " +1_000 " = Ok 1000 /\ py_int_of_str "-007" = Ok (-7) /\
  py_int_of_str "1__0" = Err ValueError /\ py_int_of_str "_1" = Err ValueError /\
  py_int_of_str "1_" = Err ValueError /\ py_int_of_str "- 1" = Err ValueError /\
  py_int_of_str "" = Err ValueError /\ py_int_of_str "0x10" = Err ValueError.
Proof. repeat split; reflexivity. Qed.

Lemma py_str_int_inj z1 z2 : py_str_int z1 = py_str_int z2 -> z1 = z2.
Proof.
  intros H. pose proof (py_int_of_str_str z1) as H1.
  rewrite H, py_int_of_str_str in H1. congruence.
Qed.
