(* ===== verification/Tensor.v ===== *)
(** * The torch operations of the learners, on exact rationals

    Tensors of rank one and two are lists and lists of lists of [Q].
    Each operation returns [Err (RuntimeError _)] where torch raises:
    shapes that do not broadcast, [one_hot] of an index outside
    [0, num_classes), [max]/[argmax] over an empty dimension.  Floating
    point rounding is not modelled here (see [FloatTarget.v]); a [mean]
    over no element is torch's [nan], the only non-finite value the
    exact model needs. *)

From Stdlib Require Import String List ZArith QArith Qminmax Qabs Lia Morphisms Setoid.
From S2P Require Import Prelude Python.
Import ListNotations.
Open Scope Q_scope.

Definition size_mismatch : exn := RuntimeError "size mismatch".
Definition class_out_of_range : exn := RuntimeError "one_hot: class values out of range".
Definition empty_reduction : exn := RuntimeError "cannot reduce an empty dimension".

(** ** Broadcasting of an elementwise operation along one dimension *)

(** Equal sizes combine elementwise; a size-1 operand is repeated; any
    other pair of sizes raises. *)
Definition bcastR {A B C} (f : A -> B -> result exn C) (xs : list A) (ys : list B)
  : result exn (list C) :=
  if Nat.eqb (length xs) (length ys) then mapR (fun p => f (fst p) (snd p)) (combine xs ys)
  else match xs, ys with
       | [x], _ => mapR (f x) ys
       | _, [y] => mapR (fun x => f x y) xs
       | _, _ => Err size_mismatch
       end.

Definition bcast {A B C} (f : A -> B -> C) : list A -> list B -> result exn (list C) :=
  bcastR (fun a b => Ok (f a b)).

Lemma mapR_Ok_map {E A B} (f : A -> B) (xs : list A) :
  @mapR E A B (fun x => Ok (f x)) xs = Ok (map f xs).
Proof. induction xs as [|x xs IH]; simpl; [|rewrite IH]; reflexivity. Qed.

Lemma combine_zip_with {A B C} (f : A -> B -> C) xs ys :
  map (fun p => f (fst p) (snd p)) (combine xs ys) = zip_with f xs ys.
Proof. revert ys; induction xs; destruct ys; simpl; f_equal; auto. Qed.

Lemma bcast_same {A B C} (f : A -> B -> C) xs ys :
  length xs = length ys -> bcast f xs ys = Ok (zip_with f xs ys).
Proof.
  intros H. unfold bcast, bcastR. rewrite (proj2 (Nat.eqb_eq _ _) H).
  rewrite (mapR_Ok_map (fun p => f (fst p) (snd p))), combine_zip_with. reflexivity.
Qed.

(** ** Rank-one arithmetic (float tensors) *)

Definition vadd := bcast Qplus.
Definition vsub := bcast Qminus.
Definition vmul := bcast Qmult.
Definition smul (c : Q) (v : list Q) : list Q := map (Qmult c) v.
Definition rsub (c : Q) (v : list Q) : list Q := map (Qminus c) v.
Definition vabs (v : list Q) : list Q := map Qabs v.

Fixpoint sumQ (xs : list Q) : Q :=
  match xs with [] => 0 | x :: xs' => x + sumQ xs' end.

(** [t.sum(dim=-1)] on a rank-two tensor. *)
Definition sum_last (rows : list (list Q)) : list Q := map sumQ rows.

(** ** [.long()]: truncation towards zero *)
Definition long_of (q : Q) : Z := Z.quot (Qnum q) (Zpos (Qden q)).

(** ** [one_hot(i, n)] *)

Definition one_hot_row (n i : Z) : result exn (list Q) :=
  if (0 <=? i)%Z && (i <? n)%Z
  then Ok (map (fun k => if Z.eqb k i then 1 else 0) (py_range 0 n))
  else Err class_out_of_range.

Definition one_hot (idx : list Z) (n : Z) : result exn (list (list Q)) :=
  mapR (one_hot_row n) idx.

(** ** Reductions over the last dimension *)

Fixpoint qmax_list (m : Q) (xs : list Q) : Q :=
  match xs with [] => m | x :: xs' => qmax_list (Qmax m x) xs' end.

(** [q.max(dim=-1).values] on one row. *)
Definition max_row (q : list Q) : result exn Q :=
  match q with [] => Err empty_reduction | x :: q' => Ok (qmax_list x q') end.

(** [q.argmax(dim=-1)] on one row: the first index of a maximal value. *)
Fixpoint argmax_from (i best : nat) (bv : Q) (xs : list Q) : nat :=
  match xs with
  | [] => best
  | x :: xs' => if Qle_bool x bv then argmax_from (S i) best bv xs'
                else argmax_from (S i) i x xs'
  end.

Definition argmax_row (q : list Q) : result exn Z :=
  match q with
  | [] => Err empty_reduction
  | x :: q' => Ok (Z.of_nat (argmax_from 1 0 x q'))
  end.

(** A row of action values is rectangular of width [n]. *)
Definition rect (n : nat) (rows : list (list Q)) : Prop :=
  Forall (fun r => length r = n) rows.

Lemma argmax_rows_ok n rows :
  rect n rows -> (0 < n)%nat ->
  exists a, mapR argmax_row rows = Ok a /\ length a = length rows.
Proof.
  induction 1 as [|row rows Hr _ IH]; intros Hn; [exists []; split; reflexivity|].
  destruct row as [|x row]; [simpl in Hr; lia|]. destruct (IH Hn) as [a [Ha Hl]].
  exists (Z.of_nat (argmax_from 1 0 x row) :: a). simpl. rewrite Ha. split; [reflexivity|].
  simpl. congruence.
Qed.

(** ** Means and the mean-squared-error loss *)

Inductive fl : Type := Fin (q : Q) | NaN.

Definition mean (xs : list Q) : fl :=
  match xs with
  | [] => NaN
  | _ => Fin (sumQ xs / inject_Z (Z.of_nat (length xs)))
  end.

(** [nn.MSELoss()(input, target)] on rank-one tensors. *)
Definition mse_loss (input target : list Q) : result exn fl :=
  match vsub input target with
  | Ok d => Ok (mean (map (fun x => x * x) d))
  | Err e => Err e
  end.

(** ** Lemmas on the operations *)

(** Masking a row by a one-hot vector of the classes [a, b) and summing
    selects the entry of class [i]. *)
Lemma sum_mask_range (q : list Q) (a b i : Z) :
  length q = Z.to_nat (b - a) -> (a <= i < b)%Z ->
  sumQ (zip_with Qmult q (map (fun k => if Z.eqb k i then 1 else 0) (py_range a b)))
  == nth (Z.to_nat (i - a)) q 0.
Proof.
  revert a; induction q as [|x q IH]; intros a Hlen Hi; [simpl in Hlen; lia|].
  rewrite py_range_cons by lia. simpl.
  destruct (Z.eqb_spec a i) as [->|Hne].
  - replace (Z.to_nat (i - i)) with 0%nat by lia.
    assert (Hz : forall a' xs, (i < a')%Z ->
      sumQ (zip_with Qmult xs (map (fun k => if Z.eqb k i then 1 else 0) (py_range a' b))) == 0).
    { clear. intros a' xs. revert a'.
      induction xs as [|y xs IH]; intros a' Ha'; [reflexivity|].
      destruct (Z.ltb_spec a' b).
      - rewrite py_range_cons by lia. simpl.
        destruct (Z.eqb_spec a' i); [lia|]. rewrite IH by lia. ring.
      - rewrite py_range_empty by lia. reflexivity. }
    rewrite Hz by lia. ring.
  - replace (Z.to_nat (i - a)) with (S (Z.to_nat (i - (a + 1)))) by lia. simpl.
    rewrite IH by (simpl in Hlen; lia). ring.
Qed.

Lemma one_hot_row_select (q oh : list Q) (n i : Z) :
  length q = Z.to_nat n -> one_hot_row n i = Ok oh ->
  (0 <= i < n)%Z /\ sumQ (zip_with Qmult q oh) == nth (Z.to_nat i) q 0.
Proof.
  unfold one_hot_row. intros Hlen H.
  destruct ((0 <=? i)%Z && (i <? n)%Z) eqn:Hb; [|discriminate].
  injection H as <-. assert (Hi : (0 <= i < n)%Z) by lia. split; [exact Hi|].
  rewrite sum_mask_range by lia. replace (i - 0)%Z with i by lia. reflexivity.
Qed.

Lemma one_hot_row_length n i oh :
  one_hot_row n i = Ok oh -> length oh = Z.to_nat n.
Proof.
  unfold one_hot_row. destruct (_ && _); [|discriminate].
  intros [= <-]. rewrite length_map, py_range_length. f_equal. lia.
Qed.

#[export] Instance qmax_list_Proper : Proper (Qeq ==> eq ==> Qeq) qmax_list.
Proof.
  intros m m' Hm xs ? <-. revert m m' Hm.
  induction xs as [|x xs IH]; intros m m' Hm; simpl; [exact Hm|].
  apply IH. rewrite Hm. reflexivity.
Qed.

(** The index [argmax_from] returns holds the maximum [qmax_list]
    computes: either the current best, or an entry of the rest. *)
Lemma argmax_from_spec i best bv xs :
  (argmax_from i best bv xs = best /\ qmax_list bv xs == bv) \/
  (exists k v, argmax_from i best bv xs = (i + k)%nat /\ nth_error xs k = Some v /\
               v == qmax_list bv xs).
Proof.
  revert i best bv; induction xs as [|x xs IH]; intros i best bv; simpl.
  - left. split; reflexivity.
  - destruct (Qle_bool x bv) eqn:Hle.
    + apply Qle_bool_iff in Hle.
      assert (Hm : Qmax bv x == bv) by (apply Q.max_l; exact Hle).
      destruct (IH (S i) best bv) as [[-> Hq] | [k [v [Hk [Hn Hv]]]]].
      * left. split; [reflexivity|]. rewrite Hm. exact Hq.
      * right. exists (S k), v. split; [rewrite Hk; lia|]. split; [exact Hn|].
        rewrite Hm. exact Hv.
    + assert (Hlt : bv < x) by (apply Qnot_le_lt; intros H; apply Qle_bool_iff in H; congruence).
      assert (Hm : Qmax bv x == x) by (apply Q.max_r; apply Qlt_le_weak; exact Hlt).
      right. destruct (IH (S i) i x) as [[-> Hq] | [k [v [Hk [Hn Hv]]]]].
      * exists 0%nat, x. split; [lia|]. split; [reflexivity|]. rewrite Hm. symmetry. exact Hq.
      * exists (S k), v. split; [rewrite Hk; lia|]. split; [exact Hn|]. rewrite Hm. exact Hv.
Qed.

(** [argmax] and [max] agree on a row: the entry at the arg-max is the
    maximum. *)
Lemma argmax_row_max q a m :
  argmax_row q = Ok a -> max_row q = Ok m ->
  (0 <= a < Z.of_nat (length q))%Z /\ nth (Z.to_nat a) q 0 == m.
Proof.
  destruct q as [|x q]; simpl; [discriminate|]. intros [= <-] [= <-].
  destruct (argmax_from_spec 1 0 x q) as [[-> Hq] | [k [v [Hk [Hn Hv]]]]].
  - split; [lia|]. simpl. symmetry. exact Hq.
  - rewrite Hk. split.
    + assert (k < length q)%nat by (apply nth_error_Some; congruence). lia.
    + replace (Z.to_nat (Z.of_nat (1 + k))) with (S k) by lia. simpl.
      apply nth_error_nth with (d := 0) in Hn. rewrite Hn. exact Hv.
Qed.
