(* ===== verification/TDTarget.v ===== *)
(** * Temporal-difference targets and predictions of the three learners

    The tensor expressions of the [update] methods that compute the
    regression target and the prediction, as pure functions of the
    network outputs:
    - [mask_select]: [(q * one_hot(idx, q.shape[-1])).sum(dim=-1)]
      (ddqn_learner.py 37-38, and the prediction of line 40 through
      [predict_q]);
    - [td_target]: [rew + gamma * (1 - ter) * boot] (ddqn 39, perdqn 63,
      drqn 43 row by row);
    - [ddqn_target] (ddqn 37-39) and [perdqn_target] (perdqn 62-63).
    The reference is the Bellman backup [td_ref] of one transition. *)

From Stdlib Require Import String List ZArith QArith Qminmax Lia Morphisms Setoid.
From S2P Require Import Prelude Python Tensor.
Import ListNotations.
Open Scope Q_scope.

(** ** The code *)

(** [t.shape[-1]] (equal to [t.shape[1]]) of a rank-two tensor given by
    its rows; an empty batch has no row and selects nothing. *)
Definition shape_last (rows : list (list Q)) : Z :=
  match rows with r :: _ => Z.of_nat (length r) | [] => 0%Z end.

(** [(q * one_hot(idx, q.shape[-1])).sum(dim=-1)] *)
Definition mask_select (q : list (list Q)) (idx : list Z) : result exn (list Q) :=
  oh <-? one_hot idx (shape_last q) ;;
  m <-? bcastR vmul q oh ;;
  Ok (sum_last m).

(** [predictQ = (evalQ * one_hot(act_batch.long(), evalQ.shape[1])).sum(dim=-1)] *)
Definition predict_q (evalQ : list (list Q)) (acts : list Q) : result exn (list Q) :=
  mask_select evalQ (map long_of acts).

(** [rew_batch + self.gamma * (1 - ter_batch) * targetQ], evaluated left
    to right as Python does: [(gamma * (1 - ter)) * boot], then [rew + _]. *)
Definition td_target (gamma : Q) (rew ter boot : list Q) : result exn (list Q) :=
  g <-? vmul (smul gamma (rsub 1 ter)) boot ;;
  vadd rew g.

(** DDQN: the target network's own arg-max selects the bootstrapped
    value (lines 37-39). *)
Definition ddqn_target (gamma : Q) (rew ter : list Q) (targetA : list Z)
           (targetQ : list (list Q)) : result exn (list Q) :=
  boot <-? mask_select targetQ targetA ;;
  td_target gamma rew ter boot.

(** PER-DQN: the maximum of the target network's values (lines 62-63). *)
Definition perdqn_target (gamma : Q) (rew ter : list Q) (targetQ : list (list Q))
  : result exn (list Q) :=
  boot <-? mapR max_row targetQ ;;
  td_target gamma rew ter boot.

(** ** The reference: the Bellman backup of one transition *)

Definition td_ref (gamma r d b : Q) : Q := r + gamma * (1 - d) * b.

Definition td_ref_batch (gamma : Q) (rew ter boot : list Q) : list Q :=
  zip_with (fun r p => td_ref gamma r (fst p) (snd p)) rew (combine ter boot).


(** ** The target expression computes the Bellman backup *)

Lemma zip_td_ref gamma rew ter boot :
  length ter = length rew -> length boot = length rew ->
  zip_with Qplus rew (zip_with Qmult (smul gamma (rsub 1 ter)) boot)
  = td_ref_batch gamma rew ter boot.
Proof.
  unfold td_ref_batch. revert ter boot; induction rew as [|r rew IH]; intros [|d ter] [|b boot];
    simpl; try discriminate; intros; [reflexivity|].
  f_equal. apply IH; lia.
Qed.

(** On a batch whose rewards, terminal flags and bootstrapped values
    have one length, the target expression never raises and computes
    the Bellman backup of every transition. *)
Lemma td_target_ok gamma rew ter boot :
  length ter = length rew -> length boot = length rew ->
  td_target gamma rew ter boot = Ok (td_ref_batch gamma rew ter boot).
Proof.
  intros Ht Hb. unfold td_target, vmul, vadd.
  rewrite bcast_same by (unfold smul, rsub; rewrite !length_map; lia).
  rewrite rbind_Ok, bcast_same.
  - rewrite zip_td_ref by lia. reflexivity.
  - rewrite length_zip_with. unfold smul, rsub. rewrite !length_map. lia.
Qed.

Lemma td_ref_batch_nth gamma rew ter boot i r d b :
  nth_error rew i = Some r -> nth_error ter i = Some d -> nth_error boot i = Some b ->
  nth_error (td_ref_batch gamma rew ter boot) i = Some (td_ref gamma r d b).
Proof.
  intros Hr Hd Hb. unfold td_ref_batch.
  refine (nth_error_zip_with (fun r p => td_ref gamma r (fst p) (snd p)) _ _ _ _ (d, b) Hr _).
  clear Hr. revert i boot Hd Hb. induction ter as [|d' ter IH]; intros [|i] [|b' boot];
    simpl; try discriminate; intros.
  - congruence.
  - apply IH; assumption.
Qed.

Lemma td_ref_batch_length gamma rew ter boot :
  length ter = length rew -> length boot = length rew ->
  length (td_ref_batch gamma rew ter boot) = length rew.
Proof.
  intros Ht Hb. unfold td_ref_batch. rewrite length_zip_with, length_combine. lia.
Qed.

Lemma td_ref_terminal gamma r b : td_ref gamma r 1 b == r.
Proof. unfold td_ref. ring. Qed.

Lemma td_ref_nonterminal gamma r b : td_ref gamma r 0 b == r + gamma * b.
Proof. unfold td_ref. ring. Qed.

#[export] Hint Resolve td_ref_batch_nth td_ref_batch_length : xuance.

(** ** Selecting a column by a one-hot mask *)

(** The value the mask selects in a row. *)
Definition select_ref (row : list Q) (i : Z) : Q := nth (Z.to_nat i) row 0.

Lemma bcastR_same {A B C} (f : A -> B -> result exn C) xs ys :
  length xs = length ys -> bcastR f xs ys = mapR (fun p => f (fst p) (snd p)) (combine xs ys).
Proof. intros H. unfold bcastR. rewrite (proj2 (Nat.eqb_eq _ _) H). reflexivity. Qed.

Lemma mask_rows_ok (N : Z) q idx :
  rect (Z.to_nat N) q -> length idx = length q -> Forall (fun i => (0 <= i < N)%Z) idx ->
  exists ohs m, one_hot idx N = Ok ohs /\ length ohs = length q /\
    mapR (fun p => vmul (fst p) (snd p)) (combine q ohs) = Ok m /\
    sum_last m =v= zip_with select_ref q idx.
Proof.
  revert idx; induction q as [|row q IH]; intros [|i idx] Hr Hl Hi; simpl in Hl;
    try discriminate.
  - exists [], []. repeat split; constructor.
  - inv Hr. inv Hi.
    assert (Hoh : exists oh, one_hot_row N i = Ok oh).
    { unfold one_hot_row. replace ((0 <=? i)%Z && (i <? N)%Z) with true by lia. eauto. }
    destruct Hoh as [oh Hoh].
    destruct (one_hot_row_select row oh N i) as [_ Hsel]; [assumption | exact Hoh |].
    destruct (IH idx) as [ohs [m [Ho [Hlo [Hmr Hsl]]]]]; auto.
    exists (oh :: ohs), (zip_with Qmult row oh :: m).
    unfold one_hot in *. simpl. rewrite Hoh, Ho. split; [reflexivity|].
    split; [simpl; congruence|]. split.
    + unfold vmul at 1. rewrite bcast_same by (rewrite (one_hot_row_length _ _ _ Hoh); assumption).
      rewrite Hmr. reflexivity.
    + constructor; [exact Hsel | exact Hsl].
Qed.

(** On a rectangular batch of width [n] and indices inside [0, n), the
    masked sum never raises and selects the indexed entry of every row. *)
Lemma mask_select_ok n q idx :
  rect n q -> length idx = length q -> Forall (fun i => (0 <= i < Z.of_nat n)%Z) idx ->
  exists sel, mask_select q idx = Ok sel /\ sel =v= zip_with select_ref q idx.
Proof.
  intros Hr Hl Hi.
  assert (Hs : q = [] \/ shape_last q = Z.of_nat n).
  { destruct q as [|row q]; [left; reflexivity | right; inv Hr; reflexivity]. }
  destruct Hs as [-> | Hs].
  - destruct idx; [|discriminate]. exists []. split; reflexivity.
  - destruct (mask_rows_ok (Z.of_nat n) q idx) as [ohs [m [H1 [H2 [H3 H4]]]]];
      [rewrite Nat2Z.id; exact Hr | exact Hl | exact Hi |].
    exists (sum_last m). unfold mask_select. rewrite Hs, H1. simpl.
    rewrite bcastR_same by congruence. rewrite H3. split; [reflexivity | exact H4].
Qed.

Lemma mask_select_length q idx sel :
  length idx = length q -> mask_select q idx = Ok sel -> length sel = length q.
Proof.
  unfold mask_select. intros Hl H.
  apply rbind_Ok_inv in H as [ohs [Hoh H]]. apply rbind_Ok_inv in H as [m [Hm [= <-]]].
  unfold sum_last. rewrite length_map.
  apply mapR_length in Hoh. rewrite bcastR_same in Hm by congruence.
  apply mapR_length in Hm. rewrite Hm, length_combine. lia.
Qed.

Lemma one_hot_out_of_range idx N :
  Exists (fun i => ~ (0 <= i < N)%Z) idx -> one_hot idx N = Err class_out_of_range.
Proof.
  unfold one_hot. induction 1 as [i idx Hi | i idx _ IH]; simpl.
  - unfold one_hot_row. replace ((0 <=? i)%Z && (i <? N)%Z) with false by lia. reflexivity.
  - unfold one_hot_row in *.
    destruct ((0 <=? i)%Z && (i <? N)%Z); [rewrite IH|]; reflexivity.
Qed.

(** ** The maximum of a row *)

(** The abstract maximum: attained by an entry, and above every entry. *)
Definition is_row_max (row : list Q) (m : Q) : Prop :=
  (exists k v, nth_error row k = Some v /\ v == m) /\ Forall (fun x => x <= m) row.

(** The maximum of a row is unique, up to [==]. *)
Lemma is_row_max_unique row m1 m2 : is_row_max row m1 -> is_row_max row m2 -> m1 == m2.
Proof.
  intros [[k1 [v1 [H1 E1]]] F1] [[k2 [v2 [H2 E2]]] F2].
  rewrite Forall_forall in F1, F2. apply Qle_antisym.
  - rewrite <- E1. apply F2. eapply nth_error_In; eauto.
  - rewrite <- E2. apply F1. eapply nth_error_In; eauto.
Qed.

Lemma qmax_list_ge m xs : m <= qmax_list m xs /\ Forall (fun x => x <= qmax_list m xs) xs.
Proof.
  revert m; induction xs as [|x xs IH]; intros m; simpl; [split; [apply Qle_refl | constructor]|].
  destruct (IH (Qmax m x)) as [H1 H2]. split; [|constructor; [|exact H2]].
  - eapply Qle_trans; [apply Q.le_max_l | exact H1].
  - eapply Qle_trans; [apply Q.le_max_r | exact H1].
Qed.

Lemma max_row_spec row : row <> [] -> exists m, max_row row = Ok m /\ is_row_max row m.
Proof.
  destruct row as [|x xs]; [congruence|]. intros _. exists (qmax_list x xs). split; [reflexivity|].
  destruct (qmax_list_ge x xs) as [H1 H2]. split; [|constructor; assumption].
  destruct (argmax_from_spec 1 0 x xs) as [[_ Hq] | [k [v [_ [Hn Hv]]]]].
  - exists 0%nat, x. split; [reflexivity|]. symmetry. exact Hq.
  - exists (S k), v. split; assumption.
Qed.

(** The arg-max of every row selects the row's maximum. *)
Lemma argmax_rows_select n q targetA :
  rect n q -> (0 < n)%nat -> mapR argmax_row q = Ok targetA ->
  exists boot, mapR max_row q = Ok boot /\ zip_with select_ref q targetA =v= boot /\
    length targetA = length q /\ Forall (fun i => (0 <= i < Z.of_nat n)%Z) targetA.
Proof.
  revert targetA; induction q as [|row q IH]; intros targetA Hr Hn Ha.
  - injection Ha as <-. exists []. repeat split; constructor.
  - inv Hr. simpl in Ha. destruct (argmax_row row) as [a|e] eqn:Harg; [|discriminate].
    destruct (mapR argmax_row q) as [A|e] eqn:HA; [|discriminate]. injection Ha as <-.
    destruct (max_row_spec row) as [m [Hm _]]; [intros ->; simpl in *; lia|].
    destruct (argmax_row_max row a m Harg Hm) as [Hin Hsel].
    destruct (IH A) as [boot [Hb [Hz [Hl Hf]]]]; auto.
    exists (m :: boot). simpl. rewrite Hm, Hb. repeat split.
    + constructor; [exact Hsel | exact Hz].
    + simpl. congruence.
    + constructor; [lia | exact Hf].
Qed.

(** ** Equivalence of the two bootstrapping expressions *)

Lemma td_ref_batch_veq gamma rew ter b1 b2 :
  b1 =v= b2 -> td_ref_batch gamma rew ter b1 =v= td_ref_batch gamma rew ter b2.
Proof.
  unfold td_ref_batch. intros H. revert rew ter.
  induction H as [|x y b1 b2 Hxy _ IH]; intros [|r rew] [|d ter]; simpl; try constructor.
  - unfold td_ref. simpl. rewrite Hxy. reflexivity.
  - apply IH.
Qed.

Lemma td_target_nth gamma rew ter boot tgt i r d b :
  length ter = length rew -> length boot = length rew ->
  td_target gamma rew ter boot = Ok tgt ->
  nth_error rew i = Some r -> nth_error ter i = Some d -> nth_error boot i = Some b ->
  nth_error tgt i = Some (td_ref gamma r d b).
Proof.
  intros Ht Hb H. rewrite td_target_ok in H by assumption. injection H as <-.
  apply td_ref_batch_nth.
Qed.

Lemma nth_error_some_length {A} (xs ys : list A) i x :
  length xs = length ys -> nth_error xs i = Some x -> exists y, nth_error ys i = Some y.
Proof.
  intros Hl Hx. destruct (nth_error ys i) as [y|] eqn:E; [eauto|].
  apply nth_error_None in E. assert (i < length xs)%nat by (apply nth_error_Some; congruence). lia.
Qed.

Lemma max_rows_spec q :
  Forall (fun row => row <> []) q ->
  exists boot, mapR max_row q = Ok boot /\ Forall2 is_row_max q boot.
Proof.
  induction 1 as [|row q Hne _ IH]; [exists []; split; constructor|].
  destruct (max_row_spec row Hne) as [m [Hm Hs]]. destruct IH as [boot [Hb Hf]].
  exists (m :: boot). simpl. rewrite Hm, Hb. split; [reflexivity | constructor; assumption].
Qed.

Lemma rect_nonempty n q : rect n q -> (0 < n)%nat -> Forall (fun row => row <> []) q.
Proof.
  intros H Hn. eapply Forall_impl; [|exact H]. intros row Hl ->. simpl in Hl. lia.
Qed.

(** ** Properties of the targets *)

(** C1: In the Double-DQN update, at a terminal transition (terminal
    flag 1) the TD target equals the reward exactly, whatever the target
    network outputs, whenever the target expression evaluates. *)
Theorem ddqn_target_terminal gamma rew ter targetA targetQ tgt i r :
  length ter = length rew -> length targetQ = length rew -> length targetA = length targetQ ->
  ddqn_target gamma rew ter targetA targetQ = Ok tgt ->
  nth_error rew i = Some r -> nth_error ter i = Some 1 ->
  exists t, nth_error tgt i = Some t /\ t == r.
Proof.
  intros Ht Hq Ha H Hr Hd.
  apply rbind_Ok_inv in H as [boot [Hb H]].
  pose proof (mask_select_length _ _ _ Ha Hb) as Hl.
  destruct (nth_error_some_length rew boot i r) as [b Hbi]; [lia | exact Hr |].
  exists (td_ref gamma r 1 b). split; [|apply td_ref_terminal].
  apply (td_target_nth gamma rew ter boot tgt i r 1 b Ht); [lia | exact H | exact Hr | exact Hd | exact Hbi].
Qed.

(** C2: The PER-DQN target refines the Bellman optimality backup: on a
    batch of one length whose target-network rows all have the same
    positive number of actions, it never raises, and its entry [i] is
    [r_i + gamma * (1 - d_i) * m_i] where [m_i] is a maximum of row [i]
    (attained by an entry and above every entry). *)
Theorem perdqn_target_bellman n gamma rew ter q :
  rect n q -> (0 < n)%nat -> length ter = length rew -> length q = length rew ->
  exists tgt, perdqn_target gamma rew ter q = Ok tgt /\ length tgt = length rew /\
    forall i r d row, nth_error rew i = Some r -> nth_error ter i = Some d ->
      nth_error q i = Some row ->
      exists t m, nth_error tgt i = Some t /\ is_row_max row m /\ t == td_ref gamma r d m.
Proof.
  intros Hr Hn Ht Hq.
  destruct (max_rows_spec q (rect_nonempty n q Hr Hn)) as [boot [Hb Hf]].
  pose proof (Forall2_length Hf) as Hl.
  exists (td_ref_batch gamma rew ter boot). unfold perdqn_target. rewrite Hb. simpl.
  rewrite td_target_ok by lia. split; [reflexivity|]. split; [apply td_ref_batch_length; lia|].
  intros i r d row Hri Hdi Hqi.
  destruct (Forall2_nth_error_l _ _ _ _ _ Hf Hqi) as [m [Hbi Hm]].
  exists (td_ref gamma r d m), m. split; [apply td_ref_batch_nth; assumption|].
  split; [exact Hm | reflexivity].
Qed.

(** C3: The "double" target of ddqn_learner.py is the plain DQN target:
    when the actions come from the target network's own arg-max (as
    [policy.target] returns them), masking the target values by them
    gives the row maxima, so the Double-DQN target equals the PER-DQN
    max target on every well-formed batch. *)
Theorem ddqn_target_max_equiv n gamma rew ter q targetA :
  rect n q -> (0 < n)%nat -> length ter = length rew -> length q = length rew ->
  mapR argmax_row q = Ok targetA ->
  exists t1 t2, ddqn_target gamma rew ter targetA q = Ok t1 /\
    perdqn_target gamma rew ter q = Ok t2 /\ t1 =v= t2.
Proof.
  intros Hr Hn Ht Hq Ha.
  destruct (argmax_rows_select n q targetA Hr Hn Ha) as [boot [Hb [Hz [Hla Hf]]]].
  destruct (mask_select_ok n q targetA Hr Hla Hf) as [sel [Hs Hsel]].
  assert (Hsb : sel =v= boot) by (rewrite Hsel; exact Hz).
  pose proof (veq_length _ _ Hsb) as Hl1. pose proof (mapR_length _ _ _ Hb) as Hl2.
  exists (td_ref_batch gamma rew ter sel), (td_ref_batch gamma rew ter boot).
  unfold ddqn_target, perdqn_target. rewrite Hs, Hb. simpl.
  rewrite !td_target_ok by lia. split; [reflexivity|]. split; [reflexivity|].
  apply td_ref_batch_veq. exact Hsb.
Qed.

(** ** Witnesses on the scenario of the specification: four transitions,
    rewards [1; 0; 0; 2], terminal flags [0; 0; 1; 0], gamma = 0.9. *)

Definition scen_rew : list Q := [1; 0; 0; 2].
Definition scen_ter : list Q := [0; 0; 1; 0].
Definition scen_q : list (list Q) := [[3; 5]; [1; 0]; [7; 7]; [-2; 4]].

Lemma ddqn_target_terminal_witness :
  exists tgt, ddqn_target (9 # 10) scen_rew scen_ter [1; 0; 0; 1]%Z scen_q = Ok tgt /\
    exists t, nth_error tgt 2 = Some t /\ t == 0.
Proof.
  eexists. split; [reflexivity|].
  apply (ddqn_target_terminal (9 # 10) scen_rew scen_ter [1; 0; 0; 1]%Z scen_q);
    reflexivity.
Defined.

Lemma perdqn_target_bellman_witness :
  exists tgt, perdqn_target (9 # 10) scen_rew scen_ter scen_q = Ok tgt /\
    length tgt = length scen_rew /\
    forall i r d row, nth_error scen_rew i = Some r -> nth_error scen_ter i = Some d ->
      nth_error scen_q i = Some row ->
      exists t m, nth_error tgt i = Some t /\ is_row_max row m /\ t == td_ref (9 # 10) r d m.
Proof.
  apply (perdqn_target_bellman 2); [repeat constructor | lia | reflexivity | reflexivity].
Defined.

Lemma ddqn_target_max_equiv_witness :
  exists t1 t2, ddqn_target (9 # 10) scen_rew scen_ter [1; 0; 0; 1]%Z scen_q = Ok t1 /\
    perdqn_target (9 # 10) scen_rew scen_ter scen_q = Ok t2 /\ t1 =v= t2.
Proof.
  apply (ddqn_target_max_equiv 2); [repeat constructor | lia | reflexivity | reflexivity |
                                    reflexivity].
Defined.

(** The scenario's first target is [1 + 0.9 * 5] and its third is the
    reward [0]. *)
Example scen_targets :
  perdqn_target (9 # 10) scen_rew scen_ter scen_q
  = Ok [1 + (9 # 10) * (1 - 0) * 5; 0 + (9 # 10) * (1 - 0) * 1;
        0 + (9 # 10) * (1 - 1) * 7; 2 + (9 # 10) * (1 - 0) * 4].
Proof. reflexivity. Qed.

(** C17: [act_batch.long()] truncates each action towards zero; when a
    truncated action falls outside [0, evalQ.shape[1])], [one_hot]
    raises and so does the computation of [predictQ]: there is no
    silent wrap-around of out-of-range actions. *)
Theorem predict_q_action_out_of_range evalQ acts :
  Exists (fun a => ~ (0 <= long_of a < shape_last evalQ)%Z) acts ->
  predict_q evalQ acts = Err class_out_of_range.
Proof.
  intros Hx. unfold predict_q, mask_select. rewrite one_hot_out_of_range; [reflexivity|].
  apply Exists_map. exact Hx.
Qed.

Lemma predict_q_action_out_of_range_witness :
  predict_q [[1; 2]; [3; 4]] [1 # 2; 5 # 2] = Err class_out_of_range.
Proof.
  apply predict_q_action_out_of_range. right. left. intros [_ Hc]. vm_compute in Hc. discriminate Hc.
Defined.

(** A fractional action is truncated, not rounded: [1.7] selects
    column 1 and [0.5] column 0. *)
Example predict_q_truncates :
  predict_q [[1; 2]; [3; 4]] [17 # 10; 1 # 2] = Ok [2; 3].
Proof. reflexivity. Qed.
