(* ===== verification/FloatTarget.v ===== *)
(** * The targets in IEEE-754 arithmetic

    The models of [TDTarget] compute with exact rationals.  The tensors
    of the learners hold binary floating-point numbers, where a network
    output can be infinite or NaN and where [0 * inf] is NaN.  This file
    models the two lines that mix a mask with the target network's
    output on the floats of Rocq's [SpecFloat] (any binary format, given
    by its precision and maximal exponent; binary32, torch's default
    dtype, for the concrete runs):
    - line 39 of [ddqn_learner.py] (and 63 of [perdqn_learner.py]),
      [rew_batch + self.gamma * (1 - ter_batch) * targetQ], in Python's
      evaluation order, as [f_td];
    - line 38, [(targetQ * targetA).sum(dim=-1)] with [targetA] a one-hot
      row, as [f_select_row]; [sum] is taken left to right from [+0],
      and the theorems below hold for any summation order since they
      rest on NaN being absorbing for addition.
    - line 42, [self.mse_loss(predictQ, targetQ)], as [f_mse_loss].
    The theorems show where the float code departs from the Bellman
    backup of the exact model: a terminal transition whose bootstrap is
    infinite or NaN gets a NaN target, which makes the loss of the whole
    batch NaN, and a non-finite value in a column that the mask does not
    select poisons the selected value. *)

From Stdlib Require Import ZArith List Floats.SpecFloat Lia.
From S2P Require Import Prelude Python.
Import ListNotations.

Section Format.
Variables prec emax : Z.

(** The constant [1] of [1 - ter_batch], exactly representable. *)
Definition f_one : spec_float := SFone prec emax.

Definition is_finite (x : spec_float) : bool :=
  match x with S754_zero _ | S754_finite _ _ _ => true | _ => false end.

(** [rew + gamma * (1 - ter) * boot] on one transition. *)
Definition f_td (gamma r d b : spec_float) : spec_float :=
  SFadd prec emax r (SFmul prec emax (SFmul prec emax gamma (SFsub prec emax f_one d)) b).

(** The same line on a batch, elementwise. *)
Definition f_td_target (gamma : spec_float) (rew ter boot : list spec_float) : list spec_float :=
  zip_with (SFadd prec emax) rew
    (zip_with (SFmul prec emax) (map (fun d => SFmul prec emax gamma (SFsub prec emax f_one d)) ter) boot).

(** [one_hot(i, n)] as floats, once multiplied into a float tensor. *)
Definition f_one_hot_row (n i : Z) : list spec_float :=
  map (fun k => if Z.eqb k i then f_one else S754_zero false) (py_range 0 n).

(** [t.sum()] of a row. *)
Definition f_sum (xs : list spec_float) : spec_float :=
  fold_left (SFadd prec emax) xs (S754_zero false).

(** [(row * one_hot(i, len(row))).sum()]: the masked selection of line 38. *)
Definition f_select_row (row : list spec_float) (i : Z) : spec_float :=
  f_sum (zip_with (SFmul prec emax) row (f_one_hot_row (Z.of_nat (length row)) i)).

(** [torch.max] of two entries: NaN propagates; otherwise the larger. *)
Definition f_maximum (a b : spec_float) : spec_float :=
  match a, b with
  | S754_nan, _ | _, S754_nan => S754_nan
  | _, _ => if SFltb a b then b else a
  end.

(** [targetQ.max(dim=-1).values] on one row (perdqn line 62); an empty
    row has no maximum and raises. *)
Definition f_max_row (row : list spec_float) : option spec_float :=
  match row with [] => None | x :: r => Some (fold_left f_maximum r x) end.

Fixpoint f_max_rows (rows : list (list spec_float)) : option (list spec_float) :=
  match rows with
  | [] => Some []
  | row :: rest =>
      match f_max_row row, f_max_rows rest with
      | Some m, Some ms => Some (m :: ms)
      | _, _ => None
      end
  end.

(** Lines 62-66 and 94 of [perdqn_learner.py]: the max target, the TD
    error [targetQ - predictQ] and the priorities [np.abs(td_error)]. *)
Definition f_perdqn_priorities (gamma : spec_float) (rew ter : list spec_float)
           (targetQ : list (list spec_float)) (pred : list spec_float) : option (list spec_float) :=
  match f_max_rows targetQ with
  | Some boot => Some (map SFabs (zip_with (SFsub prec emax) (f_td_target gamma rew ter boot) pred))
  | None => None
  end.

(** ** Arithmetic facts of [SpecFloat] used below *)

Lemma fsub_self x : is_finite x = true -> SFsub prec emax x x = S754_zero false.
Proof.
  destruct x as [s| | |s m e]; try discriminate; intros _; simpl.
  - destruct s; reflexivity.
  - rewrite Z.min_id. unfold shl_align. rewrite Z.sub_diag. simpl.
    destruct s; simpl; rewrite ?Z.sub_diag, ?Z.add_opp_diag_r; reflexivity.
Qed.

Lemma fadd_nan_r x : SFadd prec emax x S754_nan = S754_nan.
Proof. destruct x as [[]|[]| |]; reflexivity. Qed.

Lemma fmul_nan_r x : SFmul prec emax x S754_nan = S754_nan.
Proof. destruct x as [[]|[]| |]; reflexivity. Qed.

(** A zero (or [0 * finite]) times a non-finite value is NaN. *)
Lemma fmul_zero_nonfinite s y : is_finite y = false -> SFmul prec emax (S754_zero s) y = S754_nan.
Proof. destruct y; simpl; congruence. Qed.

Lemma fmul_nonfinite_zero x s : is_finite x = false -> SFmul prec emax x (S754_zero s) = S754_nan.
Proof. destruct x; simpl; congruence. Qed.

Lemma fmul_finite_zero x s : is_finite x = true -> exists s', SFmul prec emax x (S754_zero s) = S754_zero s'.
Proof. destruct x; try discriminate; intros _; eexists; reflexivity. Qed.

Lemma fmul_zero_finite s y : is_finite y = true -> exists s', SFmul prec emax (S754_zero s) y = S754_zero s'.
Proof. destruct y; try discriminate; intros _; eexists; reflexivity. Qed.

Lemma fadd_zero_r_eqb r s : is_finite r = true -> SFeqb (SFadd prec emax r (S754_zero s)) r = true.
Proof.
  destruct r as [sr| | |sr m e]; try discriminate; intros _; simpl.
  - destruct sr, s; reflexivity.
  - unfold SFeqb, SFcompare. destruct sr; rewrite Z.compare_refl, Pos.compare_cont_refl; reflexivity.
Qed.

(** NaN is absorbing for a left-to-right sum. *)
Lemma fold_fadd_nan xs : fold_left (SFadd prec emax) xs S754_nan = S754_nan.
Proof. induction xs; simpl; auto. Qed.

Lemma fold_fadd_In_nan xs a : In S754_nan xs -> fold_left (SFadd prec emax) xs a = S754_nan.
Proof.
  revert a. induction xs as [|x xs IH]; intros a Hin; [destruct Hin|].
  destruct Hin as [->|Hin]; cbn [fold_left].
  - rewrite fadd_nan_r. apply fold_fadd_nan.
  - apply IH, Hin.
Qed.

Lemma nth_error_f_one_hot_row n i j :
  (j < Z.to_nat n)%nat -> Z.of_nat j <> i -> nth_error (f_one_hot_row n i) j = Some (S754_zero false).
Proof.
  intros Hj Hji. unfold f_one_hot_row, py_range.
  rewrite nth_error_map, nth_error_map, nth_error_seq.
  replace (Z.to_nat (n - 0)) with (Z.to_nat n) by (f_equal; lia).
  destruct (Nat.ltb_spec j (Z.to_nat n)); [|lia]. simpl.
  replace (Z.of_nat j =? i)%Z with false by lia. reflexivity.
Qed.

(** [gamma * (1 - 1)] is a zero when [gamma] is finite, NaN otherwise;
    either way the product with a non-finite bootstrap is NaN. *)
Lemma fmul_masked_nonfinite gamma s b :
  is_finite b = false ->
  SFmul prec emax (SFmul prec emax gamma (S754_zero s)) b = S754_nan.
Proof.
  intros Hb. destruct (is_finite gamma) eqn:Hg.
  - destruct (fmul_finite_zero gamma s Hg) as [s' ->]. apply fmul_zero_nonfinite, Hb.
  - rewrite fmul_nonfinite_zero by exact Hg. reflexivity.
Qed.

Lemma f_td_target_nth gamma rew ter boot k r d b :
  nth_error rew k = Some r -> nth_error ter k = Some d -> nth_error boot k = Some b ->
  nth_error (f_td_target gamma rew ter boot) k = Some (f_td gamma r d b).
Proof.
  intros Hr Hd Hb. unfold f_td_target. apply (nth_error_zip_with _ _ _ _ r); [exact Hr|].
  apply nth_error_zip_with; [|exact Hb]. rewrite nth_error_map, Hd. reflexivity.
Qed.

(** [len(x)] as a float of the format. *)
Definition f_of_nat (n : nat) : spec_float := binary_normalize prec emax (Z.of_nat n) 0 false.

(** [self.mse_loss(predictQ, targetQ)] (line 42): the mean of the
    squared differences. *)
Definition f_mse_loss (input target : list spec_float) : spec_float :=
  SFdiv prec emax
    (f_sum (zip_with (fun p t => let d := SFsub prec emax p t in SFmul prec emax d d) input target))
    (f_of_nat (length input)).

Lemma fsub_nan_r x : SFsub prec emax x S754_nan = S754_nan.
Proof. destruct x as [[]|[]| |]; reflexivity. Qed.

(** A NaN target anywhere in the batch makes the loss NaN. *)
Lemma f_mse_loss_nan input target k p :
  nth_error input k = Some p -> nth_error target k = Some S754_nan ->
  f_mse_loss input target = S754_nan.
Proof.
  intros Hp Ht. unfold f_mse_loss, f_sum.
  rewrite fold_fadd_In_nan; [reflexivity|].
  apply nth_error_In with k. erewrite nth_error_zip_with; [| exact Hp | exact Ht].
  cbv zeta. rewrite fsub_nan_r. reflexivity.
Qed.

(** NaN and [+inf] are the values no maximum can leave. *)
Definition top (x : spec_float) : Prop := x = S754_nan \/ x = S754_infinity false.

Lemma f_maximum_top a b : top a \/ top b -> top (f_maximum a b).
Proof.
  unfold top. intros H.
  destruct a as [[]|[]| |[]]; destruct b as [[]|[]| |[]];
    destruct H as [[H|H]|[H|H]]; try discriminate H; cbn; auto.
Qed.

Lemma fold_max_top xs a :
  top a \/ (exists b, In b xs /\ top b) -> top (fold_left f_maximum xs a).
Proof.
  revert a. induction xs as [|x xs IH]; intros a H; simpl.
  - destruct H as [H|[b [[] _]]]. exact H.
  - apply IH. destruct H as [H|[b [[->|Hin] Hb]]].
    + left. apply f_maximum_top. left. exact H.
    + left. apply f_maximum_top. right. exact Hb.
    + right. exists b. split; assumption.
Qed.

Lemma top_nonfinite x : top x -> is_finite x = false.
Proof. intros [-> | ->]; reflexivity. Qed.

Lemma f_max_rows_nth rows boot k row :
  f_max_rows rows = Some boot -> nth_error rows k = Some row ->
  exists m, f_max_row row = Some m /\ nth_error boot k = Some m.
Proof.
  revert boot k. induction rows as [|r rows IH]; intros boot k Hm Hk; [destruct k; discriminate|].
  simpl in Hm. destruct (f_max_row r) as [m|] eqn:Er; [|discriminate].
  destruct (f_max_rows rows) as [ms|]; [|discriminate]. injection Hm as <-.
  destruct k as [|k]; simpl in Hk.
  - injection Hk as <-. exists m. split; [exact Er | reflexivity].
  - simpl. apply IH; [reflexivity | exact Hk].
Qed.

Lemma f_max_rows_ok rows : Forall (fun row => row <> []) rows -> exists boot, f_max_rows rows = Some boot.
Proof.
  induction 1 as [|row rows Hr _ [boot IH]]; [exists []; reflexivity|].
  destruct row as [|x r]; [congruence|]. simpl. rewrite IH. eexists. reflexivity.
Qed.

Lemma fabs_nan : SFabs S754_nan = S754_nan.
Proof. reflexivity. Qed.

Hypothesis one_finite : is_finite f_one = true.

Lemma f_td_terminal_nan gamma r b : is_finite b = false -> f_td gamma r f_one b = S754_nan.
Proof.
  intros Hnf. unfold f_td. rewrite fsub_self by exact one_finite.
  rewrite fmul_masked_nonfinite by exact Hnf. apply fadd_nan_r.
Qed.

(** C20: In floating point the target of a terminal transition is not
    independent of the target network: when the bootstrap value at that
    index is infinite or NaN, [gamma * (1 - 1) * targetQ] is NaN and so
    is the target, whatever the reward and the discount. *)
Theorem f_td_target_terminal_nonfinite gamma rew ter boot k r b :
  nth_error rew k = Some r -> nth_error ter k = Some f_one -> nth_error boot k = Some b ->
  is_finite b = false ->
  nth_error (f_td_target gamma rew ter boot) k = Some S754_nan.
Proof.
  intros Hr Hd Hb Hnf. rewrite (f_td_target_nth _ _ _ _ _ _ _ _ Hr Hd Hb).
  f_equal. apply f_td_terminal_nan, Hnf.
Qed.

(** C21: With a finite discount, reward and bootstrap, the float target
    of a terminal transition compares equal to its reward ([+0] and [-0]
    compare equal): on finite values the float code agrees with the
    exact model's [td_ref_terminal]. *)
Theorem f_td_target_terminal_finite gamma rew ter boot k r b :
  is_finite gamma = true -> is_finite r = true -> is_finite b = true ->
  nth_error rew k = Some r -> nth_error ter k = Some f_one -> nth_error boot k = Some b ->
  exists t, nth_error (f_td_target gamma rew ter boot) k = Some t /\ SFeqb t r = true.
Proof.
  intros Hg Hrf Hbf Hr Hd Hb. eexists. split; [exact (f_td_target_nth _ _ _ _ _ _ _ _ Hr Hd Hb)|].
  unfold f_td. rewrite fsub_self by exact one_finite.
  destruct (fmul_finite_zero gamma false Hg) as [s1 ->].
  destruct (fmul_zero_finite s1 b Hbf) as [s2 ->]. apply fadd_zero_r_eqb, Hrf.
Qed.

(** C22: The one-hot selection of line 38 is not a gather in floating
    point: an infinite or NaN value in any column other than the
    selected one makes the selected value NaN, since [inf * 0] is NaN. *)
Theorem f_select_row_nonfinite row i j x :
  Z.of_nat j <> i -> nth_error row j = Some x -> is_finite x = false ->
  f_select_row row i = S754_nan.
Proof.
  intros Hji Hx Hnf. unfold f_select_row, f_sum. apply fold_fadd_In_nan.
  apply nth_error_In with j. erewrite nth_error_zip_with; [| exact Hx |].
  - rewrite fmul_nonfinite_zero by exact Hnf. reflexivity.
  - apply nth_error_f_one_hot_row; [|exact Hji].
    rewrite Nat2Z.id. apply nth_error_Some. congruence.
Qed.

(** C30: The NaN of a terminal transition reaches the loss: when the
    bootstrap value of one terminal transition is infinite or NaN, the
    MSE loss of the whole batch is NaN, and so is every gradient
    [loss.backward()] computes from it. *)
Theorem f_loss_terminal_nonfinite gamma rew ter boot pred k r b p :
  nth_error rew k = Some r -> nth_error ter k = Some f_one -> nth_error boot k = Some b ->
  is_finite b = false -> nth_error pred k = Some p ->
  f_mse_loss pred (f_td_target gamma rew ter boot) = S754_nan.
Proof.
  intros Hr Hd Hb Hnf Hp. apply (f_mse_loss_nan _ _ k p Hp).
  rewrite (f_td_target_nth _ _ _ _ _ _ _ _ Hr Hd Hb). f_equal. apply f_td_terminal_nan, Hnf.
Qed.

(** C34: The priorities of [PerDQN_Learner.update] in floating point:
    when the target network's row of a terminal transition holds a NaN
    or [+inf], its maximum is non-finite, the target is NaN (line 63),
    and the priority returned for that transition is [|NaN| = NaN], not
    a non-negative number. *)
Theorem f_perdqn_priority_nan gamma rew ter targetQ pred k r row p :
  Forall (fun row => row <> []) targetQ ->
  nth_error rew k = Some r -> nth_error ter k = Some f_one ->
  nth_error targetQ k = Some row -> (exists b, In b row /\ top b) -> nth_error pred k = Some p ->
  exists prio, f_perdqn_priorities gamma rew ter targetQ pred = Some prio /\
               nth_error prio k = Some S754_nan.
Proof.
  intros Hne Hr Hd Hrow Htop Hp. destruct (f_max_rows_ok _ Hne) as [boot Hb].
  destruct (f_max_rows_nth _ _ _ _ Hb Hrow) as [m [Hm Hbk]].
  assert (Hmt : top m).
  { destruct row as [|x xs]; [discriminate|]. injection Hm as <-. apply fold_max_top.
    destruct Htop as [b [[<-|Hin] Htb]]; [left; exact Htb | right; exists b; split; assumption]. }
  unfold f_perdqn_priorities. rewrite Hb. eexists. split; [reflexivity|].
  rewrite nth_error_map. erewrite nth_error_zip_with;
    [| exact (f_td_target_nth _ _ _ _ _ _ _ _ Hr Hd Hbk) | exact Hp].
  rewrite f_td_terminal_nan by (apply top_nonfinite, Hmt). reflexivity.
Qed.

End Format.

(** ** Concrete binary32 values *)

Definition f32 (n : Z) : spec_float := binary_normalize 24 128 n 0 false.
Definition f32_gamma : spec_float := SFdiv 24 128 (f32 9) (f32 10).
Definition f32_inf : spec_float := S754_infinity false.

Lemma f_td_target_terminal_nonfinite_witness :
  nth_error (f_td_target 24 128 f32_gamma [f32 1; f32 2] [f_one 24 128; f32 0] [f32_inf; f32 3]) 0
  = Some S754_nan.
Proof.
  apply (f_td_target_terminal_nonfinite 24 128 (eq_refl true) _ _ _ _ _ (f32 1) f32_inf);
    reflexivity.
Defined.

Lemma f_td_target_terminal_finite_witness :
  exists t, nth_error (f_td_target 24 128 f32_gamma [f32 1; f32 2] [f_one 24 128; f32 0] [f32 5; f32 3]) 0
            = Some t /\ SFeqb t (f32 1) = true.
Proof.
  apply (f_td_target_terminal_finite 24 128 (eq_refl true) _ _ _ _ _ (f32 1) (f32 5));
    reflexivity.
Defined.

Lemma f_select_row_nonfinite_witness : f_select_row 24 128 [f32_inf; f32 7] 1 = S754_nan.
Proof. apply (f_select_row_nonfinite 24 128 _ 1 0 f32_inf); [lia | reflexivity | reflexivity]. Defined.

(** The same row with the infinite value selected gives [+inf], and a
    finite row gives its selected value. *)
Example f_select_row_finite : f_select_row 24 128 [f32 3; f32 7] 1 = f32 7.
Proof. vm_compute. reflexivity. Qed.

Example f_select_row_selected_inf : f_select_row 24 128 [f32 3; f32_inf] 1 = f32_inf.
Proof. vm_compute. reflexivity. Qed.

Lemma f_loss_terminal_nonfinite_witness :
  f_mse_loss 24 128 [f32 4; f32 2]
    (f_td_target 24 128 f32_gamma [f32 1; f32 2] [f_one 24 128; f32 0] [f32_inf; f32 3])
  = S754_nan.
Proof.
  apply (f_loss_terminal_nonfinite 24 128 (eq_refl true) _ _ _ _ _ 0 (f32 1) f32_inf (f32 4));
    reflexivity.
Defined.

(** The loss of an empty batch (an empty shard) is [0 / 0], NaN. *)
Example f_mse_loss_empty : f_mse_loss 24 128 [] [] = S754_nan.
Proof. reflexivity. Qed.

Lemma f_perdqn_priority_nan_witness :
  exists prio,
    f_perdqn_priorities 24 128 f32_gamma [f32 1; f32 2] [f_one 24 128; f32 0]
      [[f32 3; f32_inf]; [f32 3; f32 4]] [f32 1; f32 2] = Some prio /\
    nth_error prio 0 = Some S754_nan.
Proof.
  apply (f_perdqn_priority_nan 24 128 (eq_refl true) _ _ _ _ _ 0 (f32 1) [f32 3; f32_inf] (f32 1));
    try reflexivity.
  - repeat constructor; discriminate.
  - exists f32_inf. split; [right; left; reflexivity | right; reflexivity].
Defined.

(** A [-inf] entry does not poison the maximum. *)
Example f_max_row_neg_inf : f_max_row [S754_infinity true; f32 3] = Some (f32 3).
Proof. reflexivity. Qed.
