(* ===== verification/Policy.v ===== *)
(** * The collaborators of a learner: Q-network policy and optimizer

    The learners call a policy object and a torch optimizer that are not
    part of the sources under src/.  Their contracts are stated here as
    type classes, from the specification (section 6):
    - [QNet]: the Q head of the network, per-action values of an
      observation under a parameter set;
    - [RQNet]: the recurrent variant, a cell threading a hidden state,
      with [init_hidden] building the zero state of a batch;
    - [Optimizer]: [loss.backward()] as a gradient oracle, gradient
      accumulation, [clip_grad_norm_], and the parameter step.
    The policy keeps an online and a target parameter set; [forward]
    evaluates the online one, [target] the frozen one, and each returns
    the arg-max action with the values; [copy_target] is the hard sync. *)

From Stdlib Require Import String List ZArith QArith Qminmax Lia.
From S2P Require Import Prelude Python Tensor.
Import ListNotations.

Class QNet (Obs P : Type) := { qhead : P -> Obs -> list Q }.

Class RQNet (Obs H P : Type) := {
  rq_zero : H;
  rq_cell : P -> H -> Obs -> H * list Q
}.

Class Optimizer (P G O : Type) := {
  grad_of : (P -> result exn fl) -> P -> G;
  gadd : G -> G -> G;
  clip_grad_norm : Q -> G -> G;
  opt_step : Q -> G -> O -> P -> O * P
}.

(** The two parameter sets of a policy. *)
Record policy_state (P : Type) := mk_policy { online : P; target : P }.
Arguments mk_policy {P} online target.
Arguments online {P} p.
Arguments target {P} p.

(** [policy.copy_target()]: the target parameters become a copy of the
    online ones. *)
Definition copy_target {P} (ps : policy_state P) : policy_state P :=
  mk_policy (online ps) (online ps).

Section Feedforward.
Context {Obs P : Type} `{QNet Obs P}.

(** [policy(obs)] and [policy.target(obs)] on a batch: the arg-max
    action and the action values of each observation. *)
Definition eval_net (p : P) (obs : list Obs) : result exn (list Z * list (list Q)) :=
  let q := map (qhead p) obs in
  a <-? mapR argmax_row q ;;
  Ok (a, q).

Definition policy_forward (ps : policy_state P) := eval_net (online ps).
Definition policy_target (ps : policy_state P) := eval_net (target ps).

(** A network with [n > 0] actions answers every batch. *)
Lemma eval_net_ok p obs n :
  rect n (map (qhead p) obs) -> (0 < n)%nat ->
  exists a, eval_net p obs = Ok (a, map (qhead p) obs) /\ length a = length obs.
Proof.
  intros Hr Hn. destruct (argmax_rows_ok n _ Hr Hn) as [a [Ha Hl]].
  exists a. unfold eval_net. rewrite Ha. split; [reflexivity|]. rewrite Hl, length_map. reflexivity.
Qed.
End Feedforward.

Section Recurrent.
Context {Obs H P : Type} `{RQNet Obs H P}.

(** [policy.init_hidden(batch_size)]: one zero state per sequence. *)
Definition init_hidden (batch_size : Z) : list H := repeat rq_zero (Z.to_nat batch_size).

(** The cell unrolled along one sequence. *)
Fixpoint unroll (p : P) (h : H) (xs : list Obs) : list (list Q) * H :=
  match xs with
  | [] => ([], h)
  | x :: xs' =>
      let '(h', q) := rq_cell p h x in
      let '(qs, hT) := unroll p h' xs' in (q :: qs, hT)
  end.

(** [policy(obs, *hidden)] on a batch of sequences: per time step the
    arg-max and the values, and the final hidden states.  A batch and
    a hidden state of different sizes raise. *)
Definition reval_net (p : P) (obs : list (list Obs)) (hs : list H)
  : result exn (list (list Z) * list (list (list Q)) * list H) :=
  if Nat.eqb (length obs) (length hs) then
    let outs := map (fun '(xs, h) => unroll p h xs) (combine obs hs) in
    let q := map fst outs in
    a <-? mapR (mapR argmax_row) q ;;
    Ok (a, q, map snd outs)
  else Err size_mismatch.

Definition rpolicy_forward (ps : policy_state P) := reval_net (online ps).
Definition rpolicy_target (ps : policy_state P) := reval_net (target ps).
End Recurrent.

(** ** Small concrete collaborators, for running the models

    A scalar-parameter network with two actions, a recurrent cell that
    adds the observation to its state, and plain gradient descent with a
    constant gradient oracle.  They are declared as definitions, and
    made instances locally where a concrete run is evaluated. *)
Module Toy.
Definition qnet : QNet Q Q := {| qhead := fun th x => [th * x; x] |}.

Definition rqnet : RQNet Q Q Q :=
  {| rq_zero := 0; rq_cell := fun th h x => (h + x, [th * (h + x); x]) |}.

Definition sgd : Optimizer Q Q unit :=
  {| grad_of := fun loss p => match loss p with Ok (Fin l) => l | _ => 0 end;
     gadd := Qplus;
     clip_grad_norm := fun tau g => Qmin g tau;
     opt_step := fun lr g o p => (o, p - lr * g) |}.
End Toy.
