(* ===== verification/Scheduler.v ===== *)
(** * The learning-rate schedule: torch's [LinearLR]

    The three learners build
    [LinearLR(optimizer, start_factor=1.0, end_factor=0.0,
    total_iters=config.running_steps)] and report the optimizer's [lr]
    after each [scheduler.step()].  [LinearLR] is torch code; it is
    modelled from its recursive ("chainable") definition: the
    constructor checks the factors and takes a first step to epoch 0,
    and each step multiplies the current rate by
    [1 + (end - start) / (total * start + (epoch - 1) * (end - start))]
    until epoch [total], after which the rate is left unchanged.  The
    theorem of this file is its closed form for the learners' factors. *)

From Stdlib Require Import String List ZArith QArith Lia.
From S2P Require Import Prelude Python.
Import ListNotations.
Open Scope Q_scope.

Record linear_lr : Type := mk_linear_lr {
  start_factor : Q;
  end_factor : Q;
  total_iters : Z;
  last_epoch : Z
}.

(** [get_lr()] at the scheduler's current epoch, from the optimizer's
    current rate. *)
Definition linear_lr_get (s : linear_lr) (lr : Q) : result exn Q :=
  if (last_epoch s =? 0)%Z then Ok (lr * start_factor s)
  else if (total_iters s <? last_epoch s)%Z then Ok lr
  else
    let den := inject_Z (total_iters s) * start_factor s
               + inject_Z (last_epoch s - 1) * (end_factor s - start_factor s) in
    if Qeq_bool den 0 then Err ZeroDivisionError
    else Ok (lr * (1 + (end_factor s - start_factor s) / den)).

(** [scheduler.step()]: advance the epoch, then set the rate. *)
Definition linear_lr_step (s : linear_lr) (lr : Q) : result exn (linear_lr * Q) :=
  let s' := mk_linear_lr (start_factor s) (end_factor s) (total_iters s) (last_epoch s + 1) in
  lr' <-? linear_lr_get s' lr ;;
  Ok (s', lr').

(** The constructor: factor checks, then the initial step from epoch -1. *)
Definition linear_lr_init (start end_ : Q) (total : Z) (lr : Q) : result exn (linear_lr * Q) :=
  if negb (Qle_bool start 1) || Qle_bool start 0 then Err ValueError
  else if negb (Qle_bool end_ 1) || negb (Qle_bool 0 end_) then Err ValueError
  else linear_lr_step (mk_linear_lr start end_ total (-1)) lr.

(** [k] successive steps. *)
Fixpoint linear_lr_run (k : nat) (s : linear_lr) (lr : Q) : result exn (linear_lr * Q) :=
  match k with
  | O => Ok (s, lr)
  | S k' => '(s', lr') <-? linear_lr_step s lr ;; linear_lr_run k' s' lr'
  end.

(** ** The closed form for [start_factor = 1], [end_factor = 0] *)

(** After [k] steps of a schedule over [T] iterations the rate is
    [base * (1 - min(k, T) / T)]. *)
Definition lr_closed (T : Z) (base : Q) (k : Z) : Q :=
  base * (1 - inject_Z (Z.min k T) / inject_Z T).

Lemma inject_Z_nonzero z : (z <> 0)%Z -> ~ inject_Z z == 0.
Proof. intros Hz H. apply Hz. unfold Qeq in H. simpl in H. lia. Qed.

Lemma linear_lr_step_closed (T k : Z) (base lr : Q) :
  (0 < T)%Z -> (0 <= k)%Z -> lr == lr_closed T base k ->
  exists lr', linear_lr_step (mk_linear_lr 1 0 T k) lr = Ok (mk_linear_lr 1 0 T (k + 1), lr')
              /\ lr' == lr_closed T base (k + 1).
Proof.
  intros HT Hk Hlr. unfold linear_lr_step, linear_lr_get. simpl.
  replace (k + 1 =? 0)%Z with false by lia.
  destruct (Z.ltb_spec T (k + 1)) as [Hgt|Hle].
  - eexists. split; [reflexivity|]. rewrite Hlr. unfold lr_closed.
    rewrite Z.min_r, Z.min_r by lia. reflexivity.
  - replace (k + 1 - 1)%Z with k by lia.
    assert (Hden : ~ inject_Z T * 1 + inject_Z k * (0 - 1) == 0).
    { setoid_replace (inject_Z T * 1 + inject_Z k * (0 - 1)) with (inject_Z (T - k)).
      - apply inject_Z_nonzero. lia.
      - unfold Qeq; simpl. lia. }
    destruct (Qeq_bool _ 0) eqn:E; [apply Qeq_bool_iff in E; contradiction|].
    eexists. split; [reflexivity|]. rewrite Hlr. unfold lr_closed.
    rewrite Z.min_l, Z.min_l by lia. rewrite inject_Z_plus.
    assert (~ inject_Z T == 0) by (apply inject_Z_nonzero; lia).
    field. split; [assumption|]. intros H'. apply Hden.
    setoid_replace (inject_Z T * 1 + inject_Z k * (0 - 1)) with (inject_Z T + inject_Z k * -1) by ring.
    exact H'.
Qed.

Lemma linear_lr_run_closed (T : Z) (base : Q) (k : nat) :
  (0 < T)%Z -> forall j lr, (0 <= j)%Z -> lr == lr_closed T base j ->
  exists lr', linear_lr_run k (mk_linear_lr 1 0 T j) lr
              = Ok (mk_linear_lr 1 0 T (j + Z.of_nat k), lr')
              /\ lr' == lr_closed T base (j + Z.of_nat k).
Proof.
  intros HT. induction k as [|k IH]; intros j lr Hj Hlr.
  - exists lr. rewrite Z.add_0_r. split; [reflexivity | exact Hlr].
  - destruct (linear_lr_step_closed T j base lr HT Hj Hlr) as [lr1 [Hs H1]].
    destruct (IH (j + 1)%Z lr1) as [lr2 [Hr H2]]; [lia | exact H1 |].
    exists lr2. replace (j + Z.of_nat (S k))%Z with (j + 1 + Z.of_nat k)%Z by lia.
    cbn [linear_lr_run]. rewrite Hs. cbn [rbind]. split; assumption.
Qed.

(** The constructor with the learners' factors starts at epoch 0 with
    the base rate. *)
Lemma linear_lr_init_1_0 (T : Z) (base : Q) :
  linear_lr_init 1 0 T base = Ok (mk_linear_lr 1 0 T 0, base * 1).
Proof. reflexivity. Qed.

(** Constructor followed by [k] steps, in closed form. *)
Lemma linear_lr_closed_form (T : Z) (base : Q) (k : nat) :
  (0 < T)%Z ->
  exists lr, (r <-? linear_lr_init 1 0 T base ;; linear_lr_run k (fst r) (snd r))
             = Ok (mk_linear_lr 1 0 T (Z.of_nat k), lr)
             /\ lr == lr_closed T base (Z.of_nat k).
Proof.
  intros HT. rewrite linear_lr_init_1_0. cbn [rbind fst snd].
  apply (linear_lr_run_closed T base k HT 0 (base * 1)); [lia|].
  unfold lr_closed. rewrite Z.min_l by lia. change (inject_Z 0) with 0.
  unfold Qdiv. rewrite Qmult_0_l. ring.
Qed.

(** From step [T] on, the closed form is zero. *)
Lemma lr_closed_after (T k : Z) (base : Q) :
  (0 < T)%Z -> (T <= k)%Z -> lr_closed T base k == 0.
Proof.
  intros HT Hk. unfold lr_closed. rewrite Z.min_r by lia.
  assert (~ inject_Z T == 0) by (apply inject_Z_nonzero; lia). field. assumption.
Qed.
