(* ===== verification/Learner.v ===== *)
(** * The learner: its state, its constructor and the shared update tail

    A learner object holds the policy (online and target parameters),
    the optimizer (its internal state, the gradients stored in the
    parameters, the current learning rate) and the scheduler, plus the
    iteration counter of the base class [Learner]
    (xuance/torch/learners/learner.py, not under src/: modelled from the
    specification, section 4.1).  The three [update] methods end with the
    same statements (ddqn_learner.py 43-70, drqn 47-73, perdqn 68-92):
    zero the gradients, back-propagate the loss, clip if configured, step
    the optimizer and the scheduler, hard-sync the target network every
    [sync_frequency] iterations, and build the statistics dictionary.
    [train_step] is that tail, [learner_init] the constructors. *)

From Stdlib Require Import String List ZArith QArith Lia.
From S2P Require Import Prelude Python Tensor Policy Scheduler.
Import ListNotations.
Open Scope string_scope.

(** The fields of the configuration [Namespace] the learners read. *)
Record config : Type := mk_config {
  gamma : Q;
  sync_frequency : Z;
  learning_rate : Q;
  running_steps : Z;
  use_grad_clip : bool;
  grad_clip_norm : Q;
  distributed_training : bool;
  rank : Z;
  world_size : Z
}.

(** The state of a learner object: [self.iterations], [self.policy],
    the [.grad] fields of the parameters ([None] when zeroed), the
    optimizer's internal state and [param_groups[0]['lr']], and
    [self.scheduler]. *)
Record learner (P G O : Type) : Type := mk_learner {
  iterations : Z;
  policy : policy_state P;
  grads : option G;
  opt_state : O;
  lr : Q;
  scheduler : option linear_lr
}.
Arguments mk_learner {P G O}.
Arguments iterations {P G O}.
Arguments policy {P G O}.
Arguments grads {P G O}.
Arguments opt_state {P G O}.
Arguments lr {P G O}.
Arguments scheduler {P G O}.

Section Learner.
Context {P G O : Type} `{Optimizer P G O}.
Abbreviation learner := (learner P G O).

Definition set_iterations (n : Z) (s : learner) : learner :=
  mk_learner n (policy s) (grads s) (opt_state s) (lr s) (scheduler s).
Definition set_policy (ps : policy_state P) (s : learner) : learner :=
  mk_learner (iterations s) ps (grads s) (opt_state s) (lr s) (scheduler s).
Definition set_grads (g : option G) (s : learner) : learner :=
  mk_learner (iterations s) (policy s) g (opt_state s) (lr s) (scheduler s).

(** [__init__]: the base class starts the counter at 0; the learner
    builds [Adam(policy.parameters(), learning_rate)] (which rejects a
    negative rate) and [LinearLR(start_factor=1.0, end_factor=0.0,
    total_iters=running_steps)], whose first step sets the rate. *)
Definition learner_init (cfg : config) (ps : policy_state P) (o0 : O) : result exn learner :=
  if Qle_bool 0 (learning_rate cfg) then
    '(sch, lr0) <-? linear_lr_init 1 0 (running_steps cfg) (learning_rate cfg) ;;
    Ok (mk_learner 0 ps None o0 lr0 (Some sch))
  else Err ValueError.

(** [self.iterations += 1] *)
Definition incr_iterations : PyM exn learner unit :=
  pmodify (fun s => set_iterations (iterations s + 1) s).

(** [self.optimizer.zero_grad()]: gradients reset to [None]. *)
Definition zero_grad : PyM exn learner unit := pmodify (set_grads None).

(** [loss.backward()]: the gradient of the loss at the online
    parameters is accumulated into the stored gradients. *)
Definition backward (loss_fn : P -> result exn fl) : PyM exn learner unit :=
  pmodify (fun s =>
    let g := grad_of loss_fn (online (policy s)) in
    set_grads (Some (match grads s with None => g | Some g0 => gadd g0 g end)) s).

(** [torch.nn.utils.clip_grad_norm_(parameters, grad_clip_norm)] *)
Definition clip_grads (tau : Q) : PyM exn learner unit :=
  pmodify (fun s => set_grads (option_map (clip_grad_norm tau) (grads s)) s).

(** [self.optimizer.step()]: a parameter without a gradient is left
    alone. *)
Definition optimizer_step : PyM exn learner unit :=
  pmodify (fun s =>
    match grads s with
    | None => s
    | Some g =>
        let '(o', p') := opt_step (lr s) g (opt_state s) (online (policy s)) in
        mk_learner (iterations s) (mk_policy p' (target (policy s))) (grads s) o' (lr s)
                   (scheduler s)
    end).

(** [if self.scheduler is not None: self.scheduler.step()] *)
Definition scheduler_step : PyM exn learner unit :=
  fun s =>
    match scheduler s with
    | None => (s, Ok tt)
    | Some sch =>
        match linear_lr_step sch (lr s) with
        | Ok (sch', lr') =>
            (mk_learner (iterations s) (policy s) (grads s) (opt_state s) lr' (Some sch'),
             Ok tt)
        | Err e => (s, Err e)
        end
    end.

(** [if self.iterations % self.sync_frequency == 0: self.policy.copy_target()] *)
Definition hard_update (freq : Z) : PyM exn learner unit :=
  s <- pget ;;
  m <- plift (py_mod (iterations s) freq) ;;
  if Z.eqb m 0 then pmodify (fun s => set_policy (copy_target (policy s)) s) else pret tt.

(** Lines 43-55 of ddqn_learner.py: the optimisation step, the hard
    update and the read of [optimizer.param_groups[0]['lr']]. *)
Definition train_step (cfg : config) (loss_fn : P -> result exn fl) : PyM exn learner Q :=
  zero_grad ;;
  backward loss_fn ;;
  (if use_grad_clip cfg then clip_grads (grad_clip_norm cfg) else pret tt) ;;
  optimizer_step ;;
  scheduler_step ;;
  hard_update (sync_frequency cfg) ;;
  s <- pget ;;
  pret (lr s).
End Learner.

(** ** The statistics dictionary *)

(** The keys, rank-suffixed under distributed training. *)
Definition stat_keys (cfg : config) : list string :=
  if distributed_training cfg then
    [ "Qloss/rank_" ++ py_str_int (rank cfg);
      "learning_rate/rank_" ++ py_str_int (rank cfg);
      "predictQ/rank_" ++ py_str_int (rank cfg) ]
  else [ "Qloss"; "learning_rate"; "predictQ" ].

(** [info = {keys: [loss.item(), lr, predictQ.mean().item()]}] *)
Definition make_info (cfg : config) (loss : fl) (lr : Q) (pred : list Q) : dict fl :=
  combine (stat_keys cfg) [loss; Fin lr; mean pred].

(** ** The phases of the update tail *)

Section Phases.
Context {P G O : Type} `{Optimizer P G O}.
Abbreviation learner := (learner P G O).

(** The state after zero_grad, backward, clipping and the optimizer
    step: the online parameters take one step along the (clipped)
    fresh gradient; the target parameters are untouched. *)
Definition opt_phase (cfg : config) (loss_fn : P -> result exn fl) (s : learner) : learner :=
  let g := grad_of loss_fn (online (policy s)) in
  let g' := if use_grad_clip cfg then clip_grad_norm (grad_clip_norm cfg) g else g in
  let '(o', p') := opt_step (lr s) g' (opt_state s) (online (policy s)) in
  mk_learner (iterations s) (mk_policy p' (target (policy s))) (Some g') o' (lr s) (scheduler s).

Lemma opt_phase_run cfg loss_fn (s : learner) :
  (zero_grad ;; backward loss_fn ;;
   (if use_grad_clip cfg then clip_grads (grad_clip_norm cfg) else pret tt) ;;
   optimizer_step) s = (opt_phase cfg loss_fn s, Ok tt).
Proof.
  unfold opt_phase, pbind, zero_grad, backward, clip_grads, optimizer_step, pmodify, pret.
  destruct (use_grad_clip cfg); simpl;
    destruct (opt_step _ _ _ _); reflexivity.
Qed.

Lemma hard_update_ok (freq : Z) (s : learner) :
  freq <> 0%Z ->
  hard_update freq s =
    ((if Z.eqb (iterations s mod freq) 0 then set_policy (copy_target (policy s)) s else s),
     Ok tt).
Proof.
  intros Hf. unfold hard_update, pbind, pget, plift, py_mod.
  replace (freq =? 0)%Z with false by lia. destruct (_ =? 0)%Z; reflexivity.
Qed.

Lemma hard_update_zero (s : learner) : hard_update 0 s = (s, Err ZeroDivisionError).
Proof. reflexivity. Qed.

Lemma scheduler_step_frame (s s' : learner) r :
  scheduler_step s = (s', r) ->
  iterations s' = iterations s /\ policy s' = policy s /\ opt_state s' = opt_state s.
Proof.
  unfold scheduler_step. destruct (scheduler s); [|intros [= <- _]; auto].
  destruct (linear_lr_step _ _) as [[sch' lr']|e]; intros [= <- _]; auto.
Qed.

(** [train_step] in closed form: the optimisation phase, the
    scheduler step, then the gate of the hard update. *)
Lemma train_step_run cfg loss_fn (s : learner) :
  train_step cfg loss_fn s =
    match scheduler_step (opt_phase cfg loss_fn s) with
    | (s2, Err e) => (s2, Err e)
    | (s2, Ok _) =>
        match hard_update (sync_frequency cfg) s2 with
        | (s3, Err e) => (s3, Err e)
        | (s3, Ok _) => (s3, Ok (lr s3))
        end
    end.
Proof.
  unfold train_step, opt_phase, pbind, zero_grad, backward, clip_grads, optimizer_step,
    pmodify, pret, pget.
  destruct (use_grad_clip cfg); simpl; destruct (opt_step _ _ _ _); simpl;
    (destruct (scheduler_step _) as [s2 [u|e]]; [destruct (hard_update _ s2) as [s3 [u'|e']]|]);
    reflexivity.
Qed.
End Phases.

(** ** The sample batch *)

(** The values of the [samples] dictionary: the batch size, float
    arrays (rewards, terminal flags, actions, weights), observations, and
    their per-time-step versions for the recurrent learner. *)
Inductive value (Obs : Type) : Type :=
| VInt (n : Z)
| VVec (xs : list Q)
| VObs (xs : list Obs)
| VMat (xs : list (list Q))
| VObsSeq (xs : list (list Obs)).
Arguments VInt {Obs}. Arguments VVec {Obs}. Arguments VObs {Obs}.
Arguments VMat {Obs}. Arguments VObsSeq {Obs}.

(** [torch.as_tensor(samples[k])] at the expected kind; a missing key
    raises [KeyError], a value of another kind [TypeError]. *)
Definition get_vec {Obs} (d : dict (value Obs)) (k : string) : result exn (list Q) :=
  v <-? dict_get d k ;; match v with VVec xs => Ok xs | _ => Err TypeError end.
Definition get_obs {Obs} (d : dict (value Obs)) (k : string) : result exn (list Obs) :=
  v <-? dict_get d k ;; match v with VObs xs => Ok xs | _ => Err TypeError end.
Definition get_mat {Obs} (d : dict (value Obs)) (k : string) : result exn (list (list Q)) :=
  v <-? dict_get d k ;; match v with VMat xs => Ok xs | _ => Err TypeError end.
Definition get_obs_seq {Obs} (d : dict (value Obs)) (k : string) : result exn (list (list Obs)) :=
  v <-? dict_get d k ;; match v with VObsSeq xs => Ok xs | _ => Err TypeError end.
Definition get_int {Obs} (d : dict (value Obs)) (k : string) : result exn Z :=
  v <-? dict_get d k ;; match v with VInt n => Ok n | _ => Err TypeError end.

(** ** The common shape of the three [update] methods *)

Section Shell.
Context {P G O : Type} `{Optimizer P G O}.
Abbreviation learner := (learner P G O).

(** Increment the counter, compute the loss from the policy (which
    may raise), run the update tail, return what [finish] builds. *)
Definition update_shell {R A} (cfg : config)
           (compute : policy_state P -> result exn ((P -> result exn fl) * R))
           (finish : R -> Q -> A) : PyM exn learner A :=
  incr_iterations ;;
  s <- pget ;;
  '(loss_fn, r) <- plift (compute (policy s)) ;;
  lr <- train_step cfg loss_fn ;;
  pret (finish r lr).

Lemma update_shell_run {R A} cfg compute (finish : R -> Q -> A) (s : learner) :
  update_shell cfg compute finish s =
    let s1 := set_iterations (iterations s + 1) s in
    match compute (policy s) with
    | Err e => (s1, Err e)
    | Ok (loss_fn, r) =>
        match train_step cfg loss_fn s1 with
        | (s2, Ok lr) => (s2, Ok (finish r lr))
        | (s2, Err e) => (s2, Err e)
        end
    end.
Proof.
  unfold update_shell, pbind, incr_iterations, pmodify, pget, plift. simpl.
  destruct (compute (policy s)) as [[loss_fn r]|e]; [|reflexivity].
  destruct (train_step cfg loss_fn _) as [s2 [lr'|e]]; reflexivity.
Qed.
End Shell.

(** ** Well-formed learners *)

(** The scheduler, when present, is a [LinearLR] with the learners'
    factors at a non-negative epoch, and the counter is non-negative. *)
Definition sched_wf (o : option linear_lr) : Prop :=
  match o with
  | None => True
  | Some sch => start_factor sch = 1%Q /\ end_factor sch = 0%Q /\ (0 <= last_epoch sch)%Z
  end.

Definition learner_wf {P G O} (s : learner P G O) : Prop :=
  (0 <= iterations s)%Z /\ sched_wf (scheduler s).

Lemma linear_lr_step_wf sch lr :
  sched_wf (Some sch) ->
  exists sch' lr', linear_lr_step sch lr = Ok (sch', lr') /\ sched_wf (Some sch').
Proof.
  destruct sch as [st en T e]; simpl. intros (-> & -> & He).
  unfold linear_lr_step, linear_lr_get; simpl.
  replace (e + 1 =? 0)%Z with false by lia.
  destruct (Z.ltb_spec T (e + 1)).
  - do 2 eexists; split; [reflexivity|]. simpl. repeat split; lia.
  - replace (e + 1 - 1)%Z with e by lia.
    destruct (Qeq_bool _ 0) eqn:E.
    + exfalso. apply Qeq_bool_iff in E. unfold Qeq in E. simpl in E. lia.
    + do 2 eexists; split; [reflexivity|]. simpl. repeat split; lia.
Qed.

Section Invariant.
Context {P G O : Type} `{Optimizer P G O}.
Abbreviation learner := (learner P G O).

Lemma scheduler_step_wf (s : learner) :
  sched_wf (scheduler s) ->
  exists s2, scheduler_step s = (s2, Ok tt) /\ sched_wf (scheduler s2) /\
    iterations s2 = iterations s /\ policy s2 = policy s.
Proof.
  unfold scheduler_step. destruct (scheduler s) as [sch|] eqn:Hs; intros Hw.
  - destruct (linear_lr_step_wf sch (lr s) Hw) as [sch' [lr' [-> Hw']]].
    eexists. split; [reflexivity|]. simpl. auto.
  - eexists. split; [reflexivity|]. rewrite Hs. auto.
Qed.

(** The update tail on a well-formed learner: it raises only when the
    sync frequency is 0, and otherwise returns the new learning rate
    with the target network synchronised exactly at multiples. *)
Lemma train_step_wf cfg loss_fn (s : learner) :
  sched_wf (scheduler s) ->
  exists s2, scheduler_step (opt_phase cfg loss_fn s) = (s2, Ok tt) /\
    sched_wf (scheduler s2) /\ iterations s2 = iterations s /\
    policy s2 = policy (opt_phase cfg loss_fn s) /\
    train_step cfg loss_fn s =
      if Z.eqb (sync_frequency cfg) 0 then (s2, Err ZeroDivisionError)
      else let s3 := if Z.eqb (iterations s mod sync_frequency cfg) 0
                      then set_policy (copy_target (policy s2)) s2 else s2 in
           (s3, Ok (lr s3)).
Proof.
  intros Hw.
  destruct (scheduler_step_wf (opt_phase cfg loss_fn s)) as [s2 [Hs2 [Hw2 [Hi2 Hp2]]]].
  { unfold opt_phase. destruct (opt_step _ _ _ _). exact Hw. }
  exists s2. rewrite train_step_run, Hs2. repeat split; try assumption.
  - rewrite Hi2. unfold opt_phase. destruct (opt_step _ _ _ _). reflexivity.
  - destruct (Z.eqb_spec (sync_frequency cfg) 0) as [Hz|Hz].
    + rewrite Hz, hard_update_zero. reflexivity.
    + rewrite hard_update_ok by exact Hz.
      replace (iterations s2) with (iterations s)
        by (rewrite Hi2; unfold opt_phase; destruct (opt_step _ _ _ _); reflexivity).
      reflexivity.
Qed.
End Invariant.

Section ShellFacts.
Context {P G O : Type} `{Optimizer P G O}.
Abbreviation learner := (learner P G O).

Lemma opt_phase_policy cfg loss_fn (s : learner) :
  target (policy (opt_phase cfg loss_fn s)) = target (policy s) /\
  iterations (opt_phase cfg loss_fn s) = iterations s /\
  scheduler (opt_phase cfg loss_fn s) = scheduler s.
Proof. unfold opt_phase. destruct (opt_step _ _ _ _). auto. Qed.

(** An update that returns: the counter went up by one, the online
    parameters are those of the optimizer step, and the target
    parameters were copied from them exactly when the new counter is a
    multiple of the sync frequency, and are untouched otherwise. *)
Lemma update_shell_sync {R A} cfg compute (finish : R -> Q -> A) (s s' : learner) a :
  learner_wf s -> update_shell cfg compute finish s = (s', Ok a) ->
  exists loss_fn r, compute (policy s) = Ok (loss_fn, r) /\
    iterations s' = (iterations s + 1)%Z /\ learner_wf s' /\ sync_frequency cfg <> 0%Z /\
    online (policy s') = online (policy (opt_phase cfg loss_fn (set_iterations (iterations s + 1) s))) /\
    ((iterations s + 1) mod sync_frequency cfg = 0 -> target (policy s') = online (policy s'))%Z /\
    ((iterations s + 1) mod sync_frequency cfg <> 0 -> target (policy s') = target (policy s))%Z.
Proof.
  intros [Hi Hw]. rewrite update_shell_run. cbv zeta.
  destruct (compute (policy s)) as [[loss_fn r]|e]; [|discriminate].
  destruct (train_step_wf cfg loss_fn (set_iterations (iterations s + 1) s) Hw)
    as [s2 [_ [Hw2 [Hi2 [Hp2 ->]]]]].
  destruct (opt_phase_policy cfg loss_fn (set_iterations (iterations s + 1) s)) as [Ht _].
  destruct (Z.eqb_spec (sync_frequency cfg) 0) as [|Hz]; [discriminate|].
  simpl in Hi2. simpl in Ht. intros Heq. injection Heq as <- _. exists loss_fn, r.
  split; [reflexivity|].
  simpl iterations.
  destruct (Z.eqb_spec ((iterations s + 1) mod sync_frequency cfg) 0) as [Hm|Hm].
  - simpl. split; [exact Hi2|]. split; [unfold learner_wf; simpl; split; [lia | exact Hw2]|].
    split; [exact Hz|]. split; [rewrite Hp2; reflexivity|].
    split; [reflexivity | contradiction].
  - split; [exact Hi2|]. split; [unfold learner_wf; simpl; split; [lia | exact Hw2]|].
    split; [exact Hz|]. split; [rewrite Hp2; reflexivity|].
    split; [contradiction | intros _; rewrite Hp2; exact Ht].
Qed.

(** Every update leaves a well-formed learner, whichever way it ends. *)
Lemma update_shell_wf {R A} cfg compute (finish : R -> Q -> A) (s : learner) :
  learner_wf s -> learner_wf (fst (update_shell cfg compute finish s)).
Proof.
  intros [Hi Hw]. rewrite update_shell_run. cbv zeta.
  destruct (compute (policy s)) as [[loss_fn r]|e]; [|unfold learner_wf; simpl; split; [lia|exact Hw]].
  destruct (train_step_wf cfg loss_fn (set_iterations (iterations s + 1) s) Hw)
    as [s2 [_ [Hw2 [Hi2 [_ ->]]]]].
  simpl in Hi2.
  destruct (Z.eqb (sync_frequency cfg) 0); [unfold learner_wf; simpl; split; [lia|exact Hw2]|].
  unfold learner_wf. destruct (Z.eqb _ 0); simpl; split; try lia; exact Hw2.
Qed.

(** With [sync_frequency = 0] the modulo raises [ZeroDivisionError]
    after the optimizer has already stepped: the raise leaves the
    learner with a new counter and new online parameters. *)
Lemma update_shell_freq_zero {R A} cfg compute (finish : R -> Q -> A) (s : learner) loss_fn r :
  learner_wf s -> sync_frequency cfg = 0%Z -> compute (policy s) = Ok (loss_fn, r) ->
  exists s', update_shell cfg compute finish s = (s', Err ZeroDivisionError) /\
    iterations s' = (iterations s + 1)%Z /\
    policy s' = policy (opt_phase cfg loss_fn (set_iterations (iterations s + 1) s)).
Proof.
  intros [Hi Hw] Hz Hc. rewrite update_shell_run. cbv zeta. rewrite Hc.
  destruct (train_step_wf cfg loss_fn (set_iterations (iterations s + 1) s) Hw)
    as [s2 [_ [_ [Hi2 [Hp2 ->]]]]].
  rewrite Hz. simpl. exists s2. repeat split; [|exact Hp2].
  rewrite Hi2. reflexivity.
Qed.

(** A batch the forward computation rejects raises its exception with
    only the counter incremented. *)
Lemma update_shell_compute_error {R A} cfg compute (finish : R -> Q -> A) (s : learner) e :
  compute (policy s) = Err e ->
  update_shell cfg compute finish s = (set_iterations (iterations s + 1) s, Err e).
Proof. intros Hc. rewrite update_shell_run. cbv zeta. rewrite Hc. reflexivity. Qed.

(** A failed update changes nothing but the counter, except when the
    sync frequency is 0: then the modulo raises after the optimizer
    step. *)
Lemma update_shell_error_frame {R A} cfg compute (finish : R -> Q -> A) (s s' : learner) e :
  learner_wf s -> update_shell cfg compute finish s = (s', Err e) ->
  s' = set_iterations (iterations s + 1) s \/
  (e = ZeroDivisionError /\ sync_frequency cfg = 0%Z /\ iterations s' = (iterations s + 1)%Z).
Proof.
  intros [Hi Hw]. rewrite update_shell_run. cbv zeta.
  destruct (compute (policy s)) as [[loss_fn r]|e']; [|intros [= <- <-]; left; reflexivity].
  destruct (train_step_wf cfg loss_fn (set_iterations (iterations s + 1) s) Hw)
    as [s2 [_ [_ [Hi2 [_ ->]]]]].
  destruct (Z.eqb_spec (sync_frequency cfg) 0) as [Hz|Hz].
  - intros [= <- <-]. right. repeat split; assumption.
  - discriminate.
Qed.

(** The update returns on a well-formed learner when the loss
    computation does and the sync frequency is not 0. *)
Lemma update_shell_ok {R A} cfg compute (finish : R -> Q -> A) (s : learner) loss_fn r :
  learner_wf s -> sync_frequency cfg <> 0%Z -> compute (policy s) = Ok (loss_fn, r) ->
  exists s' lr', update_shell cfg compute finish s = (s', Ok (finish r lr')) /\ learner_wf s'.
Proof.
  intros Hw Hz Hc. pose proof (update_shell_wf cfg compute finish s Hw) as Hw'.
  rewrite update_shell_run in *. cbv zeta in *. rewrite Hc in *.
  destruct (train_step_wf cfg loss_fn (set_iterations (iterations s + 1) s) (proj2 Hw))
    as [s2 [_ [_ [_ [_ Ht]]]]].
  rewrite Ht in *. rewrite (proj2 (Z.eqb_neq _ _) Hz) in *.
  simpl in *. do 2 eexists. split; [reflexivity | exact Hw'].
Qed.
End ShellFacts.

(** ** The learning rate across an update *)

Section Schedule.
Context {P G O : Type} `{Optimizer P G O}.

(** An update that returns has stepped the scheduler once, and reports
    the rate the optimizer holds afterwards. *)
Lemma update_shell_sched {R A} cfg compute (finish : R -> Q -> A) (s s' : learner P G O) a :
  learner_wf s -> update_shell cfg compute finish s = (s', Ok a) ->
  (exists r, a = finish r (lr s')) /\
  match scheduler s with
  | Some sch => linear_lr_step sch (lr s) = Ok (match scheduler s' with Some x => x | None => sch end, lr s')
                /\ scheduler s' <> None
  | None => scheduler s' = None /\ lr s' = lr s
  end.
Proof.
  intros [Hi Hw]. rewrite update_shell_run. cbv zeta.
  destruct (compute (policy s)) as [[loss_fn r]|e]; [|discriminate].
  destruct (train_step_wf cfg loss_fn (set_iterations (iterations s + 1) s) Hw)
    as [s2 [Hs2 [_ [_ [_ ->]]]]].
  destruct (Z.eqb (sync_frequency cfg) 0); [discriminate|].
  intros Heq. injection Heq as Hs' Ha. subst a.
  assert (Hlr : lr s' = lr s2 /\ scheduler s' = scheduler s2).
  { rewrite <- Hs'. destruct (Z.eqb _ 0); split; reflexivity. }
  destruct Hlr as [Hl Hsc]. split; [exists r; rewrite Hs'; reflexivity|].
  unfold scheduler_step, opt_phase in Hs2. destruct (opt_step _ _ _ _) as [o' p']. simpl in Hs2.
  destruct (scheduler s) as [sch|].
  - destruct (linear_lr_step sch (lr s)) as [[sch' lr']|e]; [|discriminate].
    injection Hs2 as <-. rewrite Hsc, Hl. simpl. split; [reflexivity | discriminate].
  - injection Hs2 as <-. rewrite Hsc, Hl. split; reflexivity.
Qed.
End Schedule.

(** ** Properties of the constructor and of the statistics keys *)

(** C19: Construction ([__init__]): with a non-negative learning rate
    the constructor returns a well-formed learner with counter 0, the
    given policy, no gradients, the configured rate and a scheduler at
    epoch 0; with a negative rate [Adam] raises [ValueError]. *)
Theorem learner_init_spec {P G O} cfg (ps : policy_state P) (o0 : O) :
  (0 <= learning_rate cfg ->
   exists s : learner P G O, learner_init cfg ps o0 = Ok s /\ learner_wf s /\
     iterations s = 0%Z /\ policy s = ps /\ grads s = None /\ lr s == learning_rate cfg /\
     scheduler s = Some (mk_linear_lr 1 0 (running_steps cfg) 0)) /\
  (learning_rate cfg < 0 -> @learner_init P G O cfg ps o0 = Err ValueError).
Proof.
  unfold learner_init. split; intros Hl.
  - apply Qle_bool_iff in Hl. rewrite Hl, linear_lr_init_1_0. simpl.
    eexists. split; [reflexivity|]. unfold learner_wf. simpl.
    repeat split; try reflexivity; try lia. ring.
  - destruct (Qle_bool 0 (learning_rate cfg)) eqn:E; [|reflexivity].
    apply Qle_bool_iff in E. exfalso. apply (Qlt_not_le _ _ Hl E).
Qed.

Lemma append_cancel_l (p a b : string) : (p ++ a = p ++ b)%string -> a = b.
Proof. induction p as [|c p IH]; simpl; [auto | intros H; injection H; auto]. Qed.

(** C16: Under distributed training two workers of different ranks
    never report a statistic under the same key: the rank written by
    [str] into the keys is recovered from them. *)
Theorem stat_keys_rank_distinct cfg1 cfg2 k :
  distributed_training cfg1 = true -> distributed_training cfg2 = true ->
  rank cfg1 <> rank cfg2 -> In k (stat_keys cfg1) -> ~ In k (stat_keys cfg2).
Proof.
  unfold stat_keys. intros -> -> Hr H1 H2. cbn [In] in H1, H2.
  destruct H1 as [<-|[<-|[<-|[]]]]; destruct H2 as [H|[H|[H|[]]]];
    first [apply append_cancel_l, py_str_int_inj in H; congruence
          | simpl in H; discriminate H].
Qed.

Lemma stat_keys_rank_distinct_witness :
  ~ In ("Qloss/rank_" ++ py_str_int 0)%string
       (stat_keys (mk_config 1 1 1 1 false 1 true 1 2)).
Proof.
  apply (stat_keys_rank_distinct (mk_config 1 1 1 1 false 1 true 0 2)); try reflexivity.
  - discriminate.
  - left. reflexivity.
Defined.

(** ** A concrete learner for evaluating the models *)

Definition toy_cfg (freq : Z) : config :=
  mk_config (9 # 10) freq (1 # 10) 10 false 1 false 0 1.

Definition toy_learner (n : Z) : learner Q Q unit :=
  mk_learner n (mk_policy 1 0) None tt (1 # 10) (Some (mk_linear_lr 1 0 10 n)).

Definition toy_samples : dict (value Q) :=
  [("obs", VObs [1; 2]); ("actions", VVec [0; 1]); ("obs_next", VObs [2; 3]);
   ("rewards", VVec [1; 0]); ("terminals", VVec [0; 1]); ("batch_size", VInt 2)].

Lemma toy_learner_wf n : (0 <= n)%Z -> learner_wf (toy_learner n).
Proof. intros Hn. unfold learner_wf; simpl. repeat split; lia. Qed.

Lemma learner_init_spec_witness :
  exists s : learner Q Q unit, learner_init (toy_cfg 2) (mk_policy 1 1) tt = Ok s /\ learner_wf s /\
    iterations s = 0%Z /\ policy s = mk_policy 1 1 /\ grads s = None /\
    lr s == learning_rate (toy_cfg 2) /\
    scheduler s = Some (mk_linear_lr 1 0 (running_steps (toy_cfg 2)) 0).
Proof.
  apply (proj1 (learner_init_spec (toy_cfg 2) (mk_policy 1 1) tt)).
  unfold Qle; simpl; lia.
Defined.
