(* ===== verification/DDQN.v ===== *)
(** * [DDQN_Learner.update] (src/xuance/torch/learners/qlearning_family/ddqn_learner.py)

    [ddqn_compute] is lines 28-42: the five batch lookups, the online
    forward pass on [obs], the target forward pass on [obs_next], the
    target of [ddqn_target], the prediction and the MSE loss; it also
    returns the loss as a function of the online parameters, which
    [loss.backward()] differentiates.  [ddqn_update] is the whole method:
    the counter increment of line 27, [ddqn_compute], the tail of lines
    43-55 ([train_step]) and the statistics of lines 57-70. *)

From Stdlib Require Import String List ZArith QArith Lia.
From S2P Require Import Prelude Python Tensor TDTarget Policy Scheduler Learner.
Import ListNotations.
Open Scope string_scope.

Section DDQN.
Context {Obs P G O : Type} `{QNet Obs P} `{Optimizer P G O}.

(** The loss of lines 34 and 40-42 as a function of the online
    parameters, the target being fixed. *)
Definition ddqn_loss_fn (obs : list Obs) (act tgt : list Q) (p : P) : result exn fl :=
  '(_, evalQ) <-? eval_net p obs ;;
  pred <-? predict_q evalQ act ;;
  mse_loss pred tgt.

Definition ddqn_compute (cfg : config) (samples : dict (value Obs)) (ps : policy_state P)
  : result exn ((P -> result exn fl) * (fl * list Q)) :=
  obs <-? get_obs samples "obs" ;;
  act <-? get_vec samples "actions" ;;
  nxt <-? get_obs samples "obs_next" ;;
  rew <-? get_vec samples "rewards" ;;
  ter <-? get_vec samples "terminals" ;;
  '(_, evalQ) <-? policy_forward ps obs ;;
  '(targetA, targetQ) <-? policy_target ps nxt ;;
  tgt <-? ddqn_target (gamma cfg) rew ter targetA targetQ ;;
  pred <-? predict_q evalQ act ;;
  loss <-? mse_loss pred tgt ;;
  Ok (ddqn_loss_fn obs act tgt, (loss, pred)).

Definition ddqn_update (cfg : config) (samples : dict (value Obs))
  : PyM exn (learner P G O) (dict fl) :=
  update_shell cfg (ddqn_compute cfg samples)
               (fun r lr => make_info cfg (fst r) lr (snd r)).
End DDQN.

Section DDQNProps.
Context {Obs P G O : Type} `{QNet Obs P} `{Optimizer P G O}.

(** C4: Hard synchronisation of the target network in
    [DDQN_Learner.update]: after an update that returns, the counter
    has gone up by one; the online parameters are those of this
    update's optimizer step; the target parameters equal them exactly
    when the new counter is a multiple of [sync_frequency], and are
    unchanged otherwise. *)
Theorem ddqn_update_sync cfg samples (s s' : learner P G O) info :
  learner_wf s -> ddqn_update cfg samples s = (s', Ok info) ->
  iterations s' = (iterations s + 1)%Z /\
  (exists loss_fn r, ddqn_compute cfg samples (policy s) = Ok (loss_fn, r) /\
     online (policy s') =
     online (policy (opt_phase cfg loss_fn (set_iterations (iterations s + 1) s)))) /\
  ((iterations s + 1) mod sync_frequency cfg = 0 -> target (policy s') = online (policy s'))%Z /\
  ((iterations s + 1) mod sync_frequency cfg <> 0 -> target (policy s') = target (policy s))%Z.
Proof.
  intros Hw Hu.
  destruct (update_shell_sync _ _ _ _ _ _ Hw Hu)
    as (loss_fn & r & Hc & Hi & _ & _ & Ho & H1 & H2).
  split; [exact Hi|]. split; [exists loss_fn, r; split; assumption|]. split; assumption.
Qed.

(** C5: Error paths of [DDQN_Learner.update]: a call that raises has
    changed nothing but the counter (the increment of line 27 runs
    before any lookup), except when [sync_frequency] is 0, where the
    modulo of line 52 raises [ZeroDivisionError] after the optimizer
    step. *)
Theorem ddqn_update_error_frame cfg samples (s s' : learner P G O) e :
  learner_wf s -> ddqn_update cfg samples s = (s', Err e) ->
  s' = set_iterations (iterations s + 1) s \/
  (e = ZeroDivisionError /\ sync_frequency cfg = 0%Z /\ iterations s' = (iterations s + 1)%Z).
Proof. apply update_shell_error_frame. Qed.

(** C18: With [sync_frequency = 0] the modulo of the hard-update test
    raises [ZeroDivisionError] only after the optimizer has stepped:
    the learner keeps the incremented counter and the new online
    parameters, and the caller sees the exception without the info. *)
Theorem ddqn_update_freq_zero cfg samples (s : learner P G O) loss_fn r :
  learner_wf s -> sync_frequency cfg = 0%Z ->
  ddqn_compute cfg samples (policy s) = Ok (loss_fn, r) ->
  exists s', ddqn_update cfg samples s = (s', Err ZeroDivisionError) /\
    iterations s' = (iterations s + 1)%Z /\
    policy s' = policy (opt_phase cfg loss_fn (set_iterations (iterations s + 1) s)).
Proof. apply update_shell_freq_zero. Qed.
End DDQNProps.

(** ** Concrete runs with the toy collaborators *)

#[local] Existing Instance Toy.qnet.
#[local] Existing Instance Toy.sgd.

Lemma ddqn_update_sync_witness :
  exists s' info, ddqn_update (toy_cfg 2) toy_samples (toy_learner 1) = (s', Ok info) /\
    iterations s' = (iterations (toy_learner 1) + 1)%Z /\
    (exists loss_fn r, ddqn_compute (toy_cfg 2) toy_samples (policy (toy_learner 1)) = Ok (loss_fn, r) /\
       online (policy s') =
       online (policy (opt_phase (toy_cfg 2) loss_fn
                                 (set_iterations (iterations (toy_learner 1) + 1) (toy_learner 1))))) /\
    ((iterations (toy_learner 1) + 1) mod sync_frequency (toy_cfg 2) = 0 ->
       target (policy s') = online (policy s'))%Z /\
    ((iterations (toy_learner 1) + 1) mod sync_frequency (toy_cfg 2) <> 0 ->
       target (policy s') = target (policy (toy_learner 1)))%Z.
Proof.
  do 2 eexists. split; [reflexivity|].
  eapply (ddqn_update_sync (toy_cfg 2) toy_samples (toy_learner 1));
    [apply toy_learner_wf; lia | reflexivity].
Defined.

Lemma ddqn_update_error_frame_witness :
  exists s', ddqn_update (toy_cfg 2) (tl toy_samples) (toy_learner 1)
             = (s', Err (KeyError "obs")) /\
    (s' = set_iterations (iterations (toy_learner 1) + 1) (toy_learner 1) \/
     (KeyError "obs" = ZeroDivisionError /\ sync_frequency (toy_cfg 2) = 0%Z /\
      iterations s' = (iterations (toy_learner 1) + 1)%Z)).
Proof.
  eexists. split; [reflexivity|].
  eapply (ddqn_update_error_frame (toy_cfg 2) (tl toy_samples) (toy_learner 1));
    [apply toy_learner_wf; lia | reflexivity].
Defined.

Lemma ddqn_update_freq_zero_witness :
  exists loss_fn r, ddqn_compute (toy_cfg 0) toy_samples (policy (toy_learner 1)) = Ok (loss_fn, r) /\
    exists s', ddqn_update (toy_cfg 0) toy_samples (toy_learner 1) = (s', Err ZeroDivisionError) /\
    iterations s' = (iterations (toy_learner 1) + 1)%Z /\
    policy s' = policy (opt_phase (toy_cfg 0) loss_fn
                          (set_iterations (iterations (toy_learner 1) + 1) (toy_learner 1))).
Proof.
  do 2 eexists. split; [reflexivity|].
  eapply (ddqn_update_freq_zero (toy_cfg 0) toy_samples (toy_learner 1));
    [apply toy_learner_wf; lia | reflexivity | reflexivity].
Defined.
