(* ===== verification/PerDQN.v ===== *)
(** * [PerDQN_Learner] (src/xuance/torch/learners/qlearning_family/perdqn_learner.py)

    [build_training_data] (lines 29-49) shards the batch under several
    workers: the worker reads its rank from the environment variable
    [RANK], takes [batch_size // world_size] rows, the last worker also
    the remainder, and every array is indexed by that [range]; the keys
    [batch_size], [weights] and [step_choices] are dropped.
    [perdqn_update] (lines 51-94) is the counter increment, the sharding,
    the max target, the TD error [targetQ - predictQ], the loss and the
    shared tail; it returns [np.abs(td_error)] with the statistics.
    The TD error of one transition is stated by [td_row_rel]; from it,
    the workers' computations on their shards are shown to gather to
    the single worker's. *)

From Stdlib Require Import String List ZArith QArith Qabs Lia.
From S2P Require Import Prelude Python Tensor TDTarget Policy Scheduler Learner.
Import ListNotations.
Open Scope string_scope.

(** ** Sharding the batch *)

(** The rows a worker takes (lines 35-38), [bl] being
    [batch_size // world_size] (line 34). *)
Definition shard_indices (batch_size bl ws rank : Z) : list Z :=
  if (rank <? ws - 1)%Z then py_range (rank * bl) ((rank + 1) * bl)
  else py_range (rank * bl) batch_size.

(** [v[indices]] on a value of the batch: arrays are indexed along
    their first dimension; an integer is not subscriptable. *)
Definition take_value {Obs} (v : value Obs) (idx : list Z) : result exn (value Obs) :=
  match v with
  | VInt _ => Err TypeError
  | VVec xs => xs' <-? np_take xs idx ;; Ok (VVec xs')
  | VObs xs => xs' <-? np_take xs idx ;; Ok (VObs xs')
  | VMat xs => xs' <-? np_take xs idx ;; Ok (VMat xs')
  | VObsSeq xs => xs' <-? np_take xs idx ;; Ok (VObsSeq xs')
  end.

Definition skipped_key (k : string) : bool :=
  existsb (String.eqb k) ["batch_size"; "weights"; "step_choices"].

(** The loop over [samples.items()] (lines 39-42 and 44-47): [None]
    copies every kept value, [Some idx] indexes it. *)
Fixpoint shard_items {Obs} (idx : option (list Z)) (items : dict (value Obs))
         (acc : dict (value Obs)) : result exn (dict (value Obs)) :=
  match items with
  | [] => Ok acc
  | (k, v) :: rest =>
      if skipped_key k then shard_items idx rest acc
      else v' <-? (match idx with Some i => take_value v i | None => Ok v end) ;;
           shard_items idx rest (dict_set acc k v')
  end.

Definition build_training_data {Obs} (ws : Z) (env : dict string) (samples : dict (value Obs))
  : result exn (dict (value Obs)) :=
  bs <-? get_int samples "batch_size" ;;
  if (1 <? ws)%Z then
    rs <-? dict_get env "RANK" ;;
    rank <-? py_int_of_str rs ;;
    bl <-? py_floordiv bs ws ;;
    shard_items (Some (shard_indices bs bl ws rank)) samples []
  else shard_items None samples [].

(** ** The shards partition the batch *)

Lemma py_range_snoc a b : (a <= b)%Z -> py_range a (b + 1) = (py_range a b ++ [b])%list.
Proof.
  intros H. rewrite <- (py_range_app a b (b + 1)) by lia.
  rewrite (py_range_cons b (b + 1)), (py_range_empty (b + 1) (b + 1)) by lia. reflexivity.
Qed.

Lemma shard_prefix bs ws (n : nat) :
  (1 < ws)%Z -> (0 <= bs)%Z -> (Z.of_nat n <= ws - 1)%Z ->
  concat (map (shard_indices bs (bs / ws) ws) (py_range 0 (Z.of_nat n)))
  = py_range 0 (Z.of_nat n * (bs / ws)).
Proof.
  intros Hws Hbs. assert (Hbl : (0 <= bs / ws)%Z) by (apply Z.div_pos; lia).
  induction n as [|n IH]; intros Hn; [reflexivity|].
  rewrite Nat2Z.inj_succ, <- Z.add_1_r, py_range_snoc by lia.
  rewrite map_app, concat_app, IH by lia. simpl. rewrite app_nil_r.
  unfold shard_indices. replace (Z.of_nat n <? ws - 1)%Z with true by lia.
  rewrite py_range_app by nia. reflexivity.
Qed.

Lemma shard_last_bound bs ws :
  (1 < ws)%Z -> (0 <= bs)%Z -> (0 <= (ws - 1) * (bs / ws) <= bs)%Z.
Proof.
  intros Hws Hbs. assert (Hbl : (0 <= bs / ws)%Z) by (apply Z.div_pos; lia).
  pose proof (Z.mul_div_le bs ws ltac:(lia)). nia.
Qed.

(** C6: Sharding in [build_training_data]: for [world_size > 1], the
    index ranges of the ranks [0 .. world_size - 1], in rank order,
    concatenate to [range(batch_size)]: no gap and no overlap. *)
Lemma shard_partition bs ws :
  (1 < ws)%Z -> (0 <= bs)%Z ->
  concat (map (shard_indices bs (bs / ws) ws) (py_range 0 ws)) = py_range 0 bs.
Proof.
  intros Hws Hbs. pose proof (shard_last_bound bs ws Hws Hbs).
  assert (Hw : py_range 0 ws = py_range 0 (Z.of_nat (Z.to_nat (ws - 1)) + 1))
    by (f_equal; lia).
  rewrite Hw, py_range_snoc by lia. rewrite map_app, concat_app, shard_prefix by lia.
  simpl. rewrite app_nil_r. unfold shard_indices at 1.
  rewrite Z2Nat.id, Z.ltb_irrefl by lia. apply py_range_app. lia.
Qed.

(** C7: Shard sizes: every rank but the last takes
    [batch_size // world_size] rows; the last takes those plus the
    remainder [batch_size % world_size]. *)
Lemma shard_sizes bs ws r :
  (1 < ws)%Z -> (0 <= bs)%Z -> (0 <= r < ws)%Z ->
  length (shard_indices bs (bs / ws) ws r) =
  Z.to_nat (if (r <? ws - 1)%Z then bs / ws else bs / ws + bs mod ws).
Proof.
  intros Hws Hbs Hr. unfold shard_indices.
  pose proof (Z.div_mod bs ws ltac:(lia)).
  destruct (Z.ltb_spec r (ws - 1)); rewrite py_range_length; f_equal; [ring|].
  assert (r = ws - 1)%Z by lia. subst r. lia.
Qed.

(** Gathering the shards: indexing an array of [batch_size] rows by
    the ranges of the ranks [0 .. world_size - 1] never raises, and the
    shards, concatenated in rank order, are the array itself. *)
Lemma shard_gather {A} (xs : list A) bs ws :
  (1 < ws)%Z -> Z.of_nat (length xs) = bs ->
  exists shards,
    mapR (fun r => np_take xs (shard_indices bs (bs / ws) ws r)) (py_range 0 ws) = Ok shards /\
    concat shards = xs.
Proof.
  intros Hws Hl.
  assert (Hall : np_take xs (py_range 0 bs) = Ok xs).
  { rewrite np_take_range by lia. simpl. rewrite firstn_all2; [reflexivity | lia]. }
  rewrite <- (shard_partition bs ws Hws) in Hall by lia.
  unfold np_take in Hall. rewrite mapR_concat, mapR_map in Hall.
  destruct (mapR _ (py_range 0 ws)) as [shards|e] eqn:E; [|discriminate].
  exists shards. split; [reflexivity|]. injection Hall as Hall. exact Hall.
Qed.

(** ** The update *)

(** The indices of [RANK = -1]: [range(-bl, 0)], which NumPy reads as
    the last [bl] rows, all of them rows of the last rank's shard. *)
Lemma shard_negative_indices {A} (xs : list A) bs ws :
  (1 < ws)%Z -> Z.of_nat (length xs) = bs ->
  np_take xs (shard_indices bs (bs / ws) ws (-1)) = Ok (skipn (Z.to_nat (bs - bs / ws)) xs) /\
  (forall i, In i (shard_indices bs (bs / ws) ws (-1)) ->
     In (bs + i)%Z (shard_indices bs (bs / ws) ws (ws - 1))).
Proof.
  intros Hws Hl. assert (Hbl : (0 <= bs / ws <= bs)%Z) by (split; [apply Z.div_pos | apply Z.div_le_upper_bound]; nia).
  assert (Hm : (ws * (bs / ws) <= bs)%Z) by (apply Z.mul_div_le; lia).
  unfold shard_indices. replace (-1 <? ws - 1)%Z with true by lia.
  replace (ws - 1 <? ws - 1)%Z with false by lia.
  replace (-1 * (bs / ws))%Z with (- (bs / ws))%Z by lia.
  replace ((-1 + 1) * (bs / ws))%Z with 0%Z by lia. split.
  - rewrite np_take_range_neg by lia. rewrite Hl, Z.add_opp_r. f_equal. apply firstn_all2.
    rewrite length_skipn. lia.
  - intros i Hi. apply in_py_range in Hi. apply in_py_range. nia.
Qed.

Section PerDQN.
Context {Obs P G O : Type} `{QNet Obs P} `{Optimizer P G O}.

Definition perdqn_loss_fn (obs : list Obs) (act tgt : list Q) (p : P) : result exn fl :=
  '(_, evalQ) <-? eval_net p obs ;;
  pred <-? predict_q evalQ act ;;
  mse_loss pred tgt.

(** Lines 53-67. *)
Definition perdqn_compute (cfg : config) (env : dict string) (samples : dict (value Obs))
           (ps : policy_state P)
  : result exn ((P -> result exn fl) * (list Q * (fl * list Q))) :=
  st <-? build_training_data (world_size cfg) env samples ;;
  obs <-? get_obs st "obs" ;;
  act <-? get_vec st "actions" ;;
  nxt <-? get_obs st "obs_next" ;;
  rew <-? get_vec st "rewards" ;;
  ter <-? get_vec st "terminals" ;;
  '(_, evalQ) <-? policy_forward ps obs ;;
  '(_, targetQ) <-? policy_target ps nxt ;;
  tgt <-? perdqn_target (gamma cfg) rew ter targetQ ;;
  pred <-? predict_q evalQ act ;;
  td <-? vsub tgt pred ;;
  loss <-? mse_loss pred tgt ;;
  Ok (perdqn_loss_fn obs act tgt, (td, (loss, pred))).

Definition perdqn_update (cfg : config) (env : dict string) (samples : dict (value Obs))
  : PyM exn (learner P G O) (list Q * dict fl) :=
  update_shell cfg (perdqn_compute cfg env samples)
               (fun r lr => (vabs (fst r), make_info cfg (fst (snd r)) lr (snd (snd r)))).
End PerDQN.

(** [PerDQN_Learner.__init__]: the same statements as the DDQN constructor (the
    base class, [Adam], [LinearLR], the copied configuration fields). *)
Definition perdqn_init {P G O} (cfg : config) (ps : policy_state P) (o0 : O) : result exn (learner P G O) :=
  learner_init cfg ps o0.

(** ** Properties of the PER-DQN learner *)

Lemma shard_items_set_skipped {Obs} idx (items : dict (value Obs)) acc k v :
  skipped_key k = true -> shard_items idx (dict_set items k v) acc = shard_items idx items acc.
Proof.
  intros Hk. revert acc. induction items as [|[k' v'] items IH]; intros acc; simpl.
  - rewrite Hk. reflexivity.
  - destruct (String.eqb_spec k k') as [<-|Hne]; simpl.
    + rewrite Hk. reflexivity.
    + destruct (skipped_key k'); [apply IH|].
      destruct (match idx with Some i => take_value v' i | None => Ok v' end); simpl;
        [apply IH | reflexivity].
Qed.

Lemma build_training_data_set_skipped {Obs} ws env (samples : dict (value Obs)) k v :
  skipped_key k = true -> k <> "batch_size" ->
  build_training_data ws env (dict_set samples k v) = build_training_data ws env samples.
Proof.
  intros Hk Hb. unfold build_training_data, get_int, dict_get.
  rewrite dict_lookup_set. destruct (String.eqb_spec "batch_size" k) as [E|_]; [congruence|].
  destruct (dict_lookup samples "batch_size") as [[n| | | |]|]; simpl; try reflexivity.
  destruct (1 <? ws)%Z; [|apply shard_items_set_skipped; exact Hk].
  destruct (dict_lookup env "RANK"); simpl; [|reflexivity].
  destruct (py_int_of_str _); simpl; [|reflexivity].
  destruct (py_floordiv n ws); simpl; [|reflexivity].
  apply shard_items_set_skipped; exact Hk.
Qed.

(** ** The shape of the sharded batch *)

(** Two values built by the same constructor (a Python [int], or arrays
    of the same element kind). *)
Definition same_kind {Obs} (v w : value Obs) : bool :=
  match v, w with
  | VInt _, VInt _ | VVec _, VVec _ | VObs _, VObs _ | VMat _, VMat _ | VObsSeq _, VObsSeq _ => true
  | _, _ => false
  end.

(** The leading dimension of an array; an [int] has none. *)
Definition value_rows {Obs} (v : value Obs) : option nat :=
  match v with
  | VInt _ => None
  | VVec xs => Some (length xs)
  | VObs xs => Some (length xs)
  | VMat xs => Some (length xs)
  | VObsSeq xs => Some (length xs)
  end.

Definition kept {Obs} (kv : string * value Obs) : bool := negb (skipped_key (fst kv)).

Lemma take_value_kind {Obs} (v w : value Obs) idx :
  take_value v idx = Ok w -> same_kind v w = true /\ value_rows w = Some (length idx).
Proof.
  destruct v as [n|xs|xs|xs|xs]; simpl; [discriminate| ..];
    destruct (np_take xs idx) as [ys|] eqn:E; simpl; try discriminate;
    intros [= <-]; split; [reflexivity | | reflexivity | | reflexivity | | reflexivity |];
    simpl; f_equal; eapply mapR_length; exact E.
Qed.

(** The loop of lines 39-47 appends, for every kept key in order, its
    value (indexed by [idx] when there is one) to the accumulator. *)
Lemma shard_items_spec {Obs} idx (items : dict (value Obs)) acc st :
  NoDup (map fst items) -> (forall k, In k (map fst items) -> ~ In k (map fst acc)) ->
  shard_items idx items acc = Ok st ->
  exists out, st = (acc ++ out)%list /\
    Forall2 (fun kv kw => fst kv = fst kw /\
               match idx with None => snd kw = snd kv | Some i => take_value (snd kv) i = Ok (snd kw) end)
            (filter kept items) out.
Proof.
  revert acc. induction items as [|[k v] items IH]; intros acc Hnd Hdis; simpl.
  - intros [= <-]. exists []. rewrite app_nil_r. split; [reflexivity | constructor].
  - inversion Hnd as [|? ? Hk Hnd']; subst. unfold kept at 1; simpl.
    destruct (skipped_key k); simpl.
    + apply IH; [exact Hnd'|]. intros k' Hk'. apply Hdis. right. exact Hk'.
    + destruct (match idx with Some i => take_value v i | None => Ok v end) as [w|] eqn:Hw;
        simpl; [|discriminate].
      rewrite (dict_set_fresh acc k w) by (apply (Hdis k); left; reflexivity).
      intros Hs. destruct (IH (acc ++ [(k, w)])%list Hnd' ltac:(intros k' Hk' Hin; rewrite map_app, in_app_iff in Hin;
                                           destruct Hin as [Hin|[<-|[]]];
                                           [exact (Hdis k' (or_intror Hk') Hin) | exact (Hk Hk')]) Hs)
        as [out [-> Hf]].
      exists ((k, w) :: out). split; [rewrite <- app_assoc; reflexivity|].
      constructor; [|exact Hf]. split; [reflexivity|]. destruct idx; simpl; [exact Hw | congruence].
Qed.

Lemma same_kind_refl {Obs} (v : value Obs) : same_kind v v = true.
Proof. destruct v; reflexivity. Qed.

Lemma shard_out_props {Obs} idx (l out : dict (value Obs)) :
  Forall2 (fun kv kw => fst kv = fst kw /\
             match idx with None => snd kw = snd kv | Some i => take_value (snd kv) i = Ok (snd kw) end)
          l out ->
  map fst out = map fst l /\
  Forall2 (fun v w => same_kind v w = true) (map snd l) (map snd out) /\
  (idx = None -> out = l) /\
  (forall i, idx = Some i -> Forall (fun w => value_rows w = Some (length i)) (map snd out)).
Proof.
  induction 1 as [|[k v] [k' w] l out [Hk Hv] _ [IH1 [IH2 [IH3 IH4]]]]; simpl in *.
  - repeat split; intros; constructor.
  - subst k'. split; [f_equal; exact IH1|]. split; [|split].
    + constructor; [|exact IH2]. destruct idx; [apply (take_value_kind _ _ _ Hv) | subst; apply same_kind_refl].
    + intros ->. subst w. f_equal. apply IH3. reflexivity.
    + intros i ->. constructor; [apply (take_value_kind _ _ _ Hv) | apply IH4; reflexivity].
Qed.

(** C29: The shape of the batch [build_training_data] hands to
    [update]: its keys are those of [samples] but [batch_size],
    [weights] and [step_choices], in order; each value keeps its kind;
    with one worker the values are the samples' own; with several, every
    array has exactly the rows of this worker's range
    [range(rank * bl, ...)], with [bl = batch_size // world_size] and the
    rank read from the environment. *)
Theorem build_training_data_types {Obs} ws env (samples st : dict (value Obs)) :
  NoDup (map fst samples) -> build_training_data ws env samples = Ok st ->
  map fst st = map fst (filter kept samples) /\
  Forall2 (fun v w => same_kind v w = true) (map snd (filter kept samples)) (map snd st) /\
  ((ws <= 1)%Z -> st = filter kept samples) /\
  ((1 < ws)%Z -> exists bs rs rank bl,
     get_int samples "batch_size" = Ok bs /\ dict_get env "RANK" = Ok rs /\
     py_int_of_str rs = Ok rank /\ py_floordiv bs ws = Ok bl /\
     Forall (fun w => value_rows w = Some (length (shard_indices bs bl ws rank))) (map snd st)).
Proof.
  intros Hnd. unfold build_training_data.
  destruct (get_int samples "batch_size") as [bs|] eqn:Hbs; cbn [rbind]; [|discriminate].
  destruct (Z.ltb_spec 1 ws) as [Hws|Hws].
  - destruct (dict_get env "RANK") as [rs|] eqn:Hrs; cbn [rbind]; [|discriminate].
    destruct (py_int_of_str rs) as [rank|] eqn:Hrk; cbn [rbind]; [|discriminate].
    destruct (py_floordiv bs ws) as [bl|] eqn:Hbl; cbn [rbind]; [|discriminate].
    intros Hs. destruct (shard_items_spec _ _ [] _ Hnd (fun _ _ H => H) Hs) as [out [-> Hf]].
    cbn [app]. destruct (shard_out_props (Some (shard_indices bs bl ws rank)) _ _ Hf) as [H1 [H2 [_ H4]]].
    split; [exact H1|]. split; [exact H2|]. split; [lia|].
    intros _. exists bs, rs, rank, bl. repeat split; try assumption. apply H4. reflexivity.
  - intros Hs. destruct (shard_items_spec _ _ [] _ Hnd (fun _ _ H => H) Hs) as [out [-> Hf]].
    cbn [app]. destruct (shard_out_props None _ _ Hf) as [H1 [H2 [H3 _]]].
    split; [exact H1|]. split; [exact H2|]. split; [intros _; apply H3; reflexivity | lia].
Qed.

(** ** Every rank's shard, from a well-formed batch *)

(** Every kept value of the batch is an array of [batch_size] rows. *)
Definition batch_rows_ok {Obs} (bs : Z) (samples : dict (value Obs)) : Prop :=
  Forall (fun kv => value_rows (snd kv) = Some (Z.to_nat bs)) (filter kept samples).

Lemma shard_items_ok {Obs} idx (items : dict (value Obs)) acc :
  Forall (fun kv => exists w, match idx with Some i => take_value (snd kv) i | None => Ok (snd kv) end = Ok w)
         (filter kept items) ->
  exists st, shard_items idx items acc = Ok st.
Proof.
  revert acc; induction items as [|[k v] items IH]; intros acc Hf; simpl; [eauto|].
  unfold kept in Hf; simpl in Hf. destruct (skipped_key k); simpl in Hf; [apply IH; exact Hf|].
  inversion Hf as [|? ? [w Hw] Hf']; subst. simpl in Hw. rewrite Hw. apply IH. exact Hf'.
Qed.

Lemma take_value_ok {Obs} (v : value Obs) m idx :
  value_rows v = Some m -> Forall (fun i => (- Z.of_nat m <= i < Z.of_nat m)%Z) idx ->
  exists w, take_value v idx = Ok w.
Proof.
  destruct v as [z|xs|xs|xs|xs]; simpl; intros Hv Hi; [discriminate| ..];
    injection Hv as <-; destruct (np_take_ok xs idx Hi) as [ys ->]; eexists; reflexivity.
Qed.

(** The indices of a rank in range are indices of the batch. *)
Lemma shard_indices_range bs ws r :
  (1 < ws)%Z -> (0 <= bs)%Z -> (0 <= r < ws)%Z ->
  Forall (fun i => (- bs <= i < bs)%Z) (shard_indices bs (bs / ws) ws r).
Proof.
  intros Hws Hbs Hr. apply Forall_forall. intros i Hi.
  enough (0 <= i < bs)%Z by lia.
  apply (in_py_range 0 bs). rewrite <- (shard_partition bs ws) by lia.
  apply in_concat. exists (shard_indices bs (bs / ws) ws r).
  split; [apply in_map, in_py_range; lia | exact Hi].
Qed.

(** One worker: the batch is the samples' kept entries. *)
Lemma build_training_data_single {Obs} ws env (samples : dict (value Obs)) bs :
  (ws <= 1)%Z -> NoDup (map fst samples) -> get_int samples "batch_size" = Ok bs ->
  build_training_data ws env samples = Ok (filter kept samples).
Proof.
  intros Hws Hnd Hbs. destruct (shard_items_ok None samples [])
    as [st Hs]; [apply Forall_forall; eauto|].
  destruct (build_training_data_types ws env samples st Hnd) as [_ [_ [H1 _]]];
    [unfold build_training_data; rewrite Hbs; cbn [rbind];
     replace (1 <? ws)%Z with false by lia; exact Hs|].
  rewrite <- (H1 Hws). unfold build_training_data. rewrite Hbs. cbn [rbind].
  replace (1 <? ws)%Z with false by lia. exact Hs.
Qed.

(** With [RANK = -1] the indices count from the end of the batch. *)
Lemma shard_indices_neg_range bs ws :
  (1 < ws)%Z -> (0 <= bs)%Z ->
  Forall (fun i => (- bs <= i < bs)%Z) (shard_indices bs (bs / ws) ws (-1)).
Proof.
  intros Hws Hbs. assert (Hbl : (0 <= bs / ws <= bs)%Z)
    by (split; [apply Z.div_pos | apply Z.div_le_upper_bound]; nia).
  unfold shard_indices. replace (-1 <? ws - 1)%Z with true by lia.
  apply Forall_forall. intros i Hi%in_py_range. lia.
Qed.

(** A worker told [RANK = str(r)], for a rank whose indices read rows
    of the batch (counting from either end): the batch holds every kept
    array indexed by the rank's range. *)
Lemma build_training_data_shard {Obs} ws (samples : dict (value Obs)) bs r :
  (1 < ws)%Z -> (0 <= bs)%Z ->
  Forall (fun i => (- bs <= i < bs)%Z) (shard_indices bs (bs / ws) ws r) -> NoDup (map fst samples) ->
  get_int samples "batch_size" = Ok bs -> batch_rows_ok bs samples ->
  exists st, build_training_data ws [("RANK", py_str_int r)] samples = Ok st /\
    Forall2 (fun kv kw => fst kv = fst kw /\
               take_value (snd kv) (shard_indices bs (bs / ws) ws r) = Ok (snd kw))
            (filter kept samples) st.
Proof.
  intros Hws Hbs Hr Hnd Hb Hrows. unfold build_training_data. rewrite Hb. cbn [rbind].
  replace (1 <? ws)%Z with true by lia. cbn. rewrite py_int_of_str_str. cbn [rbind].
  unfold py_floordiv. replace (ws =? 0)%Z with false by lia. cbn [rbind].
  destruct (shard_items_ok (Some (shard_indices bs (bs / ws) ws r)) samples []) as [st Hs].
  { eapply Forall_impl; [|exact Hrows]. intros [k v] Hv. eapply take_value_ok; [exact Hv|].
    eapply Forall_impl; [|exact Hr]. intros i Hi; cbv beta in *. lia. }
  destruct (shard_items_spec _ _ [] _ Hnd (fun _ _ H => H) Hs) as [out [-> Hf]].
  exists out. split; [exact Hs | exact Hf].
Qed.

(** Reading an array of a shard reads the rank's rows of the batch's. *)
Lemma dict_get_shard {Obs} (st0 st : dict (value Obs)) idx k v :
  Forall2 (fun kv kw => fst kv = fst kw /\ take_value (snd kv) idx = Ok (snd kw)) st0 st ->
  dict_get st0 k = Ok v -> exists w, dict_get st k = Ok w /\ take_value v idx = Ok w.
Proof.
  unfold dict_get, result_of_option. intros Hf.
  destruct (dict_lookup st0 k) as [v0|] eqn:E; [intros [= <-] | discriminate].
  destruct (dict_lookup_Forall2 (fun v w => take_value v idx = Ok w) _ _ _ _ Hf E) as [w [-> Hw]]. eauto.
Qed.

Lemma get_vec_shard {Obs} (st0 st : dict (value Obs)) idx k xs :
  Forall2 (fun kv kw => fst kv = fst kw /\ take_value (snd kv) idx = Ok (snd kw)) st0 st ->
  get_vec st0 k = Ok xs -> exists ys, get_vec st k = Ok ys /\ np_take xs idx = Ok ys.
Proof.
  intros Hf. unfold get_vec. destruct (dict_get st0 k) as [v|] eqn:E; [|discriminate].
  destruct (dict_get_shard _ _ _ _ _ Hf E) as [w [-> Hw]]. cbn [rbind].
  destruct v; try discriminate. intros [= ->]. simpl in Hw.
  destruct (np_take xs idx) as [ys|]; [injection Hw as <-; eauto | discriminate].
Qed.

Lemma get_obs_shard {Obs} (st0 st : dict (value Obs)) idx k xs :
  Forall2 (fun kv kw => fst kv = fst kw /\ take_value (snd kv) idx = Ok (snd kw)) st0 st ->
  get_obs st0 k = Ok xs -> exists ys, get_obs st k = Ok ys /\ np_take xs idx = Ok ys.
Proof.
  intros Hf. unfold get_obs. destruct (dict_get st0 k) as [v|] eqn:E; [|discriminate].
  destruct (dict_get_shard _ _ _ _ _ Hf E) as [w [-> Hw]]. cbn [rbind].
  destruct v; try discriminate. intros [= ->]. simpl in Hw.
  destruct (np_take xs idx) as [ys|]; [injection Hw as <-; eauto | discriminate].
Qed.

Lemma get_obs_rows {Obs} bs (samples : dict (value Obs)) k xs :
  batch_rows_ok bs samples -> get_obs (filter kept samples) k = Ok xs -> length xs = Z.to_nat bs.
Proof.
  intros Hrows. unfold get_obs. destruct (dict_get _ k) as [v|] eqn:E; [|discriminate].
  cbn [rbind]. destruct v; try discriminate. intros [= <-].
  apply dict_get_In in E. unfold batch_rows_ok in Hrows. rewrite Forall_forall in Hrows. specialize (Hrows _ E).
  injection Hrows as Hrows. exact Hrows.
Qed.

Section PerDQNProps.
Context {Obs P G O : Type} `{QNet Obs P} `{Optimizer P G O}.

(** A local batch the learner can train on: the five arrays are present
    with one length, both networks give [n > 0] values per observation
    and every action, truncated to an integer, is one of them. *)
Definition batch_ok (ps : policy_state P) (n : nat) (st : dict (value Obs)) : Prop :=
  exists obs act nxt rew ter,
    get_obs st "obs" = Ok obs /\ get_vec st "actions" = Ok act /\
    get_obs st "obs_next" = Ok nxt /\ get_vec st "rewards" = Ok rew /\
    get_vec st "terminals" = Ok ter /\ (0 < n)%nat /\
    length obs = length rew /\ length act = length rew /\ length nxt = length rew /\
    length ter = length rew /\
    rect n (map (qhead (online ps)) obs) /\ rect n (map (qhead (target ps)) nxt) /\
    Forall (fun a => (0 <= long_of a < Z.of_nat n)%Z) act.

(** The TD error of one transition [(o, a, o', r, d)]: the Bellman
    backup with the target network's maximum, minus the online value
    of the action taken. *)
Definition td_row_rel (gamma : Q) (ps : policy_state P) (x : Obs * Q * Obs * Q * Q) (t : Q) : Prop :=
  let '(o, a, o', r, d) := x in
  exists m, is_row_max (qhead (target ps) o') m /\
    t == td_ref gamma r d m - select_ref (qhead (online ps) o) (long_of a).

(** The transitions of a batch, row by row. *)
Definition batch_rows (obs : list Obs) (act : list Q) (nxt : list Obs) (rew ter : list Q) :=
  combine (combine (combine (combine obs act) nxt) rew) ter.

Lemma td_row_rel_unique gamma ps x t1 t2 :
  td_row_rel gamma ps x t1 -> td_row_rel gamma ps x t2 -> t1 == t2.
Proof.
  destruct x as [[[[o a] o'] r] d]. intros [m1 [H1 E1]] [m2 [H2 E2]].
  rewrite E1, E2. unfold td_ref. rewrite (is_row_max_unique _ _ _ H1 H2). reflexivity.
Qed.

(** The target and the prediction, given index by index, give the TD
    error of every row. *)
Lemma td_rows_rel gamma ps obs act nxt rew ter tgt sel :
  length obs = length rew -> length act = length rew -> length nxt = length rew ->
  length ter = length rew -> length tgt = length rew -> length sel = length rew ->
  (forall i r d row, nth_error rew i = Some r -> nth_error ter i = Some d ->
     nth_error (map (qhead (target ps)) nxt) i = Some row ->
     exists t m, nth_error tgt i = Some t /\ is_row_max row m /\ t == td_ref gamma r d m) ->
  sel =v= zip_with select_ref (map (qhead (online ps)) obs) (map long_of act) ->
  Forall2 (td_row_rel gamma ps) (batch_rows obs act nxt rew ter) (zip_with Qminus tgt sel).
Proof.
  intros L1 L2 L3 L4 L5 L6 Htg Hsel. apply Forall2_of_nth.
  { unfold batch_rows. rewrite !length_combine, length_zip_with. lia. }
  intros i [[[[o a] o'] r] d] t Hx Ht. unfold batch_rows in Hx.
  apply nth_error_combine_inv in Hx as [Hx Hd]. apply nth_error_combine_inv in Hx as [Hx Hr].
  apply nth_error_combine_inv in Hx as [Hx Ho']. apply nth_error_combine_inv in Hx as [Ho Ha].
  destruct (Htg i r d (qhead (target ps) o') Hr Hd) as [t1 [m [Ht1 [Hm Hq]]]];
    [rewrite nth_error_map, Ho'; reflexivity|].
  assert (Hi : (i < length sel)%nat) by (rewrite L6, <- L1; apply nth_error_Some; congruence).
  destruct (nth_error sel i) as [s|] eqn:Hs; [|apply nth_error_None in Hs; lia].
  rewrite (nth_error_zip_with _ _ _ _ _ _ Ht1 Hs) in Ht. injection Ht as <-.
  destruct (Forall2_nth_error_l _ _ _ _ _ Hsel Hs) as [s' [Hs' Es]].
  rewrite (nth_error_zip_with select_ref _ _ _ (qhead (online ps) o) (long_of a))
    in Hs' by (rewrite nth_error_map; first [rewrite Ho | rewrite Ha]; reflexivity).
  injection Hs' as <-. exists m. split; [exact Hm|]. rewrite Hq, Es. reflexivity.
Qed.

(** On a local batch the learner can train on, the computation of
    lines 53-67 returns, with the TD error of every row. *)
Lemma perdqn_compute_ok cfg env samples ps st n :
  build_training_data (world_size cfg) env samples = Ok st -> batch_ok ps n st ->
  exists obs act nxt rew ter tgt pred lf loss,
    get_obs st "obs" = Ok obs /\ get_vec st "actions" = Ok act /\ get_obs st "obs_next" = Ok nxt /\
    get_vec st "rewards" = Ok rew /\ get_vec st "terminals" = Ok ter /\
    length tgt = length rew /\ length pred = length rew /\
    perdqn_compute cfg env samples ps = Ok (lf, (zip_with Qminus tgt pred, (loss, pred))) /\
    Forall2 (td_row_rel (gamma cfg) ps) (batch_rows obs act nxt rew ter) (zip_with Qminus tgt pred).
Proof.
  intros Hb (obs & act & nxt & rew & ter & Ho & Ha & Hn & Hr & Ht & Hpos & L1 & L2 & L3 & L4 &
             Rq & Rt & Hact).
  destruct (eval_net_ok (online ps) obs n Rq Hpos) as [a1 [He1 _]].
  destruct (eval_net_ok (target ps) nxt n Rt Hpos) as [a2 [He2 _]].
  destruct (perdqn_target_bellman n (gamma cfg) rew ter _ Rt Hpos) as [tgt [Htg [Ltg Htr]]];
    [lia | rewrite length_map; lia |].
  destruct (mask_select_ok n (map (qhead (online ps)) obs) (map long_of act) Rq)
    as [sel [Hs Hsel]];
    [rewrite !length_map; lia | apply Forall_map; exact Hact |].
  assert (Lsel : length sel = length rew).
  { rewrite (veq_length _ _ Hsel), length_zip_with, !length_map. lia. }
  exists obs, act, nxt, rew, ter, tgt, sel.
  eexists (perdqn_loss_fn obs act tgt), (mean (map (fun x => x * x) (zip_with Qminus sel tgt))).
  do 7 (split; [assumption|]). split; [|apply td_rows_rel; assumption].
  unfold perdqn_compute. rewrite Hb. simpl. rewrite Ho, Ha, Hn, Hr, Ht. simpl.
  unfold policy_forward, policy_target. rewrite He1, He2. simpl. rewrite Htg. simpl.
  unfold predict_q. rewrite Hs. simpl. unfold vsub. rewrite bcast_same by lia. simpl.
  unfold mse_loss, vsub. rewrite bcast_same by lia. reflexivity.
Qed.

(** A worker told [RANK = str(r)], whose indices read rows of the
    batch, on a batch the learner can train on as a whole: its
    computation returns, on the rank's rows of the batch, with the TD
    error of each. *)
Lemma perdqn_compute_shard cfg samples ps n bs r obs act nxt rew ter :
  (1 < world_size cfg)%Z -> (0 <= bs)%Z ->
  Forall (fun i => (- bs <= i < bs)%Z) (shard_indices bs (bs / world_size cfg) (world_size cfg) r) ->
  NoDup (map fst samples) ->
  get_int samples "batch_size" = Ok bs -> batch_rows_ok bs samples ->
  batch_ok ps n (filter kept samples) ->
  get_obs (filter kept samples) "obs" = Ok obs -> get_vec (filter kept samples) "actions" = Ok act ->
  get_obs (filter kept samples) "obs_next" = Ok nxt -> get_vec (filter kept samples) "rewards" = Ok rew ->
  get_vec (filter kept samples) "terminals" = Ok ter ->
  exists x s, perdqn_compute cfg [("RANK", py_str_int r)] samples ps = Ok x /\
    np_take (batch_rows obs act nxt rew ter)
            (shard_indices bs (bs / world_size cfg) (world_size cfg) r) = Ok s /\
    Forall2 (td_row_rel (gamma cfg) ps) s (fst (snd x)).
Proof.
  intros Hws Hbs Hr Hnd Hb Hrows Hok Ho Ha Hn Hre Ht.
  destruct (build_training_data_shard (world_size cfg) samples bs r Hws Hbs Hr Hnd Hb Hrows)
    as [st [Hst Hf]].
  destruct Hok as (obs0 & act0 & nxt0 & rew0 & ter0 & Ho0 & Ha0 & Hn0 & Hr0 & Ht0 & Hpos & L1 & L2 & L3 & L4 &
                   Rq & Rt & Hact).
  ok_unique.
  destruct (get_obs_shard _ _ _ _ _ Hf Ho0) as [obs' [Ho' To]].
  destruct (get_vec_shard _ _ _ _ _ Hf Ha0) as [act' [Ha' Ta]].
  destruct (get_obs_shard _ _ _ _ _ Hf Hn0) as [nxt' [Hn' Tn]].
  destruct (get_vec_shard _ _ _ _ _ Hf Hr0) as [rew' [Hr' Tr]].
  destruct (get_vec_shard _ _ _ _ _ Hf Ht0) as [ter' [Ht' Tt]].
  assert (Hok' : batch_ok ps n st).
  { exists obs', act', nxt', rew', ter'. unfold rect in *. rewrite Forall_map in Rq, Rt.
    rewrite !Forall_map.
    rewrite (mapR_length _ _ _ To), (mapR_length _ _ _ Ta), (mapR_length _ _ _ Tn),
      (mapR_length _ _ _ Tr), (mapR_length _ _ _ Tt).
    repeat split; try assumption; eapply incl_Forall; eauto using np_take_incl. }
  destruct (perdqn_compute_ok cfg _ samples ps st n Hst Hok')
    as (obs2 & act2 & nxt2 & rew2 & ter2 & tgt & pred & lf & loss & Ho2 & Ha2 & Hn2 & Hr2 & Ht2 &
        _ & _ & Hc & Hrel).
  ok_unique.
  eexists (lf, (zip_with Qminus tgt pred, (loss, pred))), _. split; [exact Hc|].
  split; [|exact Hrel]. unfold batch_rows.
  apply np_take_combine; [rewrite !length_combine; lia | | exact Tt].
  apply np_take_combine; [rewrite !length_combine; lia | | exact Tr].
  apply np_take_combine; [rewrite !length_combine; lia | | exact Tn].
  apply np_take_combine; [lia | exact To | exact Ta].
Qed.

(** The rows of a batch of [batch_size] rows. *)
Lemma batch_rows_length ps n bs samples obs act nxt rew ter :
  (0 <= bs)%Z -> batch_rows_ok bs samples -> batch_ok ps n (filter kept samples) ->
  get_obs (filter kept samples) "obs" = Ok obs -> get_vec (filter kept samples) "actions" = Ok act ->
  get_obs (filter kept samples) "obs_next" = Ok nxt -> get_vec (filter kept samples) "rewards" = Ok rew ->
  get_vec (filter kept samples) "terminals" = Ok ter ->
  Z.of_nat (length (batch_rows obs act nxt rew ter)) = bs.
Proof.
  intros Hbs Hrows Hok Ho Ha Hn Hr Ht.
  destruct Hok as (obs0 & act0 & nxt0 & rew0 & ter0 & Ho0 & Ha0 & Hn0 & Hr0 & Ht0 & _ & L1 & L2 & L3 & L4 & _).
  ok_unique. pose proof (get_obs_rows _ _ _ _ Hrows Ho0) as Hl.
  unfold batch_rows. rewrite !length_combine. lia.
Qed.

(** C23: A [RANK] outside [0, world_size) is not rejected.  A worker
    told [RANK = -1], on a batch of [batch_size] rows the learner can
    train on, computes without raising, and the TD errors it trains on
    (and returns as priorities) are those of the last
    [batch_size // world_size] rows of the batch, NumPy reading
    [range(-bl, 0)] from the end: rows of the last rank's shard, so they
    are trained twice and the first rows not at all. *)
Theorem perdqn_negative_rank cfg samples ps n bs obs act nxt rew ter :
  (1 < world_size cfg)%Z -> (0 <= bs)%Z -> NoDup (map fst samples) ->
  get_int samples "batch_size" = Ok bs -> batch_rows_ok bs samples ->
  batch_ok ps n (filter kept samples) ->
  get_obs (filter kept samples) "obs" = Ok obs -> get_vec (filter kept samples) "actions" = Ok act ->
  get_obs (filter kept samples) "obs_next" = Ok nxt -> get_vec (filter kept samples) "rewards" = Ok rew ->
  get_vec (filter kept samples) "terminals" = Ok ter ->
  exists x, perdqn_compute cfg [("RANK", py_str_int (-1))] samples ps = Ok x /\
    Forall2 (td_row_rel (gamma cfg) ps)
            (skipn (Z.to_nat (bs - bs / world_size cfg)) (batch_rows obs act nxt rew ter))
            (fst (snd x)) /\
    (forall i, In i (shard_indices bs (bs / world_size cfg) (world_size cfg) (-1)) ->
       In (bs + i)%Z (shard_indices bs (bs / world_size cfg) (world_size cfg) (world_size cfg - 1))).
Proof.
  intros Hws Hbs Hnd Hb Hrows Hok Ho Ha Hn Hr Ht.
  destruct (perdqn_compute_shard cfg samples ps n bs (-1) obs act nxt rew ter Hws Hbs
              (shard_indices_neg_range bs _ Hws Hbs) Hnd Hb Hrows Hok Ho Ha Hn Hr Ht)
    as [x [s [Hc [Hs Hf]]]].
  destruct (shard_negative_indices _ bs _ Hws
              (batch_rows_length ps n bs samples obs act nxt rew ter Hbs Hrows Hok Ho Ha Hn Hr Ht))
    as [Htake Hin].
  rewrite Htake in Hs. injection Hs as <-. exists x. split; [exact Hc|]. split; [exact Hf | exact Hin].
Qed.

(** C9: The priorities [PerDQN_Learner.update] returns: on a local
    batch the learner can train on, the update returns one priority per
    transition of the local batch (of the worker's shard, not of the
    whole batch, under several workers), in order, and each is the
    absolute TD error [|r + gamma (1 - d) max_a Q_target(s', a) -
    Q(s, a_taken)|] of its transition under the parameters before the
    step, so non-negative. *)
Theorem perdqn_update_priorities cfg env samples (s : learner P G O) st n :
  learner_wf s -> sync_frequency cfg <> 0%Z ->
  build_training_data (world_size cfg) env samples = Ok st -> batch_ok (policy s) n st ->
  exists s' prio info obs act nxt rew ter,
    perdqn_update cfg env samples s = (s', Ok (prio, info)) /\
    get_obs st "obs" = Ok obs /\ get_vec st "actions" = Ok act /\ get_obs st "obs_next" = Ok nxt /\
    get_vec st "rewards" = Ok rew /\ get_vec st "terminals" = Ok ter /\
    Forall2 (fun x p => exists t, td_row_rel (gamma cfg) (policy s) x t /\ p = Qabs t)
            (batch_rows obs act nxt rew ter) prio /\
    Forall (fun x => 0 <= x) prio.
Proof.
  intros Hw Hz Hb Hok.
  destruct (perdqn_compute_ok cfg env samples (policy s) st n Hb Hok)
    as (obs & act & nxt & rew & ter & tgt & pred & lf & loss & Ho & Ha & Hn & Hr & Ht & _ & _ & Hc & Hrel).
  destruct (update_shell_ok cfg _ (fun r lr => (vabs (fst r), make_info cfg (fst (snd r)) lr (snd (snd r))))
              s _ _ Hw Hz Hc) as [s' [lr' [Hu _]]].
  exists s', (vabs (zip_with Qminus tgt pred)), (make_info cfg loss lr' pred), obs, act, nxt, rew, ter.
  do 6 (split; [assumption|]). split; [apply Forall2_map_ex, Hrel|].
  apply Forall_forall. intros x Hx. unfold vabs in Hx. apply in_map_iff in Hx.
  destruct Hx as [y [<- _]]. apply Qabs_nonneg.
Qed.

(** C8: The importance-sampling weights never reach the loss:
    replacing (or adding) the [weights] entry of the batch changes
    nothing in [PerDQN_Learner.update], neither the learner it leaves
    nor what it returns or raises. *)
Theorem perdqn_update_ignores_weights cfg env (samples : dict (value Obs)) v
        (s : learner P G O) :
  perdqn_update cfg env (dict_set samples "weights" v) s = perdqn_update cfg env samples s.
Proof.
  unfold perdqn_update. rewrite !update_shell_run. unfold perdqn_compute.
  rewrite build_training_data_set_skipped by (reflexivity || discriminate). reflexivity.
Qed.
(** C36: Under several workers the rank is read from the environment at
    every update ([int(os.environ['RANK'])], line 33): with [RANK]
    unset the update raises [KeyError('RANK')], with a [RANK] that is
    not an integer literal it raises [ValueError]; either way the
    counter has already moved and nothing else has changed. *)
Theorem perdqn_update_rank_error cfg env samples (s : learner P G O) bs e :
  (1 < world_size cfg)%Z -> get_int samples "batch_size" = Ok bs ->
  (dict_lookup env "RANK" = None /\ e = KeyError "RANK") \/
  (exists rs, dict_lookup env "RANK" = Some rs /\ py_int_of_str rs = Err e) ->
  perdqn_update cfg env samples s = (set_iterations (iterations s + 1) s, Err e).
Proof.
  intros Hws Hb He. apply update_shell_compute_error.
  unfold perdqn_compute, build_training_data. rewrite Hb. cbn [rbind].
  replace (1 <? world_size cfg)%Z with true by lia. unfold dict_get, result_of_option.
  destruct He as [[-> ->] | [rs [-> Hp]]]; cbn [rbind]; [reflexivity | rewrite Hp; reflexivity].
Qed.

(** C35: Sharding composes with the update rule.  Run with one worker,
    or with [world_size > 1] workers where worker [r] is told
    [RANK = str(r)], on a batch whose kept entries are arrays of
    [batch_size] rows and which the learner can train on: every
    worker's computation returns, and the TD errors of the workers,
    concatenated in rank order, are the TD errors of the single worker
    (so are the priorities [|td_error|] they return). *)
Theorem perdqn_shards_td cfg1 cfgw env1 samples ps n bs :
  (world_size cfg1 <= 1)%Z -> (1 < world_size cfgw)%Z -> gamma cfgw = gamma cfg1 ->
  NoDup (map fst samples) -> get_int samples "batch_size" = Ok bs -> (0 <= bs)%Z ->
  batch_rows_ok bs samples -> batch_ok ps n (filter kept samples) ->
  exists x tds,
    perdqn_compute cfg1 env1 samples ps = Ok x /\
    mapR (fun r => y <-? perdqn_compute cfgw [("RANK", py_str_int r)] samples ps ;; Ok (fst (snd y)))
         (py_range 0 (world_size cfgw)) = Ok tds /\
    concat tds =v= fst (snd x).
Proof.
  intros H1 Hw Hg Hnd Hb Hbs Hrows Hok.
  destruct (perdqn_compute_ok cfg1 env1 samples ps _ n
              (build_training_data_single _ env1 samples bs H1 Hnd Hb) Hok)
    as (obs & act & nxt & rew & ter & tgt & pred & lf & loss & Ho & Ha & Hn & Hr & Ht & _ & _ & Hc & Hrel).
  set (idx r := shard_indices bs (bs / world_size cfgw) (world_size cfgw) r).
  destruct (mapR_exists
              (fun r => y <-? perdqn_compute cfgw [("RANK", py_str_int r)] samples ps ;; Ok (fst (snd y)))
              (fun r t => exists s, np_take (batch_rows obs act nxt rew ter) (idx r) = Ok s /\
                                    Forall2 (td_row_rel (gamma cfg1) ps) s t)
              (py_range 0 (world_size cfgw))) as [tds [Htds Hsh]].
  { apply Forall_forall. intros r Hr'%in_py_range.
    destruct (perdqn_compute_shard cfgw samples ps n bs r obs act nxt rew ter Hw Hbs
                (shard_indices_range bs _ r Hw Hbs ltac:(lia))
                Hnd Hb Hrows Hok Ho Ha Hn Hr Ht) as [y [s [Hy [Hs Hf]]]].
    exists (fst (snd y)). rewrite Hy. rewrite <- Hg. eauto. }
  pose proof (batch_rows_length ps n bs samples obs act nxt rew ter Hbs Hrows Hok Ho Ha Hn Hr Ht) as Lr.
  destruct (shard_gather _ bs (world_size cfgw) Hw Lr) as [shards [Hg' Hcat]].
  apply mapR_Ok_iff in Hg'.
  assert (Hff : Forall2 (Forall2 (td_row_rel (gamma cfg1) ps)) shards tds).
  { eapply Forall2_common; [|exact Hg' | exact Hsh].
    intros r s t Hs [s' [Hs' Hf]]. unfold idx in Hs'. rewrite Hs in Hs'. injection Hs' as <-. exact Hf. }
  apply Forall2_concat in Hff. rewrite Hcat in Hff.
  eexists _, tds. split; [exact Hc|]. split; [exact Htds|].
  eapply Forall2_common; [|exact Hff | exact Hrel]. apply td_row_rel_unique.
Qed.
End PerDQNProps.

(** ** Witnesses *)

Lemma shard_partition_witness :
  concat (map (shard_indices 7 (7 / 3) 3) (py_range 0 3)) = py_range 0 7.
Proof. apply shard_partition; lia. Defined.

Lemma shard_sizes_witness :
  length (shard_indices 7 (7 / 3) 3 2) =
  Z.to_nat (if (2 <? 3 - 1)%Z then 7 / 3 else 7 / 3 + 7 mod 3).
Proof. apply shard_sizes; lia. Defined.

#[local] Existing Instance Toy.qnet.
#[local] Existing Instance Toy.sgd.

Definition toy_local : dict (value Q) :=
  [("obs", VObs [1; 2]); ("actions", VVec [0; 1]); ("obs_next", VObs [2; 3]);
   ("rewards", VVec [1; 0]); ("terminals", VVec [0; 1])].

Lemma perdqn_update_priorities_witness :
  exists s' prio info obs act nxt rew ter,
    perdqn_update (toy_cfg 2) [] toy_samples (toy_learner 1) = (s', Ok (prio, info)) /\
    get_obs toy_local "obs" = Ok obs /\ get_vec toy_local "actions" = Ok act /\
    get_obs toy_local "obs_next" = Ok nxt /\
    get_vec toy_local "rewards" = Ok rew /\ get_vec toy_local "terminals" = Ok ter /\
    Forall2 (fun x p => exists t, td_row_rel (gamma (toy_cfg 2)) (policy (toy_learner 1)) x t /\ p = Qabs t)
            (batch_rows obs act nxt rew ter) prio /\
    Forall (fun x => 0 <= x) prio.
Proof.
  apply (perdqn_update_priorities (toy_cfg 2) [] toy_samples (toy_learner 1) toy_local 2);
    [apply toy_learner_wf; lia | discriminate | reflexivity |].
  exists [1; 2], [0; 1], [2; 3], [1; 0], [0; 1].
  repeat split; try reflexivity; try lia.
  all: simpl; repeat constructor.
  all: vm_compute; discriminate.
Defined.

(** With [RANK = -1] of three workers, [build_training_data] returns the
    last two rows of the batch without raising. *)
Example shard_negative_rank_rows :
  np_take [10; 11; 12; 13; 14; 15; 16]%Z (shard_indices 7 (7 / 3) 3 (-1)) = Ok [15; 16]%Z.
Proof. reflexivity. Qed.

(** With two workers the second worker of a batch of four trains on
    rows 2 and 3 only, and returns two priorities. *)
Example perdqn_two_workers :
  exists s' prio info,
    perdqn_update (mk_config (9 # 10) 2 (1 # 10) 10 false 1 true 1 2) [("RANK", "1")]
      [("obs", VObs [1; 2; 3; 4]); ("actions", VVec [0; 1; 0; 1]);
       ("obs_next", VObs [2; 3; 4; 5]); ("rewards", VVec [1; 0; 0; 2]);
       ("terminals", VVec [0; 0; 1; 0]); ("batch_size", VInt 4);
       ("weights", VVec [1; 1; 1; 1])] (toy_learner 1)
    = (s', Ok (prio, info)) /\ length prio = 2%nat.
Proof. do 3 eexists. split; reflexivity. Qed.

Definition toy_batch4 : dict (value Q) :=
  [("obs", VObs [1; 2; 3; 4]); ("actions", VVec [0; 1; 0; 1]);
   ("obs_next", VObs [2; 3; 4; 5]); ("rewards", VVec [1; 0; 0; 2]);
   ("terminals", VVec [0; 0; 1; 0]); ("batch_size", VInt 4);
   ("weights", VVec [1; 1; 1; 1])].

Lemma toy_batch4_nodup : NoDup (map fst toy_batch4).
Proof. solve_nodup. Qed.

Lemma build_training_data_types_witness :
  exists st, build_training_data 2 [("RANK", "1")] toy_batch4 = Ok st /\
  map fst st = map fst (filter kept toy_batch4) /\
  Forall2 (fun v w => same_kind v w = true) (map snd (filter kept toy_batch4)) (map snd st) /\
  ((2 <= 1)%Z -> st = filter kept toy_batch4) /\
  ((1 < 2)%Z -> exists bs rs rank bl,
     get_int toy_batch4 "batch_size" = Ok bs /\ dict_get [("RANK", "1")] "RANK" = Ok rs /\
     py_int_of_str rs = Ok rank /\ py_floordiv bs 2 = Ok bl /\
     Forall (fun w => value_rows w = Some (length (shard_indices bs bl 2 rank))) (map snd st)).
Proof.
  eexists. split; [reflexivity|]. apply build_training_data_types; [exact toy_batch4_nodup | reflexivity].
Defined.

Definition toy_cfg_ws2 : config := mk_config (9 # 10) 2 (1 # 10) 10 false 1 true 0 2.

Lemma perdqn_update_rank_error_witness :
  perdqn_update toy_cfg_ws2 [] toy_batch4 (toy_learner 1) =
    (set_iterations (iterations (toy_learner 1) + 1) (toy_learner 1), Err (KeyError "RANK")).
Proof. apply perdqn_update_rank_error with (bs := 4%Z); [reflexivity | reflexivity | left; split; reflexivity]. Defined.

Lemma toy_batch4_rows : batch_rows_ok 4 toy_batch4.
Proof. unfold batch_rows_ok; simpl; repeat constructor. Qed.

Lemma toy_batch4_ok : batch_ok (mk_policy 1 0) 2 (filter kept toy_batch4).
Proof.
  exists [1; 2; 3; 4], [0; 1; 0; 1], [2; 3; 4; 5], [1; 0; 0; 2], [0; 0; 1; 0].
  repeat split; try reflexivity; try lia.
  all: simpl; repeat constructor.
  all: vm_compute; discriminate.
Qed.

(** Two workers on the four transitions of [toy_batch4]. *)
Lemma perdqn_shards_td_witness :
  exists x tds,
    perdqn_compute (toy_cfg 2) [] toy_batch4 (mk_policy 1 0) = Ok x /\
    mapR (fun r => y <-? perdqn_compute toy_cfg_ws2 [("RANK", py_str_int r)] toy_batch4 (mk_policy 1 0) ;;
                   Ok (fst (snd y)))
         (py_range 0 (world_size toy_cfg_ws2)) = Ok tds /\
    concat tds =v= fst (snd x).
Proof.
  apply (perdqn_shards_td (toy_cfg 2) toy_cfg_ws2 [] toy_batch4 (mk_policy 1 0) 2 4);
    [simpl; lia | simpl; lia | reflexivity | exact toy_batch4_nodup | reflexivity | lia
    | exact toy_batch4_rows | exact toy_batch4_ok].
Defined.

(** Told [RANK = -1], a worker of two trains on the last two of the
    four transitions of [toy_batch4]. *)
Lemma perdqn_negative_rank_witness :
  exists x, perdqn_compute toy_cfg_ws2 [("RANK", py_str_int (-1))] toy_batch4 (mk_policy 1 0) = Ok x /\
    Forall2 (td_row_rel (gamma toy_cfg_ws2) (mk_policy 1 0))
            (skipn (Z.to_nat (4 - 4 / world_size toy_cfg_ws2))
                   (batch_rows [1; 2; 3; 4] [0; 1; 0; 1] [2; 3; 4; 5] [1; 0; 0; 2] [0; 0; 1; 0]))
            (fst (snd x)) /\
    (forall i, In i (shard_indices 4 (4 / world_size toy_cfg_ws2) (world_size toy_cfg_ws2) (-1)) ->
       In (4 + i)%Z (shard_indices 4 (4 / world_size toy_cfg_ws2) (world_size toy_cfg_ws2)
                                   (world_size toy_cfg_ws2 - 1))).
Proof.
  apply (perdqn_negative_rank toy_cfg_ws2 toy_batch4 (mk_policy 1 0) 2 4);
    [simpl; lia | lia | exact toy_batch4_nodup | reflexivity | exact toy_batch4_rows
    | exact toy_batch4_ok | reflexivity .. ].
Defined.
