(* ===== verification/DRQN.v ===== *)
(** * [DRQN_Learner.update] (src/xuance/torch/learners/qlearning_family/drqn_learner.py)

    The recurrent learner reads one observation sequence per batch
    element, [obs[b][0..T]], and evaluates the online network on the
    first [T] steps ([obs_batch[:, 0:-1]]) and the target network on the
    last [T] ([obs_batch[:, 1:]]), each from a hidden state built afresh
    by [init_hidden(batch_size)] (lines 34-37).  Actions, rewards and
    terminal flags are [B x T] arrays; the values are [B x T x A].  The
    target, prediction and loss (lines 40-46) are the rank-two versions
    of the feedforward ones: broadcasting applies along both leading
    dimensions, and the mean of the loss runs over all [B * T] entries. *)

From Stdlib Require Import String List ZArith QArith Lia.
From S2P Require Import Prelude Python Tensor TDTarget Policy Scheduler Learner.
Import ListNotations.
Open Scope string_scope.

(** ** The tensor expressions at rank two and three *)

(** [t.shape[-1]] of a [B x T x A] tensor. *)
Definition shape_last3 (q : list (list (list Q))) : Z :=
  match q with
  | (r :: _) :: _ => Z.of_nat (length r)
  | _ => 0%Z
  end.

(** [(q * one_hot(idx, q.shape[-1])).sum(dim=-1)] on [B x T x A] values
    and [B x T] indices (lines 40-41 and 44). *)
Definition mask_select3 (q : list (list (list Q))) (idx : list (list Z))
  : result exn (list (list Q)) :=
  oh <-? mapR (fun r => one_hot r (shape_last3 q)) idx ;;
  m <-? bcastR (bcastR vmul) q oh ;;
  Ok (map sum_last m).

(** [rew_batch + self.gamma * (1 - ter_batch) * targetQ] on [B x T]. *)
Definition td_target2 (gamma : Q) (rew ter boot : list (list Q)) : result exn (list (list Q)) :=
  g <-? bcastR vmul (map (smul gamma) (map (rsub 1) ter)) boot ;;
  bcastR vadd rew g.

(** [nn.MSELoss()] on [B x T]: the mean over every entry. *)
Definition mse_loss2 (input target : list (list Q)) : result exn fl :=
  d <-? bcastR vsub input target ;;
  Ok (mean (map (fun x => x * x) (concat d))).

(** [obs_batch[:, 0:-1]] and [obs_batch[:, 1:]] (lines 35 and 37). *)
Definition cur_window {A} (obs : list (list A)) : list (list A) :=
  map (py_slice (Some 0%Z) (Some (-1)%Z)) obs.
Definition next_window {A} (obs : list (list A)) : list (list A) :=
  map (py_slice (Some 1%Z) None) obs.

(** ** The update *)

Section DRQN.
Context {Obs H P G O : Type} `{RQNet Obs H P} `{Optimizer P G O}.

(** The loss of lines 34-35, 44 and 46 as a function of the online
    parameters. *)
Definition drqn_loss_fn (obs : list (list Obs)) (batch_size : Z) (act tgt : list (list Q))
           (p : P) : result exn fl :=
  '(_, evalQ, _) <-? reval_net p (cur_window obs) (init_hidden batch_size) ;;
  pred <-? mask_select3 evalQ (map (map long_of) act) ;;
  mse_loss2 pred tgt.

(** Lines 28-46. *)
Definition drqn_compute (cfg : config) (samples : dict (value Obs)) (ps : policy_state P)
  : result exn ((P -> result exn fl) * (fl * list (list Q))) :=
  obs <-? get_obs_seq samples "obs" ;;
  act <-? get_mat samples "actions" ;;
  rew <-? get_mat samples "rewards" ;;
  ter <-? get_mat samples "terminals" ;;
  batch_size <-? get_int samples "batch_size" ;;
  '(_, evalQ, _) <-? rpolicy_forward ps (cur_window obs)
                                      (init_hidden batch_size) ;;
  '(targetA, targetQ, _) <-? rpolicy_target ps (next_window obs)
                                            (init_hidden batch_size) ;;
  boot <-? mask_select3 targetQ targetA ;;
  tgt <-? td_target2 (gamma cfg) rew ter boot ;;
  pred <-? mask_select3 evalQ (map (map long_of) act) ;;
  loss <-? mse_loss2 pred tgt ;;
  Ok (drqn_loss_fn obs batch_size act tgt, (loss, pred)).

(** The whole method; [predictQ.mean()] of the statistics runs over all
    [B * T] predictions. *)
Definition drqn_update (cfg : config) (samples : dict (value Obs))
  : PyM exn (learner P G O) (dict fl) :=
  update_shell cfg (drqn_compute cfg samples)
               (fun r lr => make_info cfg (fst r) lr (concat (snd r))).
End DRQN.

(** [DRQN_Learner.__init__]: the same statements as the DDQN constructor (the
    base class, [Adam], [LinearLR], the copied configuration fields). *)
Definition drqn_init {P G O} (cfg : config) (ps : policy_state P) (o0 : O) : result exn (learner P G O) :=
  learner_init cfg ps o0.

(** ** Properties of the recurrent learner *)

(** Rows of equal lengths, pairwise. *)
Definition same_shape {A B} (xs : list (list A)) (ys : list (list B)) : Prop :=
  Forall2 (fun x y => length x = length y) xs ys.

Lemma same_shape_length {A B} (xs : list (list A)) (ys : list (list B)) :
  same_shape xs ys -> length xs = length ys.
Proof. apply Forall2_length. Qed.

Lemma bcastR_pointwise {A B C} (f : A -> B -> result exn C) (g : A -> B -> C) xs ys :
  Forall2 (fun x y => f x y = Ok (g x y)) xs ys -> bcastR f xs ys = Ok (zip_with g xs ys).
Proof.
  intros HF. rewrite bcastR_same by (eapply Forall2_length; eauto).
  induction HF as [|x y xs ys Hxy _ IH]; [reflexivity|]. simpl. rewrite Hxy, IH. reflexivity.
Qed.

(** Row by row, the rank-two target is the Bellman backup of every
    transition. *)
Lemma td_target2_ok gamma rew ter boot :
  same_shape ter rew -> same_shape boot rew ->
  td_target2 gamma rew ter boot =
  Ok (zip_with (fun r p => td_ref_batch gamma r (fst p) (snd p)) rew (combine ter boot)).
Proof.
  unfold td_target2. intros Ht Hb.
  rewrite (bcastR_pointwise _ (fun t b => zip_with Qmult t b)).
  - rewrite rbind_Ok, (bcastR_pointwise _ (fun r x => zip_with Qplus r x)).
    + f_equal. revert ter boot Ht Hb. induction rew as [|r rew IH]; intros ter boot Ht Hb;
        inv Ht; inv Hb; [reflexivity|]. simpl. rewrite zip_td_ref by congruence.
      f_equal. apply IH; assumption.
    + revert ter boot Ht Hb. induction rew as [|r rew IH]; intros ter boot Ht Hb;
        inv Ht; inv Hb; simpl; constructor; [|apply IH; assumption].
      unfold vadd. apply bcast_same.
      rewrite length_zip_with. unfold smul, rsub. rewrite !length_map. lia.
  - revert boot Hb. induction Ht as [|t r ter rew Htr _ IH]; intros boot Hb; inv Hb;
      simpl; constructor; [|apply IH; assumption].
    unfold vmul. apply bcast_same. unfold smul, rsub. rewrite !length_map. congruence.
Qed.

(** The entry [(b, t)] of a [B x T] array. *)
Definition at2 {A} (m : list (list A)) (b t : nat) : option A :=
  match nth_error m b with Some row => nth_error row t | None => None end.

(** C11: In [DRQN_Learner.update], on [B x T] arrays of one shape, the
    target at every step [(b, t)] with terminal flag 1 equals the reward
    of that step exactly, whatever the target network outputs. *)
Theorem drqn_target_terminal gamma rew ter boot tgt b t r :
  same_shape ter rew -> same_shape boot rew ->
  td_target2 gamma rew ter boot = Ok tgt ->
  at2 rew b t = Some r -> at2 ter b t = Some 1 ->
  exists x, at2 tgt b t = Some x /\ x == r.
Proof.
  intros Ht Hb H Hr Hd. rewrite td_target2_ok in H by assumption. injection H as <-.
  unfold at2 in *.
  destruct (nth_error rew b) as [rr|] eqn:Erb; [|discriminate].
  destruct (nth_error ter b) as [dr|] eqn:Edb; [|discriminate].
  destruct (Forall2_nth_error_l _ _ _ _ _ (Forall2_flip Ht) Erb) as [dr' [Edb' Ld]].
  rewrite Edb in Edb'. injection Edb' as <-.
  destruct (Forall2_nth_error_l _ _ _ _ _ (Forall2_flip Hb) Erb) as [br [Ebb Lb]].
  rewrite (nth_error_zip_with _ _ _ _ rr (dr, br) Erb (nth_error_combine _ _ _ _ _ Edb Ebb)).
  simpl. destruct (nth_error_some_length rr br t r) as [bv Hbv]; [lia | exact Hr |].
  exists (td_ref gamma r 1 bv). split; [apply td_ref_batch_nth; assumption|].
  apply td_ref_terminal.
Qed.

(** C12: The time windows of [DRQN_Learner.update] are aligned: for
    every sequence [obs[b]] of [T + 1] observations, the current window
    ([obs[:, 0:-1]]) and the next window ([obs[:, 1:]]) both have [T]
    steps, step [t] of the current window is [obs[b][t]], and step [t]
    of the next window is [obs[b][t + 1]]. *)
Theorem drqn_windows_aligned {A} (obs : list (list A)) b seq :
  nth_error obs b = Some seq ->
  exists cur nxt,
    nth_error (cur_window obs) b = Some cur /\ nth_error (next_window obs) b = Some nxt /\
    length cur = pred (length seq) /\ length nxt = pred (length seq) /\
    (forall t, (t < pred (length seq))%nat ->
       nth_error cur t = nth_error seq t /\ nth_error nxt t = nth_error seq (S t)).
Proof.
  intros Hb. exists (removelast seq), (tl seq). unfold cur_window, next_window.
  rewrite !nth_error_map, Hb. simpl. rewrite py_slice_init, py_slice_tail.
  split; [reflexivity|]. split; [reflexivity|].
  rewrite removelast_firstn_len, length_firstn.
  split; [lia|]. split; [destruct seq; simpl; lia|].
  intros t Ht. split.
  - rewrite nth_error_firstn. destruct (Nat.ltb_spec t (pred (length seq))); [reflexivity | lia].
  - destruct seq as [|x seq]; [simpl in Ht; lia | reflexivity].
Qed.

Section DRQNProps.
Context {Obs H P G O : Type} `{RQNet Obs H P} `{Optimizer P G O}.

(** C13: The hidden state is rebuilt from [samples['batch_size']] at
    every update: when that number differs from the number of sequences
    in [obs], the recurrent forward pass raises (torch's hidden-size
    check), and the update leaves only its counter incremented. *)
Theorem drqn_update_hidden_mismatch cfg samples (s : learner P G O) obs act rew ter n :
  get_obs_seq samples "obs" = Ok obs -> get_mat samples "actions" = Ok act ->
  get_mat samples "rewards" = Ok rew -> get_mat samples "terminals" = Ok ter ->
  get_int samples "batch_size" = Ok n -> Z.to_nat n <> length obs ->
  drqn_update cfg samples s = (set_iterations (iterations s + 1) s, Err size_mismatch).
Proof.
  intros Ho Ha Hr Ht Hn Hne. unfold drqn_update. apply update_shell_compute_error.
  unfold drqn_compute. rewrite Ho, Ha, Hr, Ht, Hn. simpl.
  unfold rpolicy_forward, reval_net, init_hidden, cur_window.
  rewrite length_map, repeat_length. destruct (Nat.eqb_spec (length obs) (Z.to_nat n)); [lia|].
  reflexivity.
Qed.

(** C10: Hard synchronisation in [DRQN_Learner.update], as in the
    feedforward learner: after an update that returns, the counter is
    one higher and the target parameters equal the online ones exactly
    when the new counter is a multiple of [sync_frequency], and are
    unchanged otherwise. *)
Theorem drqn_update_sync cfg samples (s s' : learner P G O) info :
  learner_wf s -> drqn_update cfg samples s = (s', Ok info) ->
  iterations s' = (iterations s + 1)%Z /\
  ((iterations s + 1) mod sync_frequency cfg = 0 -> target (policy s') = online (policy s'))%Z /\
  ((iterations s + 1) mod sync_frequency cfg <> 0 -> target (policy s') = target (policy s))%Z.
Proof.
  intros Hw Hu.
  destruct (update_shell_sync _ _ _ _ _ _ Hw Hu) as (_ & _ & _ & Hi & _ & _ & _ & Hs1 & Hs2).
  auto.
Qed.
End DRQNProps.

(** ** Witnesses *)

#[local] Existing Instance Toy.rqnet.
#[local] Existing Instance Toy.sgd.

Definition toy_seq_samples (bs : Z) : dict (value Q) :=
  [("obs", VObsSeq [[1; 2; 3]; [2; 3; 4]]); ("actions", VMat [[0; 1]; [1; 0]]);
   ("rewards", VMat [[1; 0]; [0; 2]]); ("terminals", VMat [[0; 1]; [0; 0]]);
   ("batch_size", VInt bs)].

Lemma drqn_target_terminal_witness :
  exists x, at2 [[1 + (9 # 10) * (1 - 0) * 5; 0 + (9 # 10) * (1 - 1) * 7]] 0 1 = Some x /\ x == 0.
Proof.
  apply (drqn_target_terminal (9 # 10) [[1; 0]] [[0; 1]] [[5; 7]]); reflexivity || constructor.
  all: repeat constructor.
Defined.

Lemma drqn_windows_aligned_witness :
  exists cur nxt,
    nth_error (cur_window [[1; 2; 3]; [4; 5; 6]]) 1 = Some cur /\
    nth_error (next_window [[1; 2; 3]; [4; 5; 6]]) 1 = Some nxt /\
    length cur = pred (length [4; 5; 6]) /\ length nxt = pred (length [4; 5; 6]) /\
    (forall t, (t < pred (length [4; 5; 6]))%nat ->
       nth_error cur t = nth_error [4; 5; 6] t /\ nth_error nxt t = nth_error [4; 5; 6] (S t)).
Proof. apply (drqn_windows_aligned [[1; 2; 3]; [4; 5; 6]] 1). reflexivity. Defined.

Lemma drqn_update_hidden_mismatch_witness :
  drqn_update (toy_cfg 2) (toy_seq_samples 3) (toy_learner 1)
  = (set_iterations (iterations (toy_learner 1) + 1) (toy_learner 1), Err size_mismatch).
Proof.
  apply (drqn_update_hidden_mismatch (toy_cfg 2) (toy_seq_samples 3) (toy_learner 1)
           [[1; 2; 3]; [2; 3; 4]] [[0; 1]; [1; 0]] [[1; 0]; [0; 2]] [[0; 1]; [0; 0]] 3);
    try reflexivity. simpl. lia.
Defined.

Lemma drqn_update_sync_witness :
  exists s' info, drqn_update (toy_cfg 2) (toy_seq_samples 2) (toy_learner 1) = (s', Ok info) /\
    iterations s' = (iterations (toy_learner 1) + 1)%Z /\
    ((iterations (toy_learner 1) + 1) mod sync_frequency (toy_cfg 2) = 0 ->
       target (policy s') = online (policy s'))%Z /\
    ((iterations (toy_learner 1) + 1) mod sync_frequency (toy_cfg 2) <> 0 ->
       target (policy s') = target (policy (toy_learner 1)))%Z.
Proof.
  do 2 eexists. split; [reflexivity|].
  eapply (drqn_update_sync (toy_cfg 2) (toy_seq_samples 2) (toy_learner 1));
    [apply toy_learner_wf; lia | reflexivity].
Defined.
