(* ===== verification/Training.v ===== *)
(** * Training runs: sequences of updates and the lag of the target network

    A run is a sequence of [update] calls that return, from a learner
    whose target network is a copy of its online network (the state the
    specification assumes at construction).  [run] is the reflexive
    transitive closure of one update, recording the online parameters
    after each call.  Under a sync frequency [N > 0], the invariant is
    that after [k] updates the target parameters are exactly the online
    parameters after [N * (k / N)] updates: the target lags by [k mod N]
    optimizer steps and catches up at every multiple of [N].  The section
    assumes only what [update_shell_sync] proves of an update, so the
    result holds for the three learners.  [train_loop] is the runner's
    loop itself, executable; a loop that returns is a [run], and on
    batches every update accepts it returns. *)

From Stdlib Require Import String List ZArith QArith Lia.
From S2P Require Import Prelude Python Tensor TDTarget Policy Scheduler Learner DDQN DRQN PerDQN.
Import ListNotations.

Section Run.
Context {P G O X A : Type} `{Optimizer P G O}.
Variable cfg : config.
Variable upd : X -> PyM exn (learner P G O) A.

(** What one update that returns does to the counter and the two
    parameter sets. *)
Hypothesis upd_sync : forall x s s' a,
  learner_wf s -> upd x s = (s', Ok a) ->
  iterations s' = (iterations s + 1)%Z /\ learner_wf s' /\
  ((iterations s + 1) mod sync_frequency cfg = 0 -> target (policy s') = online (policy s'))%Z /\
  ((iterations s + 1) mod sync_frequency cfg <> 0 -> target (policy s') = target (policy s))%Z.

(** [run s0 hist s]: [s] is reached from [s0] by updates that return;
    [hist] lists the online parameters after 0, 1, 2, ... updates. *)
Inductive run (s0 : learner P G O) : list P -> learner P G O -> Prop :=
| run_start : run s0 [online (policy s0)] s0
| run_step hist s1 s2 x a :
    run s0 hist s1 -> upd x s1 = (s2, Ok a) ->
    run s0 (hist ++ [online (policy s2)]) s2.

Definition fresh (s : learner P G O) : Prop :=
  iterations s = 0%Z /\ target (policy s) = online (policy s) /\ learner_wf s.

Lemma nth_app_lt {T} (l l' : list T) i d : (i < length l)%nat -> nth i (l ++ l') d = nth i l d.
Proof. intros Hi. rewrite app_nth1 by exact Hi. reflexivity. Qed.

Lemma div_mul_succ (i N : Z) :
  (0 < N)%Z -> (0 <= i)%Z -> ((i + 1) mod N <> 0)%Z -> ((i + 1) / N * N = i / N * N)%Z.
Proof.
  intros HN Hi Hm. f_equal.
  pose proof (Z.div_mod (i + 1) N ltac:(lia)). pose proof (Z.div_mod i N ltac:(lia)).
  pose proof (Z.mod_pos_bound (i + 1) N HN). pose proof (Z.mod_pos_bound i N HN).
  nia.
Qed.

(** The target network lags the online one by [k mod N] updates. *)
Theorem run_target_lag (s0 s : learner P G O) hist (d : P) :
  (0 < sync_frequency cfg)%Z -> fresh s0 -> run s0 hist s ->
  learner_wf s /\ iterations s = Z.of_nat (length hist - 1) /\
  target (policy s) =
  nth (Z.to_nat (iterations s / sync_frequency cfg * sync_frequency cfg)) hist d.
Proof.
  intros HN [H0 [Ht0 Hw0]]. induction 1 as [|hist s1 s2 x a Hrun IH Hu].
  - split; [exact Hw0|]. rewrite H0. split; [reflexivity|]. rewrite Z.div_0_l by lia.
    simpl. exact Ht0.
  - destruct IH as [Hw1 [Hi1 Ht1]].
    destruct (upd_sync x s1 s2 a Hw1 Hu) as [Hi2 [Hw2 [Hs Hn]]].
    assert (Hlen : length hist = S (Z.to_nat (iterations s1))).
    { destruct Hrun; simpl in *; [lia|]. rewrite length_app in *. simpl in *. lia. }
    split; [exact Hw2|]. rewrite length_app. simpl. split; [lia|].
    destruct (Z.eq_dec ((iterations s1 + 1) mod sync_frequency cfg) 0) as [Hm|Hm].
    + rewrite (Hs Hm), Hi2.
      replace ((iterations s1 + 1) / sync_frequency cfg * sync_frequency cfg)%Z
        with (iterations s1 + 1)%Z by (pose proof (Z.div_mod (iterations s1 + 1) (sync_frequency cfg)); lia).
      rewrite app_nth2 by lia. replace (Z.to_nat (iterations s1 + 1) - length hist)%nat with 0%nat by lia.
      reflexivity.
    + rewrite (Hn Hm), Hi2, Ht1, div_mul_succ by (destruct Hw1; lia).
      rewrite nth_app_lt; [reflexivity|].
      pose proof (Z.mul_div_le (iterations s1) (sync_frequency cfg) HN).
      assert (0 <= iterations s1 / sync_frequency cfg * sync_frequency cfg)%Z
        by (apply Z.mul_nonneg_nonneg; [apply Z.div_pos|]; destruct Hw1; lia).
      lia.
Qed.
(** ** Bounded liveness of the hard update

    [within n Pr s]: along every sequence of at most [n] updates that
    return, starting from [s], some state satisfies [Pr] (a bounded
    "eventually" over the updates' outcomes). *)
Fixpoint within (n : nat) (Pr : learner P G O -> Prop) (s : learner P G O) : Prop :=
  Pr s \/ match n with
          | Datatypes.O => False
          | S n' => forall x s' a, upd x s = (s', Ok a) -> within n' Pr s'
          end.

Definition synced (s : learner P G O) : Prop := target (policy s) = online (policy s).

Lemma mod_succ_ne (c N : Z) :
  (0 < N)%Z -> (0 <= c)%Z -> ((c + 1) mod N <> 0)%Z -> ((c + 1) mod N = c mod N + 1)%Z.
Proof.
  intros HN Hc Hm.
  pose proof (Z.div_mod (c + 1) N ltac:(lia)). pose proof (Z.div_mod c N ltac:(lia)).
  pose proof (Z.mod_pos_bound (c + 1) N HN). pose proof (Z.mod_pos_bound c N HN).
  assert ((c + 1) / N = c / N)%Z by nia. nia.
Qed.

(** From a learner whose counter is [c], the target network is a copy of
    the online one after at most [N - c mod N] updates that return. *)
Theorem run_sync_within (s : learner P G O) :
  (0 < sync_frequency cfg)%Z -> learner_wf s ->
  within (Z.to_nat (sync_frequency cfg - iterations s mod sync_frequency cfg)) synced s.
Proof.
  intros HN. remember (Z.to_nat _) as n eqn:En.
  assert (Hb : (sync_frequency cfg - iterations s mod sync_frequency cfg <= Z.of_nat n)%Z) by lia.
  clear En. revert s Hb. induction n as [|n IH]; intros s Hb Hw.
  - pose proof (Z.mod_pos_bound (iterations s) _ HN). lia.
  - right. intros x s' a Hu. destruct (upd_sync x s s' a Hw Hu) as [Hi [Hw' [Hs Hn]]].
    destruct (Z.eq_dec ((iterations s + 1) mod sync_frequency cfg) 0) as [Hm|Hm].
    + destruct n; left; apply Hs, Hm.
    + apply IH; [|exact Hw']. rewrite Hi, mod_succ_ne by (destruct Hw; lia). lia.
Qed.

(** What one update that returns does to the scheduler and the rate. *)
Hypothesis upd_sched : forall x s s' a,
  learner_wf s -> upd x s = (s', Ok a) ->
  match scheduler s with
  | Some sch => linear_lr_step sch (lr s) = Ok (match scheduler s' with Some y => y | None => sch end, lr s')
                /\ scheduler s' <> None
  | None => scheduler s' = None /\ lr s' = lr s
  end.

(** The rate follows the closed form of [LinearLR] in the number of
    updates of the run. *)
Theorem run_lr_schedule (s0 s : learner P G O) hist (T : Z) (base : Q) :
  (0 < T)%Z -> learner_wf s0 -> scheduler s0 = Some (mk_linear_lr 1 0 T 0) ->
  lr s0 == lr_closed T base 0 -> run s0 hist s ->
  learner_wf s /\ scheduler s = Some (mk_linear_lr 1 0 T (Z.of_nat (length hist - 1))) /\
  lr s == lr_closed T base (Z.of_nat (length hist - 1)).
Proof.
  intros HT Hw0 Hs0 Hl0. induction 1 as [|hist s1 s2 x a Hrun IH Hu].
  - split; [exact Hw0|]. split; [exact Hs0 | exact Hl0].
  - destruct IH as [Hw1 [Hs1 Hl1]].
    destruct (upd_sync x s1 s2 a Hw1 Hu) as [_ [Hw2 _]].
    pose proof (upd_sched x s1 s2 a Hw1 Hu) as Hsch. rewrite Hs1 in Hsch.
    destruct Hsch as [Hstep Hne].
    assert (Hk : (0 <= Z.of_nat (length hist - 1))%Z) by lia.
    destruct (linear_lr_step_closed T _ base (lr s1) HT Hk Hl1) as [lr' [Hst Hcl]].
    rewrite Hst in Hstep. injection Hstep as Hsc Hlr.
    assert (Hlen : length hist <> 0%nat) by (destruct Hrun; simpl; [lia | rewrite length_app; simpl; lia]).
    replace (Z.of_nat (length (hist ++ [online (policy s2)]) - 1))
      with (Z.of_nat (length hist - 1) + 1)%Z by (rewrite length_app; simpl; lia).
    split; [exact Hw2|]. split.
    + destruct (scheduler s2); [congruence | contradiction].
    + rewrite <- Hlr. exact Hcl.
Qed.
End Run.

(** ** The runner's loop

    The runner (not under src/) calls [update] once per sampled batch,
    in order; an exception propagates out of the loop at once, leaving
    the learner as the failing call left it.  [train_loop] is that loop
    over the batches it samples, collecting what each update returns. *)
Fixpoint train_loop {S X A : Type} (upd : X -> PyM exn S A) (xs : list X) : PyM exn S (list A) :=
  match xs with
  | [] => pret []
  | x :: xs' => a <- upd x ;; rest <- train_loop upd xs' ;; pret (a :: rest)
  end.

Section Loop.
Context {P G O X A : Type} `{Optimizer P G O}.
Variable upd : X -> PyM exn (learner P G O) A.

(** A loop that returns is a run: one recorded online parameter set per
    update, after the start's. *)
Lemma train_loop_run xs (s0 s s' : learner P G O) hist outs :
  run upd s0 hist s -> train_loop upd xs s = (s', Ok outs) ->
  exists hist', run upd s0 (hist ++ hist')%list s' /\ length hist' = length xs.
Proof.
  revert s hist outs. induction xs as [|x xs IH]; intros s hist outs Hr; simpl.
  - intros [= <- _]. exists []. rewrite app_nil_r. split; [exact Hr | reflexivity].
  - unfold pbind at 1. destruct (upd x s) as [s1 [a|e]] eqn:Hu; [|discriminate].
    unfold pbind. destruct (train_loop upd xs s1) as [s2 [rest|e]] eqn:Hl; [|discriminate].
    intros [= <- _].
    destruct (IH s1 (hist ++ [online (policy s1)])%list rest (run_step upd s0 hist s s1 x a Hr Hu) Hl)
      as [hist' [Hr' Hl']].
    exists (online (policy s1) :: hist'). rewrite <- app_assoc in Hr'. split; [exact Hr'|].
    simpl. rewrite Hl'. reflexivity.
Qed.

(** What an update does on a batch it accepts. *)
Variable good : X -> Prop.
Hypothesis upd_ok : forall x s, learner_wf s -> good x ->
  exists s' a, upd x s = (s', Ok a) /\ learner_wf s' /\ iterations s' = (iterations s + 1)%Z.

(** On batches every update accepts, the loop runs to its end: it
    returns one result per batch and the counter has moved once per
    batch. *)
Lemma train_loop_total xs (s : learner P G O) :
  learner_wf s -> Forall good xs ->
  exists s' outs, train_loop upd xs s = (s', Ok outs) /\ length outs = length xs /\
    learner_wf s' /\ iterations s' = (iterations s + Z.of_nat (length xs))%Z.
Proof.
  intros Hw Hg. revert s Hw. induction Hg as [|x xs Hx _ IH]; intros s Hw.
  - exists s, []. split; [reflexivity|]. split; [reflexivity|]. split; [exact Hw | simpl; lia].
  - destruct (upd_ok x s Hw Hx) as [s1 [a [Hu [Hw1 Hi1]]]].
    destruct (IH s1 Hw1) as [s' [outs [Hl [Hn [Hw' Hi']]]]].
    exists s', (a :: outs). simpl. unfold pbind. rewrite Hu, Hl.
    split; [reflexivity|]. split; [simpl; lia|]. split; [exact Hw' | lia].
Qed.
End Loop.

(** Every [update_shell] meets the hypothesis of the section. *)
Lemma update_shell_sync_hyp {P G O R A} `{Optimizer P G O} cfg
      (compute : policy_state P -> result exn ((P -> result exn fl) * R)) (finish : R -> Q -> A)
      (s s' : learner P G O) a :
  learner_wf s -> update_shell cfg compute finish s = (s', Ok a) ->
  iterations s' = (iterations s + 1)%Z /\ learner_wf s' /\
  ((iterations s + 1) mod sync_frequency cfg = 0 -> target (policy s') = online (policy s'))%Z /\
  ((iterations s + 1) mod sync_frequency cfg <> 0 -> target (policy s') = target (policy s))%Z.
Proof.
  intros Hw Hu. destruct (update_shell_sync _ _ _ _ _ _ Hw Hu)
    as (_ & _ & _ & Hi & Hw' & _ & _ & Hs1 & Hs2). auto.
Qed.

(** The sync facts of one DDQN update, in the form the section assumes. *)
Lemma ddqn_sync_hyp {Obs P G O} `{QNet Obs P} `{Optimizer P G O} cfg :
  forall x (s s' : learner P G O) a, learner_wf s -> ddqn_update cfg x s = (s', Ok a) ->
    iterations s' = (iterations s + 1)%Z /\ learner_wf s' /\
    ((iterations s + 1) mod sync_frequency cfg = 0 -> target (policy s') = online (policy s'))%Z /\
    ((iterations s + 1) mod sync_frequency cfg <> 0 -> target (policy s') = target (policy s))%Z.
Proof. intros; eapply update_shell_sync_hyp; eassumption. Qed.

(** C14: Over any run of [DDQN_Learner.update] calls that return,
    starting from a learner whose target network is a copy of its online
    network and with [sync_frequency = N > 0], after [k] updates the
    counter is [k] and the target parameters are exactly the online
    parameters after [N * (k / N)] updates. *)
Theorem ddqn_run_target_lag {Obs P G O} `{QNet Obs P} `{Optimizer P G O} cfg
        (s0 s : learner P G O) hist (d : P) :
  (0 < sync_frequency cfg)%Z -> fresh s0 -> run (ddqn_update cfg) s0 hist s ->
  iterations s = Z.of_nat (length hist - 1) /\
  target (policy s) =
  nth (Z.to_nat (iterations s / sync_frequency cfg * sync_frequency cfg)) hist d.
Proof.
  intros HN Hf Hr.
  pose proof (ddqn_sync_hyp cfg) as Hyp.
  destruct (run_target_lag cfg (ddqn_update cfg) Hyp s0 s hist d HN Hf Hr) as [_ H2]. exact H2.
Qed.

(** C15: The learning rate of a DDQN learner built by its constructor
    (with [running_steps = T > 0]) follows the linear schedule: after a
    run of [k] updates that return it is
    [learning_rate * (1 - min(k, T) / T)], the rate [update] reports in
    its statistics; it reaches 0 at [k = T] and stays there. *)
Theorem ddqn_run_lr_schedule {Obs P G O} `{QNet Obs P} `{Optimizer P G O} cfg ps o0
        (s0 s : learner P G O) hist :
  (0 < running_steps cfg)%Z -> learner_init cfg ps o0 = Ok s0 ->
  run (ddqn_update cfg) s0 hist s ->
  lr s == lr_closed (running_steps cfg) (learning_rate cfg) (Z.of_nat (length hist - 1)).
Proof.
  intros HT Hi Hr. unfold learner_init in Hi.
  destruct (Qle_bool 0 (learning_rate cfg)); [|discriminate].
  rewrite linear_lr_init_1_0 in Hi. injection Hi as <-.
  pose proof (ddqn_sync_hyp cfg) as Hyp1.
  assert (Hyp2 : forall x s s' a, learner_wf s -> ddqn_update cfg x s = (s', Ok a) ->
    match scheduler s with
    | Some sch => linear_lr_step sch (lr s) = Ok (match scheduler s' with Some y => y | None => sch end, lr s')
                  /\ scheduler s' <> None
    | None => scheduler s' = None /\ lr s' = lr s
    end)
    by (intros; eapply update_shell_sched; eassumption).
  destruct (run_lr_schedule cfg (ddqn_update cfg) Hyp1 Hyp2
              (mk_learner 0 ps None o0 (learning_rate cfg * 1)
                          (Some (mk_linear_lr 1 0 (running_steps cfg) 0)))
              s hist (running_steps cfg) (learning_rate cfg) HT) as [_ [_ Hl]];
    try exact Hr; try reflexivity.
  - unfold learner_wf; simpl. repeat split; lia.
  - unfold lr_closed. rewrite Z.min_l by lia. simpl.
    change (inject_Z 0) with 0. unfold Qdiv. rewrite Qmult_0_l. ring.
  - exact Hl.
Qed.

(** C28: Bounded liveness of the hard update: from any well-formed DDQN
    learner with counter [c] and [sync_frequency = N > 0], every
    sequence of updates that return reaches a state whose target network
    equals its online network within [N - c mod N <= N] updates. *)
Theorem ddqn_sync_within {Obs P G O} `{QNet Obs P} `{Optimizer P G O} cfg (s : learner P G O) :
  (0 < sync_frequency cfg)%Z -> learner_wf s ->
  within (ddqn_update cfg) (Z.to_nat (sync_frequency cfg - iterations s mod sync_frequency cfg))
         synced s.
Proof. apply (run_sync_within cfg (ddqn_update cfg) (ddqn_sync_hyp cfg) s). Qed.

(** A batch every parameter set can train on with one worker: keys
    without duplicates, an integer [batch_size], and the five arrays of
    one length with actions in range for a network of [n > 0] outputs. *)
Definition perdqn_trainable {Obs P} `{QNet Obs P} (n : nat) (x : dict (value Obs)) : Prop :=
  NoDup (map fst x) /\ (exists bs, get_int x "batch_size" = Ok bs) /\
  forall ps : policy_state P, batch_ok ps n (filter kept x).

(** One PerDQN update accepts such a batch. *)
Lemma perdqn_update_accepts {Obs P G O} `{QNet Obs P} `{Optimizer P G O} cfg env n :
  (world_size cfg <= 1)%Z -> sync_frequency cfg <> 0%Z ->
  forall x (s : learner P G O), learner_wf s -> perdqn_trainable n x ->
  exists s' a, perdqn_update cfg env x s = (s', Ok a) /\ learner_wf s' /\
               iterations s' = (iterations s + 1)%Z.
Proof.
  intros Hws Hz x s0 Hw0 [Hnd [[bs Hb] Hok]].
  destruct (perdqn_compute_ok cfg env x (policy s0) _ n
              (build_training_data_single _ env x bs Hws Hnd Hb) (Hok (policy s0)))
    as (obs & act & nxt & rew & ter & tgt & pred & lf & loss & _ & _ & _ & _ & _ & _ & _ & Hc & _).
  destruct (update_shell_ok cfg _ (fun r lr => (vabs (fst r), make_info cfg (fst (snd r)) lr (snd (snd r))))
              s0 _ _ Hw0 Hz Hc) as [s1 [lr' [Hu Hw1]]].
  eexists s1, _. split; [exact Hu|]. split; [exact Hw1|].
  apply (update_shell_sync_hyp _ _ _ _ _ _ Hw0 Hu).
Qed.

(** C37: The runner's loop over PerDQN updates terminates normally:
    with one worker and [sync_frequency <> 0], from a well-formed
    learner, on batches every parameter set can train on, the loop
    returns one [(priorities, info)] per batch, the counter has moved
    once per batch, and the loop is a run of updates, so the lag and
    schedule theorems of the runs apply to it. *)
Theorem perdqn_train_loop_total {Obs P G O} `{QNet Obs P} `{Optimizer P G O} cfg env n
        (xs : list (dict (value Obs))) (s : learner P G O) :
  (world_size cfg <= 1)%Z -> sync_frequency cfg <> 0%Z -> learner_wf s ->
  Forall (perdqn_trainable n) xs ->
  exists s' outs hist,
    train_loop (perdqn_update cfg env) xs s = (s', Ok outs) /\ length outs = length xs /\
    iterations s' = (iterations s + Z.of_nat (length xs))%Z /\
    run (perdqn_update cfg env) s hist s' /\ length hist = S (length xs).
Proof.
  intros Hws Hz Hw Hx.
  destruct (train_loop_total (perdqn_update cfg env) (perdqn_trainable n)
              (perdqn_update_accepts cfg env n Hws Hz) xs s Hw Hx)
    as [s' [outs [Hl [Hn [_ Hi]]]]].
  destruct (train_loop_run _ xs s s s' [online (policy s)] outs (run_start _ s) Hl) as [hist' [Hr Hh]].
  exists s', outs, ([online (policy s)] ++ hist')%list. repeat split; try assumption.
  simpl. rewrite Hh. reflexivity.
Qed.

#[local] Existing Instance Toy.qnet.
#[local] Existing Instance Toy.sgd.

Definition toy_fresh : learner Q Q unit :=
  mk_learner 0 (mk_policy 1 1) None tt ((1 # 10) * 1) (Some (mk_linear_lr 1 0 10 0)).

Lemma toy_fresh_init : learner_init (toy_cfg 2) (mk_policy 1 1) tt = Ok toy_fresh.
Proof. reflexivity. Qed.

Definition toy_run1 := fst (ddqn_update (toy_cfg 2) toy_samples toy_fresh).
Definition toy_run2 := fst (ddqn_update (toy_cfg 2) toy_samples toy_run1).
Definition toy_run3 := fst (ddqn_update (toy_cfg 2) toy_samples toy_run2).
Definition toy_hist : list Q :=
  (([online (policy toy_fresh)] ++ [online (policy toy_run1)]) ++ [online (policy toy_run2)])
  ++ [online (policy toy_run3)].

Lemma toy_run_ok : run (ddqn_update (toy_cfg 2)) toy_fresh toy_hist toy_run3.
Proof.
  unfold toy_hist.
  eapply run_step with (x := toy_samples);
    [eapply run_step with (x := toy_samples);
       [eapply run_step with (x := toy_samples); [apply run_start|]|]|];
    vm_compute; reflexivity.
Qed.

Lemma ddqn_run_target_lag_witness :
  iterations toy_run3 = Z.of_nat (length toy_hist - 1) /\
  target (policy toy_run3) =
  nth (Z.to_nat (iterations toy_run3 / sync_frequency (toy_cfg 2) * sync_frequency (toy_cfg 2)))
      toy_hist 0.
Proof.
  apply (ddqn_run_target_lag (toy_cfg 2) toy_fresh toy_run3 toy_hist 0);
    [reflexivity | | exact toy_run_ok].
  unfold fresh, learner_wf; simpl. repeat split; lia.
Defined.

Lemma ddqn_run_lr_schedule_witness :
  lr toy_run3 == lr_closed (running_steps (toy_cfg 2)) (learning_rate (toy_cfg 2))
                           (Z.of_nat (length toy_hist - 1)).
Proof.
  apply (ddqn_run_lr_schedule (toy_cfg 2) (mk_policy 1 1) tt toy_fresh toy_run3 toy_hist);
    [reflexivity | reflexivity | exact toy_run_ok].
Defined.

Lemma ddqn_sync_within_witness :
  within (ddqn_update (toy_cfg 2))
         (Z.to_nat (sync_frequency (toy_cfg 2) - iterations (toy_learner 1) mod sync_frequency (toy_cfg 2)))
         synced (toy_learner 1).
Proof. apply ddqn_sync_within; [reflexivity | apply toy_learner_wf; lia]. Defined.

(** The toy learner at counter 1 with [N = 2] is synced after its next
    update. *)
Example toy_synced_after_one : synced (fst (ddqn_update (toy_cfg 2) toy_samples (toy_learner 1))).
Proof. reflexivity. Qed.

(** The toy batch of two transitions can be trained on by every
    parameter set of the toy network (two outputs). *)
Lemma toy_samples_trainable : perdqn_trainable 2 toy_samples.
Proof.
  split; [solve_nodup|]. split; [eexists; reflexivity|]. intros ps.
  exists [1; 2], [0; 1], [2; 3], [1; 0], [0; 1].
  repeat split; try reflexivity; try lia.
  all: simpl; repeat constructor.
  all: vm_compute; discriminate.
Qed.

Lemma perdqn_train_loop_total_witness :
  exists s' outs hist,
    train_loop (perdqn_update (toy_cfg 2) []) [toy_samples; toy_samples; toy_samples] (toy_learner 1)
      = (s', Ok outs) /\ length outs = 3%nat /\
    iterations s' = (iterations (toy_learner 1) + Z.of_nat 3)%Z /\
    run (perdqn_update (toy_cfg 2) []) (toy_learner 1) hist s' /\ length hist = 4%nat.
Proof.
  apply (perdqn_train_loop_total (toy_cfg 2) [] 2 [toy_samples; toy_samples; toy_samples] (toy_learner 1));
    [simpl; lia | discriminate | apply toy_learner_wf; lia |].
  repeat (apply Forall_cons; [apply toy_samples_trainable|]). apply Forall_nil.
Defined.
