(* ===== verification/Launcher.v ===== *)
(** * The benchmark launcher: [src/benchmark_marl.py]

    [parse_args] (lines 5-15) builds an [argparse.ArgumentParser] with
    six options and parses [sys.argv[1:]]; the main block (lines 18-25)
    passes the namespace to [get_runner] and starts the benchmark.  The
    parser's algorithm is the library's ([argparse] of CPython 3.8 to
    3.11, with its defaults [allow_abbrev=True], [exit_on_error=True],
    prefix character [-]); it is modelled as that module runs it:
    - a first pass classifies every argument string as an option, an
      argument or the separator [--] ([_parse_optional]): exact option
      strings, [--opt=value], unambiguous prefixes of long options
      (an ambiguous prefix exits at once with status 2), the
      [-h<letters>] forms of the short help option, negative numbers and
      strings with a space as arguments, anything else starting with
      [-] as an unknown option;
    - a second pass consumes the options from left to right
      ([consume_optional]): each option takes its explicit value or the
      next argument string, converted by its [type] ([int] raises, and
      exits with status 2); [--help] exits with status 0 when it is
      reached; unknown options and stray arguments are collected;
    - leftover strings make [parse_args] exit with status 2.
    An exit is the error value of a [result Z], with its status. *)

From Stdlib Require Import Ascii String List ZArith Lia.
From S2P Require Import Prelude Python.
Import ListNotations.
Open Scope string_scope.
Open Scope list_scope.
Local Open Scope xu_scope.

(** ** The parser of lines 5-15 *)

(** The namespace [parse_args()] returns. *)
Record args : Type := mk_args {
  method : string;
  env : string;
  env_id : string;
  seed : Z;
  test : Z;
  device : string
}.

(** The defaults of lines 7-12. *)
Definition default_args : args := mk_args "mappo" "football" "1v1" 2 0 "cuda:0".

(** The parser's actions, the automatic [-h/--help] first. *)
Inductive action : Type := AHelp | AMethod | AEnv | AEnvId | ASeed | ATest | ADevice.

(** [parser._option_string_actions], in insertion order. *)
Definition option_strings : list (string * action) :=
  [("-h", AHelp); ("--help", AHelp); ("--method", AMethod); ("--env", AEnv);
   ("--env-id", AEnvId); ("--seed", ASeed); ("--test", ATest); ("--device", ADevice)].

Definition lookup_option (s : string) : option action :=
  option_map snd (find (fun p => String.eqb (fst p) s) option_strings).

(** [s.split('=', 1)] when [s] contains ['=']. *)
Fixpoint split_eq (s : string) : option (string * string) :=
  match s with
  | EmptyString => None
  | String c r =>
      if Ascii.eqb c "="%char then Some (EmptyString, r)
      else option_map (fun p => (String c (fst p), snd p)) (split_eq r)
  end.

Definition is_digit (c : ascii) : bool :=
  let n := nat_of_ascii c in ((48 <=? n) && (n <=? 57))%nat.

Fixpoint all_digits (s : string) : bool :=
  match s with EmptyString => true | String c r => is_digit c && all_digits r end.

Fixpoint split_dot (s : string) : option (string * string) :=
  match s with
  | EmptyString => None
  | String c r =>
      if Ascii.eqb c "."%char then Some (EmptyString, r)
      else option_map (fun p => (String c (fst p), snd p)) (split_dot r)
  end.

(** [parser._negative_number_matcher]: [^-\d+$|^-\d*\.\d+$] (its [$]
    also matching before a final newline is not modelled). *)
Definition is_negative_number (s : string) : bool :=
  match s with
  | String c r =>
      Ascii.eqb c "-"%char &&
      ((negb (String.eqb r "") && all_digits r) ||
       match split_dot r with
       | Some (a, b) => all_digits a && negb (String.eqb b "") && all_digits b
       | None => false
       end)
  | EmptyString => false
  end.

Fixpoint has_space (s : string) : bool :=
  match s with EmptyString => false | String c r => Ascii.eqb c " "%char || has_space r end.

(** [_get_option_tuples]: the options an abbreviation may stand for. *)
Definition option_tuples (arg : string) : list (action * string * option string) :=
  match arg with
  | String "-"%char (String "-"%char _) =>
      let '(pre, expl) := match split_eq arg with
                          | Some (p, e) => (p, Some e)
                          | None => (arg, None)
                          end in
      map (fun p => (snd p, fst p, expl))
          (filter (fun p => String.prefix pre (fst p)) option_strings)
  | String "-"%char (String c2 rest) =>
      flat_map (fun p =>
        if String.eqb (fst p) (String "-" (String c2 EmptyString)) then [(snd p, fst p, Some rest)]
        else if String.prefix arg (fst p) then [(snd p, fst p, None)]
        else []) option_strings
  | _ => []
  end.

(** One classified argument string: an argument ['A'], the separator
    ['-'] or an option ['O'] (its action, [None] when unknown, the
    option string, the explicit value and the string as written). *)
Inductive token : Type :=
| TArg (s : string)
| TSep
| TOpt (a : option action) (os : string) (explicit : option string) (raw : string).

(** [_parse_optional]; [Err 2] is the exit of an ambiguous prefix. *)
Definition parse_optional (arg : string) : result Z token :=
  match arg with
  | EmptyString => Ok (TArg arg)
  | String c _ =>
      if negb (Ascii.eqb c "-"%char) then Ok (TArg arg) else
      match lookup_option arg with
      | Some a => Ok (TOpt (Some a) arg None arg)
      | None =>
          if Nat.eqb (String.length arg) 1 then Ok (TArg arg) else
          match match split_eq arg with
                | Some (o, e) => option_map (fun a => TOpt (Some a) o (Some e) arg) (lookup_option o)
                | None => None
                end with
          | Some t => Ok t
          | None =>
              match option_tuples arg with
              | _ :: _ :: _ => Err 2%Z
              | [(a, os, e)] => Ok (TOpt (Some a) os e arg)
              | [] =>
                  if is_negative_number arg then Ok (TArg arg)
                  else if has_space arg then Ok (TArg arg)
                  else Ok (TOpt None arg None arg)
              end
          end
      end
  end.

(** The first pass of [_parse_known_args]: after [--] every string is
    an argument. *)
Fixpoint classify (argv : list string) : result Z (list token) :=
  match argv with
  | [] => Ok []
  | a :: rest =>
      if String.eqb a "--" then Ok (TSep :: map TArg rest)
      else t <-? parse_optional a ;;
           ts <-? classify rest ;;
           Ok (t :: ts)
  end.

(** The [type] of an option applied to its string, then stored. *)
Definition set_option (a : action) (v : string) (ns : args) : result Z args :=
  let conv (f : Z -> args) := match py_int_of_str v with Ok n => Ok (f n) | Err _ => Err 2%Z end in
  match a with
  | AMethod => Ok (mk_args v (env ns) (env_id ns) (seed ns) (test ns) (device ns))
  | AEnv => Ok (mk_args (method ns) v (env_id ns) (seed ns) (test ns) (device ns))
  | AEnvId => Ok (mk_args (method ns) (env ns) v (seed ns) (test ns) (device ns))
  | ASeed => conv (fun n => mk_args (method ns) (env ns) (env_id ns) n (test ns) (device ns))
  | ATest => conv (fun n => mk_args (method ns) (env ns) (env_id ns) (seed ns) n (device ns))
  | ADevice => Ok (mk_args (method ns) (env ns) (env_id ns) (seed ns) (test ns) v)
  | AHelp => Ok ns
  end.

Fixpoint all_h (s : string) : bool :=
  match s with EmptyString => true | String c r => Ascii.eqb c "h"%char && all_h r end.

(** The exit status of the help option given an explicit value: a long
    option takes none; [-hh...] repeats the short option. *)
Definition help_explicit_exit (os e : string) : Z :=
  match os with
  | String _ (String "-"%char _) => 2
  | _ => if negb (String.eqb e "") && all_h e then 0 else 2
  end.

(** The second pass: [consume_optional] from left to right, the strings
    no option takes collected as extras. *)
Fixpoint consume (ts : list token) (ns : args) (extras : list string)
  : result Z (args * list string) :=
  match ts with
  | [] => Ok (ns, extras)
  | TArg s :: rest => consume rest ns (extras ++ [s])
  | TSep :: rest => consume rest ns (extras ++ ["--"])
  | TOpt None _ _ raw :: rest => consume rest ns (extras ++ [raw])
  | TOpt (Some AHelp) _ None _ :: _ => Err 0%Z
  | TOpt (Some AHelp) os (Some e) _ :: _ => Err (help_explicit_exit os e)
  | TOpt (Some a) _ (Some v) _ :: rest =>
      ns' <-? set_option a v ns ;; consume rest ns' extras
  | TOpt (Some a) _ None _ :: TArg v :: rest =>
      ns' <-? set_option a v ns ;; consume rest ns' extras
  | TOpt (Some _) _ None _ :: _ => Err 2%Z
  end.

(** [parser.parse_args(argv, namespace=ns)]: every destination is
    already set, so no default is applied. *)
Definition parse_args_ns (argv : list string) (ns : args) : result Z args :=
  ts <-? classify argv ;;
  '(ns', extras) <-? consume ts ns [] ;;
  match extras with [] => Ok ns' | _ :: _ => Err 2%Z end.

(** [parser.parse_args()] on [sys.argv[1:]]: the namespace starts from
    the defaults. *)
Definition parse_args (argv : list string) : result Z args :=
  parse_args_ns argv default_args.

(** ** The main block (lines 18-25) *)

(** The keyword arguments of the [get_runner] call. *)
Record runner_call : Type := mk_runner_call {
  call_method : string;
  call_env : string;
  call_env_id : string;
  call_parser_args : args;
  call_is_test : Z
}.

Definition main (argv : list string) : result Z runner_call :=
  a <-? parse_args argv ;;
  Ok (mk_runner_call (method a) (env a) (env_id a) a (test a)).

(** ** The two passes *)

Lemma parse_optional_err a e : parse_optional a = Err e -> e = 2%Z.
Proof. intros H. unfold parse_optional in H. repeat destruct_match_in H; congruence. Qed.

(** Every error of the first pass is the exit of an ambiguous prefix. *)
Lemma classify_err argv e : classify argv = Err e -> e = 2%Z.
Proof.
  induction argv as [|a rest IH]; simpl; [discriminate|].
  destruct (String.eqb a "--"); [discriminate|].
  destruct (parse_optional a) eqn:E; simpl; [|intros [= <-]; eapply parse_optional_err; eauto].
  destruct (classify rest); simpl; [discriminate|]. intros [= <-]. apply IH. reflexivity.
Qed.

Lemma classify_app xs ys :
  ~ In "--" xs ->
  classify (xs ++ ys)%list = (ts1 <-? classify xs ;; ts2 <-? classify ys ;; Ok (ts1 ++ ts2)%list).
Proof.
  induction xs as [|a xs IH]; intros Hn; simpl.
  - destruct (classify ys); reflexivity.
  - destruct (String.eqb_spec a "--") as [->|_]; [exfalso; apply Hn; left; reflexivity|].
    destruct (parse_optional a); simpl; [|reflexivity].
    rewrite IH by (intros H; apply Hn; right; exact H).
    destruct (classify xs); simpl; [|reflexivity]. destruct (classify ys); reflexivity.
Qed.

Lemma classify_sep argv ts : In "--" argv -> classify argv = Ok ts -> In TSep ts.
Proof.
  revert ts. induction argv as [|a rest IH]; intros ts Hin; simpl; [destruct Hin|].
  destruct (String.eqb_spec a "--") as [->|Hne]; [intros [= <-]; left; reflexivity|].
  destruct Hin as [->|Hin]; [congruence|].
  destruct (parse_optional a); simpl; [|discriminate].
  destruct (classify rest) eqn:E; simpl; [|discriminate]. intros [= <-]. right. apply IH; auto.
Qed.

Lemma consume_grow ts ns ex ns' ex' :
  consume ts ns ex = Ok (ns', ex') -> exists l, ex' = ex ++ l.
Proof.
  revert ns ex. induction ts as [ts IH] using (induction_ltof1 _ (@length token)).
  intros ns ex. destruct ts as [|t r]; cbn [consume].
  - intros [= -> ->]. exists []. rewrite app_nil_r. reflexivity.
  - assert (Hr : ltof _ (@length token) r (t :: r)) by (unfold ltof; simpl; lia).
    destruct t as [s| |[[]|] os [v|] raw];
      try (intros H; destruct (IH r Hr _ _ H) as [l ->]; eexists; rewrite <- app_assoc; reflexivity);
      try discriminate;
      try (destruct (set_option _ _ _) as [ns1|]; [|discriminate]; cbn [rbind]; apply IH, Hr);
      (destruct r as [|[v| |] r']; try discriminate;
       destruct (set_option _ _ _) as [ns1|]; [|discriminate]; cbn [rbind];
       apply IH; unfold ltof; simpl; lia).
Qed.

Lemma consume_sep ts ns ex ns' ex' :
  In TSep ts -> consume ts ns ex = Ok (ns', ex') -> In "--" ex'.
Proof.
  revert ns ex. induction ts as [ts IH] using (induction_ltof1 _ (@length token)).
  intros ns ex Hin. destruct ts as [|t r]; [destruct Hin|]. cbn [consume].
  assert (Hr : ltof _ (@length token) r (t :: r)) by (unfold ltof; simpl; lia).
  destruct Hin as [->|Hin].
  - intros H. destruct (consume_grow _ _ _ _ _ H) as [l ->].
    apply in_or_app. left. apply in_or_app. right. left. reflexivity.
  - destruct t as [s| |[[]|] os [v|] raw];
      try (apply IH; assumption); try discriminate;
      try (destruct (set_option _ _ _) as [ns1|]; [|discriminate]; cbn [rbind]; apply IH; assumption);
      (destruct r as [|[v| |] r']; try discriminate;
       destruct (set_option _ _ _) as [ns1|]; [|discriminate]; cbn [rbind];
       apply IH; [unfold ltof; simpl; lia | destruct Hin as [[=]|Hin]; exact Hin]).
Qed.

(** [consume] reads its tokens from left to right: once a prefix has
    been consumed, the rest continues from the namespace it left. *)
Lemma consume_app ts1 ts2 ns ex ns' ex' :
  consume ts1 ns ex = Ok (ns', ex') -> consume (ts1 ++ ts2) ns ex = consume ts2 ns' ex'.
Proof.
  revert ns ex. induction ts1 as [ts1 IH] using (induction_ltof1 _ (@length token)).
  intros ns ex. destruct ts1 as [|t r]; cbn [consume app].
  - intros [= -> ->]. reflexivity.
  - assert (Hr : ltof _ (@length token) r (t :: r)) by (unfold ltof; simpl; lia).
    destruct t as [s| |[[]|] os [v|] raw];
      try (apply IH; assumption); try discriminate;
      try (destruct (set_option _ _ _) as [ns1|]; [|discriminate]; cbn [rbind]; apply IH; assumption);
      (destruct r as [|[v| |] r']; try discriminate; cbn [app];
       destruct (set_option _ _ _) as [ns1|]; [|discriminate]; cbn [rbind];
       apply IH; unfold ltof; simpl; lia).
Qed.

Lemma parse_args_ns_Ok_inv argv ns a :
  parse_args_ns argv ns = Ok a ->
  ~ In "--" argv /\ exists ts, classify argv = Ok ts /\ consume ts ns [] = Ok (a, []).
Proof.
  unfold parse_args_ns. destruct (classify argv) as [ts|] eqn:Hc; [|discriminate]. cbn [rbind].
  destruct (consume ts ns []) as [[ns' ex]|] eqn:Hm; [|discriminate]. cbn [rbind].
  destruct ex as [|x ex]; [|discriminate]. intros [= ->].
  split; [|exists ts; split; [reflexivity | exact Hm]].
  intros Hin. apply (consume_sep ts ns [] a []); [apply (classify_sep argv); assumption | exact Hm].
Qed.

(** ** Properties of [parse_args] *)

(** The command line that spells out every option with [--opt=value]. *)
Definition render (b : args) : list string :=
  [("--method=" ++ method b)%string; ("--env=" ++ env b)%string;
   ("--env-id=" ++ env_id b)%string; ("--seed=" ++ py_str_int (seed b))%string;
   ("--test=" ++ py_str_int (test b))%string; ("--device=" ++ device b)%string].

Lemma classify_render b :
  classify (render b) =
  Ok [TOpt (Some AMethod) "--method" (Some (method b)) ("--method=" ++ method b);
      TOpt (Some AEnv) "--env" (Some (env b)) ("--env=" ++ env b);
      TOpt (Some AEnvId) "--env-id" (Some (env_id b)) ("--env-id=" ++ env_id b);
      TOpt (Some ASeed) "--seed" (Some (py_str_int (seed b))) ("--seed=" ++ py_str_int (seed b));
      TOpt (Some ATest) "--test" (Some (py_str_int (test b))) ("--test=" ++ py_str_int (test b));
      TOpt (Some ADevice) "--device" (Some (device b)) ("--device=" ++ device b)]%string.
Proof. reflexivity. Qed.

(** C24: Round trip: the command line [render b], which writes every
    option as [--opt=value] (the integers with [str]), parses back to
    exactly [b], whatever the strings hold ([=], spaces, a leading
    [-]). *)
Theorem parse_args_roundtrip b : parse_args (render b) = Ok b.
Proof.
  unfold parse_args, parse_args_ns. rewrite classify_render. cbn [rbind consume set_option].
  rewrite !py_int_of_str_str. destruct b. reflexivity.
Qed.

Lemma classify_cons_opt a rest t :
  String.eqb a "--" = false -> parse_optional a = Ok t ->
  classify (a :: rest) = (ts <-? classify rest ;; Ok (t :: ts)).
Proof. intros Hs Hp. simpl. rewrite Hs, Hp. reflexivity. Qed.

(** [parse_args] reads the command line from left to right: when a
    prefix [pre] parses into [a], the whole line parses as [post] does
    from the namespace [a]; in particular a later occurrence of an
    option overrides an earlier one. *)
Lemma parse_args_app pre post ns a :
  parse_args_ns pre ns = Ok a -> parse_args_ns (pre ++ post) ns = parse_args_ns post a.
Proof.
  intros H. destruct (parse_args_ns_Ok_inv _ _ _ H) as [Hn [ts [Hc Hm]]].
  unfold parse_args_ns. rewrite classify_app, Hc by exact Hn. cbn [rbind].
  destruct (classify post) as [ts2|e]; cbn [rbind]; [|reflexivity].
  rewrite (consume_app _ _ _ _ _ _ Hm). reflexivity.
Qed.

Lemma parse_optional_ambiguous p v t :
  In p ["--e"; "--en"] -> t = p \/ t = (p ++ "=" ++ v)%string ->
  String.eqb t "--" = false /\ parse_optional t = Err 2%Z.
Proof. intros [<-|[<-|[]]] [->| ->]; split; reflexivity. Qed.

(** C25: [--e] and [--en] are prefixes of both [--env] and [--env-id]:
    wherever such an abbreviation (or [--e=v], [--en=v]) appears before
    any [--], the first pass exits with status 2, before any option is
    acted on, even a [--help] written earlier. *)
Theorem parse_args_ambiguous pre post p v t :
  ~ In "--" pre -> In p ["--e"; "--en"] -> t = p \/ t = (p ++ "=" ++ v)%string ->
  parse_args (pre ++ t :: post) = Err 2%Z.
Proof.
  intros Hn Hp Ht. destruct (parse_optional_ambiguous p v t Hp Ht) as [Hs Hpo].
  unfold parse_args, parse_args_ns. rewrite classify_app by exact Hn.
  destruct (classify pre) as [ts|e] eqn:Hc; cbn [rbind].
  - simpl classify at 1. rewrite Hs, Hpo. reflexivity.
  - rewrite (classify_err _ _ Hc). reflexivity.
Qed.

(** C26: The help option, written in full, as [-h] or abbreviated, exits
    with status 0 when it is reached: after a prefix that parses, and
    whatever follows it, as long as what follows has no ambiguous
    abbreviation. *)
Theorem parse_args_help pre post h a :
  parse_args pre = Ok a -> (exists ts, classify post = Ok ts) ->
  In h ["-h"; "--help"; "--h"; "--he"; "--hel"] ->
  parse_args (pre ++ h :: post) = Err 0%Z.
Proof.
  intros Hp [ts Hc] Hh. unfold parse_args in *. rewrite (parse_args_app _ _ _ _ Hp).
  unfold parse_args_ns.
  rewrite (classify_cons_opt h post (TOpt (Some AHelp) (if String.eqb h "-h" then "-h" else "--help") None h)),
    Hc by (destruct Hh as [<-|[<-|[<-|[<-|[<-|[]]]]]]; reflexivity).
  reflexivity.
Qed.

(** C27: The [type=int] options: a value that [int()] refuses makes
    [parse_args] exit with status 2 at that option, whatever comes
    after it. *)
Theorem parse_args_bad_int pre post o v a :
  parse_args pre = Ok a -> (exists ts, classify post = Ok ts) ->
  In o ["--seed"; "--test"] -> py_int_of_str v = Err ValueError ->
  parse_args (pre ++ (o ++ "=" ++ v)%string :: post) = Err 2%Z.
Proof.
  intros Hp [ts Hc] Ho Hv. unfold parse_args in *. rewrite (parse_args_app _ _ _ _ Hp).
  unfold parse_args_ns. destruct Ho as [<-|[<-|[]]];
    [ rewrite (classify_cons_opt _ post (TOpt (Some ASeed) "--seed" (Some v) ("--seed=" ++ v)))
    | rewrite (classify_cons_opt _ post (TOpt (Some ATest) "--test" (Some v) ("--test=" ++ v))) ];
    try reflexivity; rewrite Hc; cbn [rbind consume set_option]; rewrite Hv; reflexivity.
Qed.

(** ** Concrete command lines *)

Lemma parse_args_ambiguous_witness : parse_args (["--help"] ++ "--e" :: ["x"]) = Err 2%Z.
Proof.
  apply (parse_args_ambiguous ["--help"] ["x"] "--e" ""); [intros [H|[]]; discriminate H | left; reflexivity | left; reflexivity].
Defined.

Lemma parse_args_help_witness : parse_args (["--seed=3"] ++ "--he" :: ["--bogus"]) = Err 0%Z.
Proof.
  apply (parse_args_help _ _ _ (mk_args "mappo" "football" "1v1" 3 0 "cuda:0"));
    [reflexivity | eexists; reflexivity | right; right; right; left; reflexivity].
Defined.

Lemma parse_args_bad_int_witness : parse_args ([] ++ ("--test" ++ "=" ++ "yes")%string :: []) = Err 2%Z.
Proof.
  apply (parse_args_bad_int _ _ _ _ default_args);
    [reflexivity | eexists; reflexivity | right; left; reflexivity | reflexivity].
Defined.

(** The launcher on a typical command line: the abbreviation [--s],
    the [int] spelling [+3] and the last [--env] win. *)
Example main_example :
  main ["--method"; "qmix"; "--env"; "sc2"; "--s"; "+3"; "--env=mpe"; "--test"; "1"]
  = Ok (mk_runner_call "qmix" "mpe" "1v1" (mk_args "qmix" "mpe" "1v1" 3 1 "cuda:0") 1).
Proof. reflexivity. Qed.
