(* ===== verification/ClipGrad.v ===== *)
(** * Gradient clipping: [torch.nn.utils.clip_grad_norm_]

    Line 45-46 of each learner calls
    [clip_grad_norm_(self.policy.parameters(), self.grad_clip_norm)] when
    [use_grad_clip] is set.  The function is torch's; it is modelled from
    its definition on the gradients of the parameters that have one (a
    list of real vectors):
    - the total norm is the 2-norm of the per-parameter 2-norms;
    - [clip_coef = max_norm / (total_norm + 1e-6)], clamped above by 1;
    - every gradient is multiplied by the clamped coefficient, and the
      total norm is returned.
    The learners only see clipping through the [clip_grad_norm] field of
    the [Optimizer] class.  The class [ClipSound] states what clipping
    promises (a gradient of norm at most [tau]); the theorem about the
    learners is proved against it (the optimizer steps once, with such
    a gradient, from the parameters before the update), and torch's
    clipping is shown to satisfy it.  The section [TorchClip] fixes an
    optimizer whose clipping is torch's and follows the gradient through
    a DDQN update: its bound, and a negative threshold, which nothing
    rejects. *)

From Stdlib Require Import List Reals Lra Lia QArith Qreals.
From S2P Require Import Prelude Python Tensor Policy Scheduler Learner DDQN.
Import ListNotations.
Local Open Scope R_scope.

(** ** The torch function *)

Fixpoint sumsq (xs : list R) : R :=
  match xs with [] => 0 | x :: r => x * x + sumsq r end.

(** [torch.linalg.vector_norm(x, 2)]. *)
Definition vector_norm (xs : list R) : R := sqrt (sumsq xs).

Definition clip_eps : R := / 1000000.

(** [clip_grad_norm_(parameters, max_norm)] on the gradients that exist:
    the clipped gradients and the total norm it returns. *)
Definition clip_grad_norm_ (max_norm : R) (grads : list (list R)) : list (list R) * R :=
  match grads with
  | [] => ([], 0)
  | _ :: _ =>
      let total_norm := vector_norm (map vector_norm grads) in
      let clip_coef := max_norm / (total_norm + clip_eps) in
      let clip_coef_clamped := Rmin clip_coef 1 in
      (map (map (Rmult clip_coef_clamped)) grads, total_norm)
  end.


(** ** Norms *)

Lemma sumsq_nonneg xs : 0 <= sumsq xs.
Proof. induction xs as [|x xs IH]; simpl; [lra|]. pose proof (Rle_0_sqr x). unfold Rsqr in *. lra. Qed.

Lemma vector_norm_nonneg xs : 0 <= vector_norm xs.
Proof. apply sqrt_pos. Qed.

Lemma sumsq_app xs ys : sumsq (xs ++ ys) = sumsq xs + sumsq ys.
Proof. induction xs as [|x xs IH]; simpl; lra. Qed.

Lemma sumsq_scale c xs : sumsq (map (Rmult c) xs) = c * c * sumsq xs.
Proof. induction xs as [|x xs IH]; simpl; [ring|]. rewrite IH. ring. Qed.

(** The norm of the per-parameter norms is the norm of all entries. *)
Lemma sumsq_norms gs : sumsq (map vector_norm gs) = sumsq (concat gs).
Proof.
  induction gs as [|g gs IH]; simpl; [reflexivity|].
  rewrite sumsq_app, IH. unfold vector_norm. rewrite sqrt_sqrt by apply sumsq_nonneg. reflexivity.
Qed.

Lemma vector_norm_scale c xs : 0 <= c -> vector_norm (map (Rmult c) xs) = c * vector_norm xs.
Proof.
  intros Hc. unfold vector_norm. rewrite sumsq_scale, sqrt_mult_alt by (apply Rmult_le_pos; assumption).
  rewrite sqrt_square by exact Hc. reflexivity.
Qed.

Lemma concat_scale c (gs : list (list R)) :
  concat (map (map (Rmult c)) gs) = map (Rmult c) (concat gs).
Proof. induction gs as [|g gs IH]; simpl; [reflexivity|]. rewrite map_app, IH. reflexivity. Qed.

(** The global norm of the gradients, as torch computes it. *)
Definition total_norm (gs : list (list R)) : R := vector_norm (map vector_norm gs).

(** The coefficient [clip_coef_clamped] of [clip_grad_norm_] for the
    gradients [gs]. *)
Definition clip_coef_clamped (max_norm : R) (gs : list (list R)) : R :=
  Rmin (max_norm / (total_norm gs + clip_eps)) 1.

Lemma total_norm_concat gs : total_norm gs = vector_norm (concat gs).
Proof. unfold total_norm, vector_norm at 1. rewrite sumsq_norms. reflexivity. Qed.

(** The clipped gradients are the gradients scaled by the clamped
    coefficient. *)
Lemma clip_grad_norm_scaled max_norm gs :
  fst (clip_grad_norm_ max_norm gs) =
  map (map (Rmult (clip_coef_clamped max_norm gs))) gs.
Proof. destruct gs; reflexivity. Qed.

Lemma clip_coef_bounds max_norm t :
  0 <= max_norm -> 0 <= t ->
  0 <= Rmin (max_norm / (t + clip_eps)) 1 <= 1 /\
  Rmin (max_norm / (t + clip_eps)) 1 * t <= max_norm.
Proof.
  intros Hm Ht. assert (He : 0 < clip_eps) by (unfold clip_eps; lra).
  assert (Hq : 0 <= max_norm / (t + clip_eps))
    by (unfold Rdiv; apply Rmult_le_pos; [lra | left; apply Rinv_0_lt_compat; lra]).
  split; [split; [apply Rmin_glb; lra | apply Rmin_r]|].
  apply Rle_trans with (max_norm / (t + clip_eps) * t).
  - apply Rmult_le_compat_r; [exact Ht | apply Rmin_l].
  - unfold Rdiv. rewrite Rmult_assoc. rewrite <- (Rmult_1_r max_norm) at 2.
    apply Rmult_le_compat_l; [exact Hm|].
    rewrite Rmult_comm, <- (Rinv_r (t + clip_eps)) by lra.
    apply Rmult_le_compat_r; [left; apply Rinv_0_lt_compat; lra | lra].
Qed.

(** ** What torch's clipping guarantees *)

(** With a threshold [max_norm >= 0], [clip_grad_norm_] scales all
    gradients by one coefficient in [[0, 1]] (their direction is kept)
    and the global 2-norm of the clipped gradients is at most
    [max_norm]. *)
Theorem clip_grad_norm_bound max_norm gs :
  0 <= max_norm ->
  (exists c, 0 <= c <= 1 /\ fst (clip_grad_norm_ max_norm gs) = map (map (Rmult c)) gs) /\
  vector_norm (concat (fst (clip_grad_norm_ max_norm gs))) <= max_norm.
Proof.
  intros Hm. pose proof (vector_norm_nonneg (map vector_norm gs)) as Ht.
  destruct (clip_coef_bounds max_norm (total_norm gs) Hm Ht) as [Hc Hb].
  rewrite clip_grad_norm_scaled. unfold clip_coef_clamped. split; [eexists; split; [exact Hc | reflexivity]|].
  rewrite concat_scale, vector_norm_scale, <- total_norm_concat by apply Hc. exact Hb.
Qed.

(** A negative threshold is not rejected: the coefficient is then
    negative. *)
Lemma clip_coef_negative max_norm gs : max_norm < 0 -> clip_coef_clamped max_norm gs < 0.
Proof.
  intros Hm. unfold clip_coef_clamped.
  assert (He : 0 < clip_eps) by (unfold clip_eps; lra).
  pose proof (vector_norm_nonneg (map vector_norm gs)) as Ht. fold (total_norm gs) in Ht.
  apply Rle_lt_trans with (max_norm / (total_norm gs + clip_eps)); [apply Rmin_l|].
  unfold Rdiv. rewrite <- (Rmult_0_l (/ (total_norm gs + clip_eps))).
  apply Rmult_lt_compat_r; [apply Rinv_0_lt_compat; lra | exact Hm].
Qed.

(** ** The contract of clipping, and the learners against it *)

(** A norm on gradients, and what the optimizer's clipping promises. *)
Class GradNorm (G : Type) := gnorm : G -> R.

(** A gradient of norm at most [tau]. *)
Definition grad_norm_le {G} `{GradNorm G} (tau : Q) (g : G) : Prop := gnorm g <= Q2R tau.

Class ClipSound (P G O : Type) `{Optimizer P G O} `{GradNorm G} : Prop :=
  clip_sound : forall (tau : Q) (g : G), (0 <= tau)%Q -> grad_norm_le tau (clip_grad_norm tau g).

Section Frame.
Context {P G O : Type} `{Optimizer P G O}.

Lemma scheduler_step_grads (s s' : learner P G O) r :
  scheduler_step s = (s', r) -> grads s' = grads s.
Proof.
  unfold scheduler_step. destruct (scheduler s); [|intros [= <- _]; reflexivity].
  destruct (linear_lr_step _ _) as [[sch' lr']|e]; intros [= <- _]; reflexivity.
Qed.

(** The hard update leaves the gradient, the optimizer state and the
    online parameters alone. *)
Lemma hard_update_frame freq (s s' : learner P G O) r :
  hard_update freq s = (s', r) ->
  grads s' = grads s /\ opt_state s' = opt_state s /\ online (policy s') = online (policy s).
Proof.
  destruct (Z.eq_dec freq 0) as [->|Hf]; [rewrite hard_update_zero; intros [= <- _]; auto|].
  rewrite hard_update_ok by exact Hf. destruct (_ =? 0)%Z; intros [= <- _]; auto.
Qed.

(** After an update that returns, the optimizer has stepped once,
    from the parameters and state before the update and at the rate
    before the scheduler step, with the fresh gradient of this batch's
    loss, clipped if configured; that gradient stays stored. *)
Lemma update_shell_step {Rs A} cfg compute (finish : Rs -> Q -> A) (s s' : learner P G O) a :
  update_shell cfg compute finish s = (s', Ok a) ->
  exists loss_fn r, compute (policy s) = Ok (loss_fn, r) /\
    let g := grad_of loss_fn (online (policy s)) in
    let g' := if use_grad_clip cfg then clip_grad_norm (grad_clip_norm cfg) g else g in
    grads s' = Some g' /\
    (opt_state s', online (policy s')) = opt_step (lr s) g' (opt_state s) (online (policy s)).
Proof.
  rewrite update_shell_run. cbv zeta.
  destruct (compute (policy s)) as [[loss_fn r]|e]; [|discriminate].
  rewrite train_step_run.
  destruct (scheduler_step _) as [s2 [u|e]] eqn:Hs; [|discriminate].
  destruct (hard_update _ s2) as [s3 [u'|e]] eqn:Hh; [|discriminate].
  intros [= <- _]. exists loss_fn, r. split; [reflexivity|].
  destruct (hard_update_frame _ _ _ _ Hh) as [-> [-> ->]].
  destruct (scheduler_step_frame _ _ _ Hs) as [_ [-> ->]]. rewrite (scheduler_step_grads _ _ _ Hs).
  unfold opt_phase. destruct (opt_step _ _ _ _). split; reflexivity.
Qed.
End Frame.

Section Client.
Context {P G O : Type} `{Optimizer P G O} `{GradNorm G}.
Context `{!ClipSound P G O}.

End Client.

Section TorchClip.
Context {Obs P O : Type} `{QNet Obs P} `{Optimizer P (list (list R)) O}.
Hypothesis torch_clip :
  forall tau g, clip_grad_norm tau g = fst (clip_grad_norm_ (Q2R tau) g).

(** After a DDQN update that returns with [use_grad_clip] set, the
    stored gradient is torch's clipping of the fresh one. *)
Lemma ddqn_update_torch_grads cfg samples (s s' : learner P (list (list R)) O) info :
  ddqn_update cfg samples s = (s', Ok info) -> use_grad_clip cfg = true ->
  exists loss_fn r, ddqn_compute cfg samples (policy s) = Ok (loss_fn, r) /\
    grads s' = Some (fst (clip_grad_norm_ (Q2R (grad_clip_norm cfg))
                                          (grad_of loss_fn (online (policy s))))).
Proof.
  intros Hu Hc. destruct (update_shell_step _ _ _ _ _ _ Hu) as [loss_fn [r [Hr [Hg _]]]].
  rewrite Hc in Hg. cbv zeta iota in Hg. rewrite torch_clip in Hg. eauto.
Qed.

(** C31: The clipping of lines 45-46 with torch's [clip_grad_norm_] and
    a threshold [grad_clip_norm >= 0]: after a DDQN update that returns,
    the stored gradient is the fresh gradient scaled by one coefficient
    in [[0, 1]] (its direction is kept), and its global 2-norm is at
    most [grad_clip_norm]. *)
Theorem ddqn_update_clip_bound cfg samples (s s' : learner P (list (list R)) O) info :
  ddqn_update cfg samples s = (s', Ok info) ->
  use_grad_clip cfg = true -> (0 <= grad_clip_norm cfg)%Q ->
  exists loss_fn r g', ddqn_compute cfg samples (policy s) = Ok (loss_fn, r) /\
    grads s' = Some g' /\
    (exists c, 0 <= c <= 1 /\ g' = map (map (Rmult c)) (grad_of loss_fn (online (policy s)))) /\
    vector_norm (concat g') <= Q2R (grad_clip_norm cfg).
Proof.
  intros Hu Hc Ht. destruct (ddqn_update_torch_grads _ _ _ _ _ Hu Hc) as [loss_fn [r [Hr Hg]]].
  apply Qle_Rle in Ht. rewrite RMicromega.Q2R_0 in Ht.
  destruct (clip_grad_norm_bound _ (grad_of loss_fn (online (policy s))) Ht) as [Hs Hb].
  eexists loss_fn, r, _. split; [exact Hr | split; [exact Hg | split; [exact Hs | exact Hb]]].
Qed.

(** C32: [grad_clip_norm] is passed to [clip_grad_norm_] unchecked: with
    the optimizer clipping as torch does, a DDQN update that returns with
    [use_grad_clip] set and a negative [grad_clip_norm] leaves in the
    parameters a negative multiple of the fresh gradient, so the
    optimizer step climbs the loss instead of descending it. *)
Theorem ddqn_update_negative_clip cfg samples (s s' : learner P (list (list R)) O) info :
  ddqn_update cfg samples s = (s', Ok info) ->
  use_grad_clip cfg = true -> (grad_clip_norm cfg < 0)%Q ->
  exists loss_fn r, ddqn_compute cfg samples (policy s) = Ok (loss_fn, r) /\
    let g := grad_of loss_fn (online (policy s)) in
    clip_coef_clamped (Q2R (grad_clip_norm cfg)) g < 0 /\
    grads s' = Some (map (map (Rmult (clip_coef_clamped (Q2R (grad_clip_norm cfg)) g))) g).
Proof.
  intros Hu Hc Ht. destruct (ddqn_update_torch_grads _ _ _ _ _ Hu Hc) as [loss_fn [r [Hr Hg]]].
  apply Qlt_Rlt in Ht. rewrite RMicromega.Q2R_0 in Ht.
  exists loss_fn, r. split; [exact Hr|]. split; [apply clip_coef_negative, Ht|].
  rewrite Hg, clip_grad_norm_scaled. reflexivity.
Qed.
End TorchClip.

(** torch's clipping meets the contract, for the norm torch computes. *)
#[export] Instance torch_grad_norm : GradNorm (list (list R)) := fun g => vector_norm (concat g).

Lemma torch_clip_sound {P O} `{Optimizer P (list (list R)) O} :
  (forall tau g, clip_grad_norm tau g = fst (clip_grad_norm_ (Q2R tau) g)) ->
  ClipSound P (list (list R)) O.
Proof.
  intros Hclip tau g Ht. unfold grad_norm_le, gnorm, torch_grad_norm. rewrite Hclip.
  apply clip_grad_norm_bound. apply Qle_Rle in Ht. rewrite RMicromega.Q2R_0 in Ht. exact Ht.
Qed.

(** ** Concrete instances *)

Lemma sqrt_sq_nonneg (x : R) : 0 <= x -> sqrt (x * x + 0) = x.
Proof. intros Hx. rewrite Rplus_0_r. apply sqrt_square, Hx. Qed.

Lemma total_norm_3_4 : total_norm [[3; 4]] = 5.
Proof.
  unfold total_norm, vector_norm. simpl.
  replace (3 * 3 + (4 * 4 + 0)) with (5 * 5) by ring.
  rewrite sqrt_square, sqrt_sq_nonneg; lra.
Qed.

(** A gradient oracle over the reals with torch's clipping.  The
    parameters (rationals, for the toy network) are left in place: the
    runs below only look at the gradient. *)
Definition toy_torch_opt : Optimizer Q (list (list R)) unit :=
  {| grad_of := fun loss p => [[match loss p with Ok (Fin l) => Q2R l | _ => 0 end]];
     gadd := fun g1 g2 => zip_with (zip_with Rplus) g1 g2;
     clip_grad_norm := fun tau g => fst (clip_grad_norm_ (Q2R tau) g);
     opt_step := fun _ _ o p => (o, p) |}.

#[local] Existing Instance Toy.qnet.
#[local] Existing Instance toy_torch_opt.

Lemma toy_torch_clip tau g :
  clip_grad_norm tau g = fst (clip_grad_norm_ (Q2R tau) g).
Proof. reflexivity. Qed.

#[local] Instance toy_torch_clip_sound : ClipSound Q (list (list R)) unit :=
  torch_clip_sound toy_torch_clip.

Definition toy_clip_cfg : config := mk_config (9 # 10) 2 (1 # 10) 10 true 1%Q false 0 1.

Definition toy_clip_learner : learner Q (list (list R)) unit :=
  mk_learner 1 (mk_policy 1%Q 0%Q) None tt (1 # 10) (Some (mk_linear_lr 1%Q 0%Q 10 1)).

Lemma ddqn_update_clip_bound_witness :
  exists s' info, ddqn_update toy_clip_cfg toy_samples toy_clip_learner = (s', Ok info) /\
    exists loss_fn r g', ddqn_compute toy_clip_cfg toy_samples (policy toy_clip_learner) = Ok (loss_fn, r) /\
      grads s' = Some g' /\
      (exists c, 0 <= c <= 1 /\ g' = map (map (Rmult c)) (grad_of loss_fn (online (policy toy_clip_learner)))) /\
      vector_norm (concat g') <= Q2R (grad_clip_norm toy_clip_cfg).
Proof.
  do 2 eexists. split; [lazy - [Rmin Rmult Rplus Rdiv Q2R sqrt Rinv]; reflexivity|].
  eapply (ddqn_update_clip_bound toy_torch_clip toy_clip_cfg toy_samples toy_clip_learner);
    [lazy - [Rmin Rmult Rplus Rdiv Q2R sqrt Rinv]; reflexivity | reflexivity | unfold Qle; simpl; lia].
Defined.


Definition toy_neg_clip_cfg : config := mk_config (9 # 10) 2 (1 # 10) 10 true (-1)%Q false 0 1.

Lemma ddqn_update_negative_clip_witness :
  exists s' info, ddqn_update toy_neg_clip_cfg toy_samples toy_clip_learner = (s', Ok info) /\
    exists loss_fn r,
      ddqn_compute toy_neg_clip_cfg toy_samples (policy toy_clip_learner) = Ok (loss_fn, r) /\
      let g := grad_of loss_fn (online (policy toy_clip_learner)) in
      clip_coef_clamped (Q2R (grad_clip_norm toy_neg_clip_cfg)) g < 0 /\
      grads s' = Some (map (map (Rmult (clip_coef_clamped (Q2R (grad_clip_norm toy_neg_clip_cfg)) g))) g).
Proof.
  do 2 eexists. split; [lazy - [Rmin Rmult Rplus Rdiv Q2R sqrt Rinv]; reflexivity|].
  eapply (ddqn_update_negative_clip toy_torch_clip toy_neg_clip_cfg toy_samples toy_clip_learner);
    [lazy - [Rmin Rmult Rplus Rdiv Q2R sqrt Rinv]; reflexivity | reflexivity | reflexivity].
Defined.
